(* ===== verification/_CoqProject ===== *)
-Q . S2P
Prelude.v
JsValue.v
ObjectId.v
Store.v
Summary.v
Api.v
Server.v
Forms.v
Ui.v
Legacy.v
Render.v
Effects.v
View.v
LegacyView.v
Submissions.v
