(* ===== verification/Prelude.v ===== *)
(** * A verification library for the funding-pool tracker (userboss1/MAIN)

    The program is a small HTTP service (Express on Node.js, MongoDB as its
    document store) with a React dashboard.  Its parts, and how they talk:

    - [src/backend/config/db.js]: a process-wide connection handle [db],
      [null] until [connect] succeeds; [get()] returns it.
    - [src/backend/index.js]: starts the server; it calls [connect] and
      only calls [app.listen] when the connection succeeded.
    - [src/backend/routes.js/pool.js]: five request handlers (list pools,
      create pool, add person, add admin shares, pool summary).  Each one
      validates its input, then, inside [try], calls the store through
      [getDB()] and answers 200/201, or 500 when anything throws.  The
      summary handler also computes the derived funding figures.
    - [src/frontend/vite-project/src]: the dashboard, which calls these
      handlers over HTTP and renders their answers.

    ** Files of the development (in dependency order)

    - [Prelude] (this file): the handler monad [M] (reader of the request
      environment, state of the store, exceptions) with its notation in
      [pool_scope], the tactics [qbool] and [case_q], the hint database
      [pool], and the generic lemmas on rationals, sums and lists.
    - [JsValue]: the ECMAScript semantics the handlers rely on: JSON values
      as parsed by [express.json()], truthiness ([!x]), [typeof x ===
      'number'], [a || b], and [Number.prototype.toFixed(2)] followed by
      [parseFloat] ([round2]).
    - [ObjectId]: MongoDB object ids as 96-bit numbers, [toHexString] and
      the hex parser of [new ObjectId(string)], [ObjectId.isValid], and the
      handler-side check [isValidObjectId] of pool.js (lines 8-10).
    - [Summary]: the summary calculator of the [GET /:poolId/summary]
      handler (pool.js lines 129-166): sums, remaining amount, [isFunded],
      [calculatePercentage], and the summary record.
    - [Store]: the two collections ([pools], [people]) behind an interface
      (the class [PoolStore] and its laws [PoolStoreLaws]), and the list
      implementation [ListStore] in natural (insertion) order, with
      [insertOne] refusing a duplicate [_id], [findOne], [find] with a
      filter, [sort({createdAt:-1})] and [updateOne] with [$inc].
    - [Api]: the five handlers of pool.js, written against the [PoolStore]
      interface, each one whole: the guards in the code's order with their
      exact messages, the calls to the store inside the [try], the 500 on
      any exception, and the response status and body.  [reachable] is
      the closure of a store under requests.
    - [Server]: the process: the handle of db.js ([connect] with its
      [try]/[catch] around [done], and [get]) and the top level of
      index.js ([port_of], the callback [on_connect], [listen]); [boot]
      runs the connection, [serve] runs one request through [Api.handle] on
      the handle, and [srv_reachable] is the step relation of a process
      (boot, then requests while it listens).
    - [Forms]: what the dashboard sends: [js_Number] ([Number()] on the
      value of a number input, [NaN] as [None]), the request bodies of the
      three forms of App.jsx and the positive check of the admin-shares
      form, [useApi().post], and [submit], which runs a submission
      through the handlers and ends with a toast.
    - [Ui]: the state of App.jsx: the [useFetch] state machine
      ([fetch_start], [fetch_finish]), the figures of [PoolDetailView],
      and [app_step], the state of [App] under its events, with the
      toast's 4-second timer that every render of [App] restarts.
    - [Legacy]: views/PoolsList.jsx, views/PoolDetail.jsx and
      hooks/useFetch.jsx, which App.jsx does not use.  They do not build
      as they stand, and the hook throws a ReferenceError at its first
      call ([legacy_useFetch]: [useCallback] is not imported), so neither
      view renders; the code after the hook call is modelled as it would
      run once the imports were fixed, to compare it with App.jsx.
    - [Render]: [toFixed(2)] as ECMA-262 writes it, the funding bar, the
      toast's style and the colours of the pie.
    - [Effects]: React's effects of the dashboard: [useCallback] and
      [useEffect] with their dependencies ([FnId]: a memoised function or
      a new arrow), the three effects (the listing's and the detail
      view's [useFetch], [Toast]'s timer), [commit] after a render, and
      [settle], render and commit repeated with fuel until no effect
      changes the state.
    - [View]: the markup of App.jsx as element trees ([Html], with the
      event props as [Handler]s that name [Ui.app_step] events), [click]
      with bubbling and [stopPropagation], and renders that throw
      ([Exc string]): a JS object as a child, and the [ErrorMessage]
      App.jsx uses without importing it.
    - [LegacyView]: the markup of components/*.jsx and of
      views/PoolDetail.jsx in the same trees.
    - [Submissions]: the create modal with its posts in flight ([Flow],
      [flow_step]): [useApi]'s [loading] flag per mounted [CreatePoolForm]
      (App.jsx lines 107-123), the disabled [FormButton] (156-160), and
      answers ([FResolve]) that arrive in any order, also after the modal
      was closed ([FClose]) or opened again ([FOpen] mounts a new form).
      [Ui.app_step] is the case where each answer comes at once.

    ** Modelling choices

    - JavaScript numbers are modelled as exact rationals [Q].  Request
      bodies are JSON, so the numbers that reach the handlers are finite;
      sums, differences, quotients and comparisons are then exact, whereas
      the code computes them in binary64.  [toFixed(2)] is modelled exactly
      on that exact value (nearest hundredth, ties to the larger magnitude,
      the unrounded value from 1e21 on), as ECMA-262 specifies it.
    - A store failure (connection loss, I/O error) is an input of the
      request: the environment [Env] says which store calls of the request
      fail.  The identifier the driver draws for [insertOne] and the clock
      read by [new Date()] are inputs of the environment as well; a drawn
      identifier that is already used makes [insertOne] fail, as MongoDB's
      unique [_id] index does.
    - The store holds the documents these handlers write: their fields
      have the types the handlers' guards ensure (a number amount is a
      [Q]; a name is any truthy JSON value, as the code checks no more).

    ** What is proved (grouped by file)

    - [Summary]: the totals and the remaining amount, [isFunded] as a
      comparison, the zero-goal case, the rounding error of
      [calculatePercentage] (at most 1/200) and the bound on the sum of all
      shares, monotonicity of a share for a positive goal and its failure
      for a negative goal, which the API accepts.
    - [ObjectId]: the hex round trip, and that [isValidObjectId] accepts
      exactly the lowercase 24-digit hex strings, in particular every id
      the store hands out.
    - [Store]: the list store satisfies the interface laws; listing is
      sorted by [createdAt], descending, and a permutation of the pools.
    - [Api]: validation errors and store failures leave the store
      unchanged; every handler preserves the store invariant, so in every
      reachable store a summary has a nonzero goal; each handler's answer
      on every branch; no exception escapes a handler; the scenarios of
      the spec.
    - [Server]: a process listens exactly when the handle is set, so no
      request meets the [null] handle; a rejected connection serves
      nothing; the stores a process reaches are the [Api.reachable] ones,
      so a process connected to a well-formed store keeps it well-formed
      and every summary it sends has a nonzero goal; a listening process
      answers the listing with 200 whenever the store call succeeds; the
      outcome of the boot with its log.
    - [Forms]: whatever is typed in the admin-shares form, no admin
      share goes down; a falsy goal is refused with the handler's
      message; the bodies' fields are strings or [Number()]s;
      [Number()] agrees with the Standard Library's decimal numerals.
    - [Ui]: every dashboard event that changes the store makes the
      listing fetch again; every listed pool can be opened and shows its
      summary; in every reachable state a shown toast has a running timer
      of at most 4 s, four quiet seconds dismiss it (liveness), but renders
      of [App] within each 4 s keep it, as when the user opens and closes
      the create modal every 3999 ms; the bar is full exactly
      when the pool is funded; an end-to-end run where a goal of ["-500"]
      gives a pool that is funded with no investment.
    - [Legacy]: as written, mounting either legacy view throws the
      hook's ReferenceError.  With the imports fixed, the main area of
      App.jsx would show what [PoolsList] shows in every reachable state;
      the two fetch callbacks agree except that on an error status App.jsx
      shows the status and the legacy one the handler's message; the
      detail figures agree for a positive goal and diverge for a negative
      one.
    - [Render]: the model of [toFixed(2)] read back as a number is
      [round2], the rounding the model of [calculatePercentage] uses; the funding bar is
      not clamped for an overfunded pool.
    - [Effects]: the render-effect cycle terminates: from any state it
      settles within two renders, and the end of a fetch starts no new
      one, because [useCallback] keeps [fetchData] while the URL is the
      same; [handleDataUpdate] as [Ui.app_step] takes it (new version,
      fetch started, timer restarted) is what the effects make of
      [setDataVersion] (a refinement).
    - [View]: a failed read of the listing blanks the page (the
      undefined [ErrorMessage]) instead of the error panel the spec
      describes; with the listing loaded, the page renders exactly when
      no pool name holds a JS object, which [POST /create] accepts; every
      form on screen answers its submission with a toast; each listed
      pool's Details button runs the [ViewDetails] that opens it; a click
      inside a modal's body never reaches its backdrop.
    - [LegacyView]: the legacy detail view shows the error panel with a
      working Retry where App.jsx's throws, and the two detail views
      render the same summaries.
    - [Submissions]: by induction on reachable states, the mounted form
      is loading exactly when one of its own posts is in flight, and then
      only one; [Ui.app_step]'s submission refines to the modal's submit
      followed at once by its answer (same modal, toast, [dataVersion] and
      store, nothing left in flight); and from any open, idle form,
      closing and reopening the modal while a post is pending lets the
      same request be posted twice, and the first answer closes the
      reopened modal.

    ** Bounds and fuel

    Only [Effects.settle] takes fuel: every other recursion is structural
    (on lists, strings, JSON values, element trees, decimal numerals and
    the hex digit count).  Two renders are enough for [settle] from any
    state ([Effects.effects_settle]): the first commit records the
    current dependencies, so the second runs no fetch; the fuel is a
    bound that the theorem shows is reached, not an assumption.  Every
    definition computes, and the scenarios are proved by
    [vm_compute].  Time in the dashboard is counted in milliseconds
    ([nat]); the toast's timer never exceeds 4000.  Ids are bounded by 2^96, the
    size of an ObjectId; the rounding bound 1/200 is the half-hundredth of
    [toFixed(2)].

    ** Not modelled

    - CORS and JSON parsing ([index.js] middleware): a handler receives
      the parsed body (or path parameter) directly; a malformed JSON body,
      which Express answers itself, is not modelled.
    - Static styling ([className] strings that do not depend on data),
      the chart library's own drawing (its [Tooltip] formatter), and
      three display built-ins, which are parameters of the markup:
      [Intl.NumberFormat] currency formatting, [toLocaleDateString], and
      [Number.prototype.toString] (also used for the bar's width and for
      [toFixed] from 1e21 on).
    - The [loading] flag of the two forms of the detail view
      ([AddPersonForm], [AddAdminSharesForm]): only the create modal's is
      modelled ([Submissions]); theirs work the same way.  [View] renders
      every form as not loading, the state [Ui.app_step] leaves.
    - React's scheduling beyond the effects: renders are synchronous,
      and an effect's state update renders again only when it changes a
      value, as React's bail-out does.
    - binary64 rounding of sums and quotients (see above), and numbers
      that are not finite.
*)

From Stdlib Require Import QArith Qround Qabs Lqa ZArith List.
From stdpp Require Import base decidable list.

Declare Scope pool_scope.
Delimit Scope pool_scope with pool.

Create HintDb pool.

(** ** The handler monad

    A handler reads the request environment [E], threads the store state
    [S], and may throw an exception [X] (the code's [throw], caught by the
    handler's [catch]). *)

Inductive Exc (X A : Type) : Type :=
| Ok (a : A)
| Throw (e : X).
Arguments Ok {X A} a.
Arguments Throw {X A} e.

Definition M (E S X A : Type) : Type := E -> S -> Exc X A * S.

Definition ret {E S X A} (a : A) : M E S X A := fun _ s => (Ok a, s).

Definition bind {E S X A B} (m : M E S X A) (k : A -> M E S X B) : M E S X B :=
  fun e s =>
    match m e s with
    | (Ok a, s') => k a e s'
    | (Throw x, s') => (Throw x, s')
    end.

Definition ask {E S X} : M E S X E := fun e s => (Ok e, s).

(** [try { m } catch (error) { h }]. *)
Definition catch {E S X A} (m : M E S X A) (h : X -> M E S X A) : M E S X A :=
  fun e s =>
    match m e s with
    | (Ok a, s') => (Ok a, s')
    | (Throw x, s') => h x e s'
    end.

Notation "x <- m ;; k" := (bind m (fun x => k))
  (at level 100, m at next level, right associativity) : pool_scope.
Notation "m ;; k" := (bind m (fun _ => k))
  (at level 100, right associativity) : pool_scope.

(** ** Rationals: the boolean tests the code uses, as propositions *)

Open Scope Q_scope.

Lemma Qeq_bool_false x y : Qeq_bool x y = false <-> ~ x == y.
Proof.
  rewrite <- Qeq_bool_iff. destruct (Qeq_bool x y); intuition congruence.
Qed.

Lemma Qle_bool_false x y : Qle_bool x y = false <-> y < x.
Proof.
  split; intros H.
  - apply Qnot_le_lt. rewrite <- Qle_bool_iff. congruence.
  - destruct (Qle_bool x y) eqn:E; [|reflexivity].
    apply Qle_bool_iff in E. exfalso. exact (Qlt_not_le _ _ H E).
Qed.

#[export] Instance Qle_bool_Proper : Proper (Qeq ==> Qeq ==> eq) Qle_bool.
Proof.
  intros x x' Hx y y' Hy.
  destruct (Qle_bool x y) eqn:E1, (Qle_bool x' y') eqn:E2; try reflexivity;
    [apply Qle_bool_iff in E1; apply Qle_bool_false in E2
    |apply Qle_bool_false in E1; apply Qle_bool_iff in E2];
    rewrite Hx, Hy in *; exfalso; eapply Qlt_not_le; eassumption.
Qed.

#[export] Instance Qeq_bool_Proper : Proper (Qeq ==> Qeq ==> eq) Qeq_bool.
Proof.
  intros x x' Hx y y' Hy.
  destruct (Qeq_bool x y) eqn:E1, (Qeq_bool x' y') eqn:E2; try reflexivity;
    [apply Qeq_bool_iff in E1; apply Qeq_bool_false in E2
    |apply Qeq_bool_false in E1; apply Qeq_bool_iff in E2];
    rewrite Hx, Hy in *; contradiction.
Qed.

(** [qbool] turns every boolean rational test among the hypotheses into
    the proposition it decides. *)
Ltac qbool :=
  repeat match goal with
  | H : Qeq_bool _ _ = true |- _ => apply Qeq_bool_iff in H
  | H : Qeq_bool _ _ = false |- _ => apply Qeq_bool_false in H
  | H : Qle_bool _ _ = true |- _ => apply Qle_bool_iff in H
  | H : Qle_bool _ _ = false |- _ => apply Qle_bool_false in H
  end.

(** [case_q] splits on the first boolean rational test of the goal. *)
Ltac case_q :=
  match goal with
  | |- context [Qeq_bool ?a ?b] =>
      let E := fresh "Hq" in destruct (Qeq_bool a b) eqn:E; qbool
  | |- context [Qle_bool ?a ?b] =>
      let E := fresh "Hq" in destruct (Qle_bool a b) eqn:E; qbool
  end.

(** [qreplace a with b] rewrites [a] into [b] when [ring] proves
    [a == b]. *)
Tactic Notation "qreplace" constr(a) "with" constr(b) :=
  setoid_replace a with b using relation Qeq by ring.

(** ** Sums over a list, as [Array.prototype.reduce] computes them *)

(** [xs.reduce((sum, x) => sum + f(x), a)]. *)
Definition qsum_from {A} (f : A -> Q) (a : Q) (xs : list A) : Q :=
  fold_left (fun s x => s + f x) xs a.

Lemma qsum_from_acc {A} (f : A -> Q) a xs :
  qsum_from f a xs == a + qsum_from f 0 xs.
Proof.
  unfold qsum_from. revert a. induction xs as [|x xs IH]; intros a; simpl.
  - lra.
  - rewrite (IH (a + f x)), (IH (0 + f x)). lra.
Qed.

Lemma qsum_from_cons {A} (f : A -> Q) a x xs :
  qsum_from f a (x :: xs) == a + f x + qsum_from f 0 xs.
Proof. unfold qsum_from at 1. simpl. apply qsum_from_acc. Qed.

Lemma qsum_from_app {A} (f : A -> Q) a xs ys :
  qsum_from f a (xs ++ ys) == qsum_from f a xs + qsum_from f 0 ys.
Proof.
  unfold qsum_from at 1. rewrite fold_left_app. apply qsum_from_acc.
Qed.

Lemma qsum_from_ext {A} (f g : A -> Q) a b xs :
  a == b -> (forall x, In x xs -> f x == g x) ->
  qsum_from f a xs == qsum_from g b xs.
Proof.
  unfold qsum_from. revert a b. induction xs as [|x xs IH]; intros a b Hab Hfg;
    simpl; [exact Hab|].
  apply IH; [rewrite Hab, (Hfg x) by (left; reflexivity); reflexivity|].
  intros y Hy. apply Hfg. right. exact Hy.
Qed.

(** A sum of terms each within [d] of another term is within [n * d]. *)
Lemma qsum_from_close {A} (f g : A -> Q) (d : Q) xs :
  (forall x, In x xs -> Qabs (f x - g x) <= d) ->
  Qabs (qsum_from f 0 xs - qsum_from g 0 xs) <= inject_Z (Z.of_nat (length xs)) * d.
Proof.
  induction xs as [|x xs IH]; intros Hd.
  - unfold qsum_from. simpl length. simpl fold_left.
    change (inject_Z (Z.of_nat 0)) with 0. rewrite Qmult_0_l. apply Qle_refl.
  - rewrite 2qsum_from_cons.
    assert (Hx : Qabs (f x - g x) <= d) by (apply Hd; left; reflexivity).
    assert (Hr : Qabs (qsum_from f 0 xs - qsum_from g 0 xs)
                 <= inject_Z (Z.of_nat (length xs)) * d)
      by (apply IH; intros y Hy; apply Hd; right; exact Hy).
    simpl length. rewrite Nat2Z.inj_succ, <- Z.add_1_r, inject_Z_plus.
    assert (E : 0 + f x + qsum_from f 0 xs - (0 + g x + qsum_from g 0 xs)
                == (f x - g x) + (qsum_from f 0 xs - qsum_from g 0 xs)) by ring.
    rewrite E.
    eapply Qle_trans; [apply Qabs_triangle|].
    rewrite Qmult_plus_distr_l, Qmult_1_l. lra.
Qed.



Lemma qsum_from_fold_right {A} (f : A -> Q) xs :
  qsum_from f 0 xs == fold_right (fun x acc => f x + acc) 0 xs.
Proof.
  induction xs as [|x xs IH]; [reflexivity|].
  rewrite qsum_from_cons, IH. simpl. ring.
Qed.

Lemma qsum_from_scale {A} (f : A -> Q) (c : Q) xs :
  qsum_from (fun x => f x * c) 0 xs == qsum_from f 0 xs * c.
Proof.
  induction xs as [|x xs IH]; [reflexivity|].
  rewrite 2qsum_from_cons, IH. ring.
Qed.

Lemma qsum_from_map {A B} (f : B -> Q) (g : A -> B) a xs :
  qsum_from f a (map g xs) = qsum_from (fun x => f (g x)) a xs.
Proof.
  unfold qsum_from. revert a. induction xs as [|x xs IH]; intros a; simpl; [reflexivity|].
  apply IH.
Qed.
