(* ===== verification/JsValue.v ===== *)
(** * JavaScript values and the built-ins the handlers use

    The request bodies of pool.js are what [express.json()] parses: JSON
    values.  This file holds that value type, the JavaScript operations the
    handlers apply to request fields ([!x], [typeof x === 'number'],
    [x || y], reading a property of the body), and
    [parseFloat(x.toFixed(2))], the rounding of [calculatePercentage].
    These are ECMAScript's semantics, not code of the repository; the
    handlers that use them are in [Api] and [Summary]. *)

From Stdlib Require Import QArith Qround Qabs Lqa ZArith String List.
From stdpp Require Import base decidable.
From S2P Require Import Prelude.

Open Scope Q_scope.

(** ** JSON values

    Numbers are finite (JSON has no NaN or Infinity) and modelled as [Q].
    An object keeps its members in source order, duplicates included. *)
Inductive jsval : Type :=
| JUndefined
| JNull
| JBool (b : bool)
| JNum (q : Q)
| JStr (s : string)
| JArr (xs : list jsval)
| JObj (fields : list (string * jsval)).

(** [!!v]: [undefined], [null], [false], [0] and [""] are falsy. *)
Definition truthy (v : jsval) : bool :=
  match v with
  | JUndefined | JNull => false
  | JBool b => b
  | JNum q => negb (Qeq_bool q 0)
  | JStr s => negb (String.eqb s EmptyString)
  | JArr _ | JObj _ => true
  end.

(** [typeof v === 'number']. *)
Definition is_number (v : jsval) : bool :=
  match v with JNum _ => true | _ => false end.

(** [a || b] returns its first operand when that one is truthy. *)
Definition js_or (a b : jsval) : jsval := if truthy a then a else b.

(** A number field once the code has made sure it holds a number. *)
Definition num_or_zero (v : jsval) : Q :=
  match v with JNum q => q | _ => 0 end.

(** Reading [body.k] (the destructuring [const { k } = req.body]): the
    last member named [k] of an object ([JSON.parse] keeps the last of
    duplicate keys); [undefined] when there is none or the body is an
    array. *)
Fixpoint lookup_member (k : string) (fs : list (string * jsval)) : jsval :=
  match fs with
  | nil => JUndefined
  | (k', v) :: fs' =>
      match lookup_member k fs' with
      | JUndefined => if String.eqb k k' then v else JUndefined
      | w => w
      end
  end.

Definition get_field (body : jsval) (k : string) : jsval :=
  match body with
  | JObj fs => lookup_member k fs
  | _ => JUndefined
  end.

(** ** [parseFloat(x.toFixed(2))]

    ECMA-262 [Number.prototype.toFixed(2)]: the sign is set aside; a
    magnitude from 10^21 on is printed as it is; otherwise the result is
    [n / 100] for the integer [n] nearest to [100 * |x|], the larger one on
    a tie.  [parseFloat] reads that decimal back. *)
Definition round2_mag (a : Q) : Q := inject_Z (Qfloor (a * 100 + (1 # 2))) / 100.

Definition round2 (x : Q) : Q :=
  if Qle_bool (inject_Z (10 ^ 21)) (Qabs x) then x
  else if Qle_bool 0 x then round2_mag x else - round2_mag (- x).

(** ** Lemmas *)

#[export] Instance round2_mag_Proper : Proper (Qeq ==> Qeq) round2_mag.
Proof.
  intros a b E. unfold round2_mag.
  rewrite (Qfloor_comp (a * 100 + (1 # 2)) (b * 100 + (1 # 2))) by (rewrite E; reflexivity).
  reflexivity.
Qed.

#[export] Instance round2_Proper : Proper (Qeq ==> Qeq) round2.
Proof.
  intros x y E. unfold round2.
  assert (H1 : Qle_bool (inject_Z (10 ^ 21)) (Qabs x)
               = Qle_bool (inject_Z (10 ^ 21)) (Qabs y)) by (rewrite E; reflexivity).
  assert (H2 : Qle_bool 0 x = Qle_bool 0 y) by (rewrite E; reflexivity).
  rewrite H1, H2.
  destruct (Qle_bool _ (Qabs y)); [exact E|].
  destruct (Qle_bool 0 y); rewrite E; reflexivity.
Qed.

Lemma truthy_num q : truthy (JNum q) = true <-> ~ q == 0.
Proof.
  simpl. destruct (Qeq_bool q 0) eqn:E; qbool; simpl; intuition congruence.
Qed.

(** After the guards of [POST /create], [adminShare || 0] is a number. *)
Lemma js_or_zero_number v :
  (truthy v && negb (is_number v))%bool = false ->
  js_or v (JNum 0) = JNum (num_or_zero (js_or v (JNum 0))).
Proof.
  unfold js_or. destruct (truthy v) eqn:T; simpl; intros H; [|reflexivity].
  destruct v; simpl in H; try discriminate; reflexivity.
Qed.

Lemma round2_mag_close a : Qabs (round2_mag a - a) <= 1 # 200.
Proof.
  unfold round2_mag, Qdiv. change (/ 100) with (1 # 100).
  pose proof (Qfloor_le (a * 100 + (1 # 2))) as Hle.
  pose proof (Qlt_floor (a * 100 + (1 # 2))) as Hlt.
  rewrite inject_Z_plus in Hlt.
  set (n := inject_Z (Qfloor (a * 100 + (1 # 2)))) in *. clearbody n.
  apply Qabs_Qle_condition. change (inject_Z 1) with 1 in Hlt. split; lra.
Qed.

Lemma round2_mag_mono a b : a <= b -> round2_mag a <= round2_mag b.
Proof.
  intros H. unfold round2_mag.
  assert (Hz : (Qfloor (a * 100 + (1 # 2)) <= Qfloor (b * 100 + (1 # 2)))%Z)
    by (apply Qfloor_resp_le; lra).
  apply Qmult_le_compat_r; [|discriminate]. rewrite <- Zle_Qle. exact Hz.
Qed.

Lemma round2_mag_nonneg a : 0 <= a -> 0 <= round2_mag a.
Proof.
  intros H. eapply Qle_trans; [|apply round2_mag_mono, H]. discriminate.
Qed.

(** Below 10^21, the rounded magnitude stays at most 10^21. *)
Lemma round2_mag_below a :
  a < inject_Z (10 ^ 21) -> round2_mag a <= inject_Z (10 ^ 21).
Proof.
  intros H. unfold round2_mag.
  assert (Hz : (Qfloor (a * 100 + (1 # 2))
                <= Qfloor (inject_Z (10 ^ 21) * 100 + (1 # 2)))%Z)
    by (apply Qfloor_resp_le; lra).
  assert (Hc : Qfloor (inject_Z (10 ^ 21) * 100 + (1 # 2)) = (10 ^ 23)%Z)
    by reflexivity.
  rewrite Hc, Zle_Qle in Hz.
  assert (Hp : inject_Z (10 ^ 23) == inject_Z (10 ^ 21) * 100) by reflexivity.
  rewrite Hp in Hz. unfold Qdiv. change (/ 100) with (1 # 100).
  generalize dependent (inject_Z (10 ^ 21)).
  generalize (inject_Z (Qfloor (a * 100 + (1 # 2)))). intros. lra.
Qed.

Lemma round2_close x : Qabs (round2 x - x) <= 1 # 200.
Proof.
  unfold round2. case_q.
  - qreplace (x - x) with 0. discriminate.
  - case_q; [apply round2_mag_close|].
    pose proof (round2_mag_close (- x)) as Hc.
    qreplace (- round2_mag (- x) - x) with (- (round2_mag (- x) - - x)).
    rewrite Qabs_opp. exact Hc.
Qed.

Lemma round2_opp x : round2 (- x) == - round2 x.
Proof.
  unfold round2. rewrite Qabs_opp.
  case_q; [reflexivity|].
  destruct (Qle_bool 0 x) eqn:E1, (Qle_bool 0 (- x)) eqn:E2; qbool.
  - assert (Hx : x == 0) by lra. rewrite Hx. reflexivity.
  - rewrite Qopp_involutive. reflexivity.
  - rewrite Qopp_involutive. reflexivity.
  - lra.
Qed.

Lemma round2_of_nonneg a :
  0 <= a -> round2 a == if Qle_bool (inject_Z (10 ^ 21)) a then a else round2_mag a.
Proof.
  intros H. unfold round2. rewrite (Qabs_pos a H).
  destruct (Qle_bool _ a); [reflexivity|].
  apply Qle_bool_iff in H. rewrite H. reflexivity.
Qed.

Lemma round2_mono_nonneg a b : 0 <= a -> a <= b -> round2 a <= round2 b.
Proof.
  intros Ha Hab.
  rewrite (round2_of_nonneg a), (round2_of_nonneg b) by lra.
  destruct (Qle_bool (inject_Z (10 ^ 21)) a) eqn:Ea,
           (Qle_bool (inject_Z (10 ^ 21)) b) eqn:Eb; qbool.
  - exact Hab.
  - lra.
  - eapply Qle_trans; [apply round2_mag_below; exact Ea | lra].
  - apply round2_mag_mono, Hab.
Qed.

Lemma round2_nonneg a : 0 <= a -> 0 <= round2 a.
Proof.
  intros H. eapply Qle_trans; [|apply (round2_mono_nonneg 0 a); [lra | exact H]].
  discriminate.
Qed.

(** [parseFloat(x.toFixed(2))] is monotone. *)
Lemma round2_mono x y : x <= y -> round2 x <= round2 y.
Proof.
  intros H.
  destruct (Qlt_le_dec x 0) as [Hx|Hx]; [|apply round2_mono_nonneg; assumption].
  pose proof (round2_opp x) as Ox. pose proof (round2_nonneg (- x)) as Nx.
  destruct (Qlt_le_dec y 0) as [Hy|Hy].
  - pose proof (round2_opp y) as Oy.
    pose proof (round2_mono_nonneg (- y) (- x)) as My. lra.
  - pose proof (round2_nonneg y Hy). lra.
Qed.

(** [toFixed(2)] moves a value by at most half a hundredth and keeps the
    order: the two facts the percentage proofs rest on. *)
#[export] Hint Resolve round2_close round2_mono round2_nonneg : pool.
