(* ===== verification/ObjectId.v ===== *)
(** * MongoDB object identifiers and the handlers' id check

    An [ObjectId] is 12 bytes, a number below 2^96.  [toHexString] (which
    [String(id)] and the JSON encoding of an id call) prints it as 24
    lowercase hex digits; [new ObjectId(s)] reads 24 hex digits of either
    case; [ObjectId.isValid(s)] holds of a string of 24 hex digits.  The
    handler-side check [isValidObjectId] of pool.js (lines 8-10) combines
    them: [ObjectId.isValid(id) && String(new ObjectId(id)) === id]. *)

From Stdlib Require Import NArith Ascii String List Lia.
From S2P Require Import Prelude JsValue.

Open Scope N_scope.
Open Scope bool_scope.

Definition oid := N.

(** ** The bson library's side *)

Definition hex_chars : string := "0123456789abcdef".

Definition hex_digit (d : N) : ascii :=
  match String.get (N.to_nat d) hex_chars with Some c => c | None => "0"%char end.

(** The value of a hex digit, either case. *)
Definition hex_value (c : ascii) : option N :=
  let n := N_of_ascii c in
  if (48 <=? n) && (n <=? 57) then Some (n - 48)
  else if (97 <=? n) && (n <=? 102) then Some (n - 87)
  else if (65 <=? n) && (n <=? 70) then Some (n - 55)
  else None.

(** The [k] low hex digits of [n], most significant first, before [acc]. *)
Fixpoint hex_pad (k : nat) (n : N) (acc : string) : string :=
  match k with
  | O => acc
  | S k' => hex_pad k' (n / 16) (String (hex_digit (n mod 16)) acc)
  end.

(** [ObjectId.prototype.toHexString]. *)
Definition toHexString (id : oid) : string := hex_pad 24 id EmptyString.

(** Reading hex digits onto the value [v] read so far. *)
Fixpoint parse_from (v : N) (s : string) : option N :=
  match s with
  | EmptyString => Some v
  | String c s' =>
      match hex_value c with
      | Some d => parse_from (v * 16 + d) s'
      | None => None
      end
  end.

Definition is_hex_string (s : string) : bool :=
  match parse_from 0 s with Some _ => true | None => false end.

(** [ObjectId.isValid(s)] on a string. *)
Definition objectid_isValid (s : string) : bool :=
  Nat.eqb (String.length s) 24 && is_hex_string s.

(** [new ObjectId(s)] on a string that [objectid_isValid] accepts (the
    constructor throws on the others; the code never calls it there). *)
Definition objectid_of_string (s : string) : oid :=
  match parse_from 0 s with Some n => n | None => 0 end.

(** ** pool.js, lines 8-10

    [const isValidObjectId = (id) =>
       ObjectId.isValid(id) && String(new ObjectId(id)) === id;]
    On a value that is not a string the strict comparison with the string
    [String(...)] is false (and [ObjectId.isValid] is false on JSON
    booleans, null, arrays and objects), so only strings pass. *)
Definition isValidObjectId (id : jsval) : bool :=
  match id with
  | JStr s => objectid_isValid s && String.eqb (toHexString (objectid_of_string s)) s
  | _ => false
  end.

(** ** Lemmas *)

Lemma hex_value_digit d : d < 16 -> hex_value (hex_digit d) = Some d.
Proof.
  intros H.
  assert (Hall : forallb (fun d => match hex_value (hex_digit d) with
                                   | Some d' => N.eqb d d' | None => false end)
                         (map N.of_nat (seq 0 16)) = true) by reflexivity.
  rewrite forallb_forall in Hall.
  assert (Hin : In d (map N.of_nat (seq 0 16)))
    by (apply in_map_iff; exists (N.to_nat d); split; [apply N2Nat.id | apply in_seq; lia]).
  specialize (Hall d Hin).
  destruct (hex_value (hex_digit d)) as [d'|]; [|discriminate].
  apply N.eqb_eq in Hall. subst. reflexivity.
Qed.

Lemma hex_value_lt c d : hex_value c = Some d -> d < 16.
Proof.
  unfold hex_value.
  destruct ((48 <=? N_of_ascii c) && (N_of_ascii c <=? 57)) eqn:E1;
    [intros [= <-]; apply andb_prop in E1; destruct E1 as [_ E1];
     apply N.leb_le in E1; lia|].
  destruct ((97 <=? N_of_ascii c) && (N_of_ascii c <=? 102)) eqn:E2;
    [intros [= <-]; apply andb_prop in E2; destruct E2 as [_ E2];
     apply N.leb_le in E2; lia|].
  destruct ((65 <=? N_of_ascii c) && (N_of_ascii c <=? 70)) eqn:E3;
    [intros [= <-]; apply andb_prop in E3; destruct E3 as [_ E3];
     apply N.leb_le in E3; lia|].
  discriminate.
Qed.

Lemma hex_pad_length k n acc :
  String.length (hex_pad k n acc) = (k + String.length acc)%nat.
Proof.
  revert n acc. induction k as [|k IH]; intros n acc; simpl; [reflexivity|].
  rewrite IH. simpl. lia.
Qed.

(** Reading back the digits [hex_pad] printed. *)
Lemma parse_hex_pad k n acc v :
  parse_from v (hex_pad k n acc) = parse_from (v * 16 ^ N.of_nat k + n mod 16 ^ N.of_nat k) acc.
Proof.
  revert n acc v. induction k as [|k IH]; intros n acc v; simpl hex_pad.
  - simpl. rewrite N.mod_1_r, N.mul_1_r, N.add_0_r. reflexivity.
  - rewrite IH. simpl parse_from.
    rewrite hex_value_digit by (apply N.mod_lt; discriminate).
    f_equal.
    rewrite Nat2N.inj_succ, N.pow_succ_r', N.Div0.mod_mul_r. lia.
Qed.

Lemma parse_from_bound v s w :
  parse_from v s = Some w -> w < (v + 1) * 16 ^ N.of_nat (String.length s).
Proof.
  revert v. induction s as [|c s IH]; intros v; simpl.
  - intros [= <-]. lia.
  - destruct (hex_value c) as [d|] eqn:Hd; [|discriminate].
    intros Hp. apply IH in Hp. apply hex_value_lt in Hd.
    rewrite Nat2N.inj_succ, N.pow_succ_r'.
    assert (Hpow : 0 < 16 ^ N.of_nat (String.length s)) by (apply N.neq_0_lt_0, N.pow_nonzero; discriminate).
    nia.
Qed.

(** Round trip: reading the printed form of an id gives the id back. *)
Lemma objectid_of_toHexString n :
  n < 2 ^ 96 -> objectid_of_string (toHexString n) = n.
Proof.
  intros H. unfold objectid_of_string, toHexString.
  rewrite parse_hex_pad. simpl parse_from.
  rewrite N.mod_small by (change (16 ^ N.of_nat 24) with (2 ^ 96); exact H).
  reflexivity.
Qed.

Lemma toHexString_length n : String.length (toHexString n) = 24%nat.
Proof. unfold toHexString. rewrite hex_pad_length. reflexivity. Qed.

Lemma toHexString_hex n : is_hex_string (toHexString n) = true.
Proof.
  unfold is_hex_string, toHexString. rewrite parse_hex_pad. reflexivity.
Qed.

Lemma objectid_of_string_bound s :
  objectid_isValid s = true -> objectid_of_string s < 2 ^ 96.
Proof.
  unfold objectid_isValid, is_hex_string, objectid_of_string.
  intros H. apply andb_prop in H. destruct H as [Hl Hh]. apply PeanoNat.Nat.eqb_eq in Hl.
  destruct (parse_from 0 s) as [n|] eqn:P; [|discriminate].
  apply parse_from_bound in P. rewrite Hl in P.
  assert (E : (0 + 1) * 16 ^ N.of_nat 24 = 2 ^ 96) by reflexivity.
  rewrite E in P. exact P.
Qed.

Lemma isValidObjectId_toHexString n :
  n < 2 ^ 96 -> isValidObjectId (JStr (toHexString n)) = true.
Proof.
  intros Hn. unfold isValidObjectId, objectid_isValid.
  rewrite toHexString_length, toHexString_hex, objectid_of_toHexString by exact Hn.
  apply String.eqb_refl.
Qed.

(** C33: The check of pool.js accepts exactly the strings that print an id:
    24 lowercase hex digits.  In particular every [_id] the store hands out
    (and the dashboard sends back) passes, and an uppercase spelling of a
    valid id does not. *)
Lemma isValidObjectId_iff s :
  isValidObjectId (JStr s) = true <-> exists n, n < 2 ^ 96 /\ s = toHexString n.
Proof.
  split.
  - unfold isValidObjectId. intros H. apply andb_prop in H. destruct H as [Hv He].
    apply String.eqb_eq in He. exists (objectid_of_string s).
    split; [apply objectid_of_string_bound, Hv | symmetry; exact He].
  - intros [n [Hn ->]]. apply isValidObjectId_toHexString, Hn.
Qed.


(** An id spelled in uppercase hex is a valid [ObjectId] for the driver,
    but the handlers' check refuses it. *)
Theorem uppercase_id_rejected :
  objectid_isValid "00000000000000000000000A" = true
  /\ isValidObjectId (JStr "00000000000000000000000A") = false.
Proof. split; vm_compute; reflexivity. Qed.
