(* ===== verification/Store.v ===== *)
(** * The document store: the [pools] and [people] collections

    pool.js reaches MongoDB through [getDB().collection('pools')] and
    [getDB().collection('people')], with six calls:
    [pools.find({}).sort({createdAt: -1})] (line 16),
    [pools.insertOne(pool)] (45), [people.insertOne(person)] (76),
    [pools.updateOne({_id}, {$inc: {adminShare: extraAmount}})] (100-103),
    [pools.findOne({_id})] (121) and [people.find({poolId})] (127).

    The handlers in [Api] are written against the class [PoolStore], which
    names these calls, and proved from the laws [PoolStoreLaws].  The
    instance [ListStore] keeps each collection as a list of documents in
    natural (insertion) order and discharges the laws.  The documents are
    the ones the handlers build (pool.js lines 38-43 and 69-74). *)

From Stdlib Require Import QArith Lqa ZArith NArith String List Permutation Sorted.
From Stdlib Require Mergesort.
From stdpp Require Import base decidable numbers.
From S2P Require Import Prelude JsValue ObjectId.

Import ListNotations.
Open Scope Q_scope.

(** ** Documents *)

(** [{ name, totalAmount, adminShare: adminShare || 0, createdAt: new Date() }]
    with its [_id]. *)
Record PoolDoc := mkPool {
  pool_name : jsval;
  pool_totalAmount : Q;
  pool_adminShare : Q;
  pool_createdAt : Z
}.

(** [{ poolId: new ObjectId(poolId), personName, amount, createdAt: new Date() }]. *)
Record PersonDoc := mkPerson {
  person_poolId : oid;
  person_personName : jsval;
  person_amount : Q;
  person_createdAt : Z
}.

(** The effect of [{$inc: {adminShare: x}}] on a pool document. *)
Definition inc_adminShare (x : Q) (d : PoolDoc) : PoolDoc :=
  mkPool (pool_name d) (pool_totalAmount d) (pool_adminShare d + x) (pool_createdAt d).

(** ** The interface the handlers use *)

Class PoolStore (S : Type) := {
  (** [pools.find({})], in natural order *)
  pools_find_all : S -> list (oid * PoolDoc);
  (** [pools.insertOne(d)] with the driver-drawn [_id]; [None] is the
      duplicate-key error *)
  pools_insertOne : oid -> PoolDoc -> S -> option S;
  (** [pools.findOne({_id})] *)
  pools_findOne : oid -> S -> option PoolDoc;
  (** [pools.updateOne({_id}, {$inc: {adminShare: x}})] *)
  pools_incAdminShare : oid -> Q -> S -> S;
  (** [people.insertOne(p)] with the driver-drawn [_id] *)
  people_insertOne : oid -> PersonDoc -> S -> option S;
  (** [people.find({poolId})], in natural order *)
  people_findByPool : oid -> S -> list (oid * PersonDoc)
}.

(** What the store promises the handlers. *)
Class PoolStoreLaws (S : Type) `{PoolStore S} := {
  pools_insertOne_dup : forall id d s,
    pools_insertOne id d s = None <-> pools_findOne id s <> None;
  pools_insertOne_findOne : forall id d s s', pools_insertOne id d s = Some s' ->
    forall id', pools_findOne id' s' = if decide (id' = id) then Some d else pools_findOne id' s;
  pools_insertOne_find_all : forall id d s s', pools_insertOne id d s = Some s' ->
    pools_find_all s' = pools_find_all s ++ [(id, d)];
  pools_insertOne_people : forall id d s s', pools_insertOne id d s = Some s' ->
    forall pid, people_findByPool pid s' = people_findByPool pid s;
  pools_inc_findOne : forall id x s id',
    pools_findOne id' (pools_incAdminShare id x s)
    = if decide (id' = id) then option_map (inc_adminShare x) (pools_findOne id s)
      else pools_findOne id' s;
  pools_inc_absent : forall id x s,
    pools_findOne id s = None -> pools_incAdminShare id x s = s;
  pools_inc_people : forall id x s pid,
    people_findByPool pid (pools_incAdminShare id x s) = people_findByPool pid s;
  pools_findOne_all : forall id d s,
    pools_findOne id s = Some d -> In (id, d) (pools_find_all s);
  pools_all_findOne : forall id d s,
    In (id, d) (pools_find_all s) -> pools_findOne id s <> None;
  people_insertOne_find : forall id p s s', people_insertOne id p s = Some s' ->
    forall pid, people_findByPool pid s'
      = people_findByPool pid s ++ (if decide (person_poolId p = pid) then [(id, p)] else []);
  people_insertOne_pools : forall id p s s', people_insertOne id p s = Some s' ->
    (forall id', pools_findOne id' s' = pools_findOne id' s) /\ pools_find_all s' = pools_find_all s;
  people_findByPool_poolId : forall pid s id p,
    In (id, p) (people_findByPool pid s) -> person_poolId p = pid
}.

(** ** [sort({createdAt: -1})]

    A stable merge sort on [createdAt], newest first; MongoDB leaves the
    order of equal keys unspecified, so any order of ties is the code's. *)
Module CreatedAtDesc <: Orders.TotalLeBool.
Definition t : Type := (oid * PoolDoc)%type.
Definition leb (a b : t) : bool := Z.leb (pool_createdAt (snd b)) (pool_createdAt (snd a)).
Lemma leb_total : forall a b, leb a b = true \/ leb b a = true.
Proof. intros a b. unfold leb. rewrite !Z.leb_le. lia. Qed.
End CreatedAtDesc.

Module PoolSort := Mergesort.Sort CreatedAtDesc.

Definition sort_createdAt_desc (ps : list (oid * PoolDoc)) : list (oid * PoolDoc) :=
  PoolSort.sort ps.

(** ** The list store *)

Record DB := mkDB {
  db_pools : list (oid * PoolDoc);
  db_people : list (oid * PersonDoc)
}.

Fixpoint find_id {A} (id : oid) (l : list (oid * A)) : option A :=
  match l with
  | [] => None
  | (id', d) :: l' => if decide (id = id') then Some d else find_id id l'
  end.

(** [insertOne]: appended in natural order, refused on a duplicate [_id]. *)
Definition insert_one {A} (id : oid) (d : A) (l : list (oid * A)) : option (list (oid * A)) :=
  match find_id id l with
  | Some _ => None
  | None => Some (l ++ [(id, d)])
  end.

(** [updateOne]: the first document with that [_id] is changed. *)
Fixpoint update_first {A} (id : oid) (f : A -> A) (l : list (oid * A)) : list (oid * A) :=
  match l with
  | [] => []
  | (id', d) :: l' => if decide (id = id') then (id', f d) :: l' else (id', d) :: update_first id f l'
  end.

Definition people_of_pool (pid : oid) (l : list (oid * PersonDoc)) : list (oid * PersonDoc) :=
  List.filter (fun e => bool_decide (person_poolId (snd e) = pid)) l.

#[export] Instance ListStore : PoolStore DB := {
  pools_find_all := db_pools;
  pools_insertOne id d s :=
    option_map (fun ps => mkDB ps (db_people s)) (insert_one id d (db_pools s));
  pools_findOne id s := find_id id (db_pools s);
  pools_incAdminShare id x s :=
    mkDB (update_first id (inc_adminShare x) (db_pools s)) (db_people s);
  people_insertOne id p s :=
    option_map (fun qs => mkDB (db_pools s) qs) (insert_one id p (db_people s));
  people_findByPool pid s := people_of_pool pid (db_people s)
}.

(** ** The list store satisfies the laws *)

Section AssocLemmas.
Context {A : Type}.
Implicit Types (l : list (oid * A)) (id : oid).

Lemma find_id_app id id' d l :
  find_id id (l ++ [(id', d)])
  = match find_id id l with
    | Some x => Some x
    | None => if decide (id = id') then Some d else None
    end.
Proof.
  induction l as [|[k v] l IH]; simpl; [reflexivity|].
  destruct (decide (id = k)); [reflexivity | exact IH].
Qed.

Lemma find_id_update id id' (f : A -> A) l :
  find_id id' (update_first id f l)
  = if decide (id' = id) then option_map f (find_id id l) else find_id id' l.
Proof.
  induction l as [|[k v] l IH]; simpl; [case_decide; reflexivity|].
  revert IH. repeat (case_decide; subst; simpl); congruence.
Qed.

Lemma update_first_absent id (f : A -> A) l :
  find_id id l = None -> update_first id f l = l.
Proof.
  induction l as [|[k v] l IH]; simpl; [reflexivity|].
  destruct (decide (id = k)); [discriminate|]. intros H. rewrite IH by exact H.
  reflexivity.
Qed.

Lemma find_id_In id d l : find_id id l = Some d -> In (id, d) l.
Proof.
  induction l as [|[k v] l IH]; simpl; [discriminate|].
  destruct (decide (id = k)) as [->|]; [intros [= ->]; left; reflexivity|].
  intros H. right. apply IH, H.
Qed.

Lemma In_find_id id d l : In (id, d) l -> find_id id l <> None.
Proof.
  induction l as [|[k v] l IH]; simpl; [contradiction|].
  destruct (decide (id = k)); [discriminate|].
  intros [[= -> ->]|H]; [congruence | apply IH, H].
Qed.
End AssocLemmas.

Lemma people_of_pool_app pid l l' :
  people_of_pool pid (l ++ l') = people_of_pool pid l ++ people_of_pool pid l'.
Proof. unfold people_of_pool. apply List.filter_app. Qed.

#[export] Instance ListStore_laws : PoolStoreLaws DB.
Proof.
  constructor; simpl.
  - intros id d s. unfold insert_one.
    destruct (find_id id (db_pools s)); simpl; split; congruence.
  - intros id d s s'. unfold insert_one.
    destruct (find_id id (db_pools s)) eqn:E; simpl; [discriminate|].
    intros [= <-] id'. simpl. rewrite find_id_app.
    destruct (find_id id' (db_pools s)) eqn:E'; destruct (decide (id' = id)); congruence.
  - intros id d s s'. unfold insert_one.
    destruct (find_id id (db_pools s)); simpl; [discriminate|]. intros [= <-]. reflexivity.
  - intros id d s s'. unfold insert_one.
    destruct (find_id id (db_pools s)); simpl; [discriminate|]. intros [= <-]. reflexivity.
  - intros id x s id'. apply find_id_update.
  - intros id x s H. destruct s as [ps qs]. simpl in *.
    rewrite update_first_absent by exact H. reflexivity.
  - reflexivity.
  - intros id d s. apply find_id_In.
  - intros id d s. apply In_find_id.
  - intros id p s s'. unfold insert_one.
    destruct (find_id id (db_people s)); simpl; [discriminate|]. intros [= <-] pid. simpl.
    rewrite people_of_pool_app. unfold people_of_pool at 2. simpl.
    destruct (decide (person_poolId p = pid)) as [E|E].
    + rewrite bool_decide_eq_true_2 by exact E. reflexivity.
    + rewrite bool_decide_eq_false_2 by exact E. reflexivity.
  - intros id p s s'. unfold insert_one.
    destruct (find_id id (db_people s)); simpl; [discriminate|].
    intros [= <-]. split; reflexivity.
  - intros pid s id p H. unfold people_of_pool in H.
    apply filter_In in H. destruct H as [_ H]. apply bool_decide_eq_true_1 in H. exact H.
Qed.

(** ** Listing: sorted and complete *)

(** Consecutive pools of the listing are newest first. *)
Lemma sort_createdAt_desc_sorted ps :
  Sorted (fun a b => (pool_createdAt (snd b) <= pool_createdAt (snd a))%Z)
         (sort_createdAt_desc ps).
Proof.
  pose proof (PoolSort.Sorted_sort ps) as H. unfold sort_createdAt_desc.
  induction H as [|a l _ IH Hhd]; constructor; [exact IH|].
  destruct Hhd as [|b l' Hb]; constructor.
  unfold is_true, CreatedAtDesc.leb in Hb. apply Z.leb_le, Hb.
Qed.

Lemma sort_createdAt_desc_perm ps : Permutation ps (sort_createdAt_desc ps).
Proof. apply PoolSort.Permuted_sort. Qed.
