(* ===== verification/Summary.v ===== *)
(** * The summary calculator of [GET /:poolId/summary]

    pool.js lines 129-166: once the pool and its people are fetched, the
    handler sums the investments, adds the admin share, computes the
    remaining amount and [isFunded], and each participant's share of the
    goal through [calculatePercentage].  [summarize] is that block, line
    for line; the records mirror the JSON object it sends. *)

From Stdlib Require Import QArith Qabs Lqa ZArith List String.
From stdpp Require Import base.
From S2P Require Import Prelude JsValue ObjectId Store.

Import ListNotations.
Open Scope Q_scope.

(** ** The summary object (pool.js lines 148-166) *)

Record PoolDetails := mkPoolDetails {
  pd_id : oid;
  pd_name : jsval;
  pd_totalAmount : Q;
  pd_createdAt : Z
}.

Record InvestmentStatus := mkInvestmentStatus {
  totalInvestment : Q;
  remainingAmount : Q;
  isFunded : bool
}.

Record AdminContribution := mkAdminContribution {
  ac_amount : Q;
  ac_sharePercentage : Q
}.

(** [{ ...person, sharePercentage }]: the person document with its [_id]
    and the added field. *)
Record InvestorView := mkInvestorView {
  iv_id : oid;
  iv_person : PersonDoc;
  iv_sharePercentage : Q
}.

Record Summary := mkSummary {
  poolDetails : PoolDetails;
  investmentStatus : InvestmentStatus;
  adminContribution : AdminContribution;
  investors : list InvestorView;
  investorCount : nat
}.

(** ** The computation *)

(** [people.reduce((sum, person) => sum + person.amount, 0)] (line 129). *)
Definition totalInvestedByPeople (people : list (oid * PersonDoc)) : Q :=
  qsum_from (fun e => person_amount (snd e)) 0 people.

(** [pool.adminShare || 0] (line 130). *)
Definition adminShare_of (pool : PoolDoc) : Q :=
  num_or_zero (js_or (JNum (pool_adminShare pool)) (JNum 0)).

(** Lines 135-139:
    [if (total === 0) return 0;
     return parseFloat(((amount / total) * 100).toFixed(2));] *)
Definition calculatePercentage (amount total : Q) : Q :=
  if Qeq_bool total 0 then 0 else round2 ((amount / total) * 100).

(** Lines 129-166. *)
Definition summarize (id : oid) (pool : PoolDoc) (people : list (oid * PersonDoc)) : Summary :=
  let tip := totalInvestedByPeople people in
  let adminShare := adminShare_of pool in
  let ti := tip + adminShare in
  let remaining := pool_totalAmount pool - ti in
  let peopleWithShares :=
    map (fun e => mkInvestorView (fst e) (snd e)
                    (calculatePercentage (person_amount (snd e)) (pool_totalAmount pool)))
        people in
  let adminSharePercentage := calculatePercentage adminShare (pool_totalAmount pool) in
  mkSummary
    (mkPoolDetails id (pool_name pool) (pool_totalAmount pool) (pool_createdAt pool))
    (mkInvestmentStatus ti remaining (Qle_bool (pool_totalAmount pool) ti))
    (mkAdminContribution adminShare adminSharePercentage)
    peopleWithShares
    (length people).

(** ** Helper lemmas *)

Lemma adminShare_of_eq pool : adminShare_of pool == pool_adminShare pool.
Proof.
  unfold adminShare_of, js_or. simpl.
  destruct (Qeq_bool (pool_adminShare pool) 0) eqn:E; qbool; simpl.
  - symmetry. exact E.
  - reflexivity.
Qed.

Lemma calculatePercentage_nonzero a t :
  ~ t == 0 -> calculatePercentage a t = round2 (a / t * 100).
Proof.
  intros H. unfold calculatePercentage.
  destruct (Qeq_bool t 0) eqn:E; qbool; [contradiction | reflexivity].
Qed.

#[export] Instance calculatePercentage_Proper :
  Proper (Qeq ==> Qeq ==> Qeq) calculatePercentage.
Proof.
  intros a a' Ha t t' Ht. unfold calculatePercentage.
  rewrite Ht. destruct (Qeq_bool t' 0); [reflexivity|].
  rewrite Ha, Ht. reflexivity.
Qed.

Lemma in_investors id pool people v :
  In v (investors (summarize id pool people)) ->
  exists e, In e people /\ v = mkInvestorView (fst e) (snd e)
    (calculatePercentage (person_amount (snd e)) (pool_totalAmount pool)).
Proof. simpl. intros H. apply in_map_iff in H. destruct H as [e [<- He]]. eauto. Qed.

Lemma calculatePercentage_close a t :
  ~ t == 0 -> Qabs (calculatePercentage a t - a / t * 100) <= 1 # 200.
Proof. intros H. rewrite calculatePercentage_nonzero by exact H. auto with pool. Qed.


Lemma share_mono_pos a a' t : 0 < t -> a <= a' -> a / t * 100 <= a' / t * 100.
Proof.
  intros Ht H. unfold Qdiv.
  pose proof (Qinv_lt_0_compat t Ht). nra.
Qed.

Lemma share_anti_neg a a' t : t < 0 -> a <= a' -> a' / t * 100 <= a / t * 100.
Proof.
  intros Ht H.
  assert (Hinv : / t == - / (- t)) by (field; intros E; lra).
  assert (Hpos : 0 < / (- t)) by (apply Qinv_lt_0_compat; lra).
  unfold Qdiv. rewrite Hinv. nra.
Qed.

(** The admin's and the investors' exact shares add up to the share of the
    total investment. *)
Lemma exact_shares_sum pool people :
  let t := pool_totalAmount pool in
  adminShare_of pool / t * 100
  + qsum_from (fun e => person_amount (snd e) / t * 100) 0 people
  == (totalInvestedByPeople people + adminShare_of pool) / t * 100.
Proof.
  simpl. unfold totalInvestedByPeople.
  rewrite (qsum_from_ext _ (fun e => person_amount (snd e) * (/ pool_totalAmount pool * 100)) 0 0)
    by (reflexivity || (intros; unfold Qdiv; ring)).
  rewrite qsum_from_scale. unfold Qdiv. ring.
Qed.

(** ** Properties of the summary *)

(** C1: The summary's [totalInvestment] is the sum of every investor's
    amount plus the pool's admin share, and its [remainingAmount] is the
    goal minus that total, not clamped at zero. *)
Theorem summary_totals id pool people :
  totalInvestment (investmentStatus (summarize id pool people))
    == fold_right (fun e acc => person_amount (snd e) + acc) 0 people + pool_adminShare pool
  /\ remainingAmount (investmentStatus (summarize id pool people))
    == pool_totalAmount pool
       - (fold_right (fun e acc => person_amount (snd e) + acc) 0 people + pool_adminShare pool).
Proof.
  simpl. unfold totalInvestedByPeople.
  rewrite qsum_from_fold_right, adminShare_of_eq. split; reflexivity.
Qed.

(** C2: [isFunded] holds exactly when the total investment reaches the
    goal, that is, exactly when [remainingAmount] is at most 0. *)
Theorem summary_isFunded_iff id pool people :
  let st := investmentStatus (summarize id pool people) in
  (isFunded st = true <-> pool_totalAmount pool <= totalInvestment st)
  /\ (isFunded st = true <-> remainingAmount st <= 0).
Proof. simpl. rewrite Qle_bool_iff. split; [reflexivity | split; intros; lra]. Qed.

(** When the pool's goal is 0, every percentage of the summary (the
    admin's and each investor's) is exactly 0: no division by zero. *)
Theorem summary_zero_goal id pool people :
  pool_totalAmount pool == 0 ->
  ac_sharePercentage (adminContribution (summarize id pool people)) = 0
  /\ forall v, In v (investors (summarize id pool people)) -> iv_sharePercentage v = 0.
Proof.
  intros H. assert (Hb : Qeq_bool (pool_totalAmount pool) 0 = true) by (apply Qeq_bool_iff, H).
  split.
  - simpl. unfold calculatePercentage. rewrite Hb. reflexivity.
  - intros v Hv. apply in_investors in Hv. destruct Hv as [e [_ ->]].
    simpl. unfold calculatePercentage. rewrite Hb. reflexivity.
Qed.

(** C7: For a nonzero goal, each investor's [sharePercentage] is within
    0.005 of its exact share [amount / totalAmount * 100]. *)
Theorem summary_share_close id pool people :
  ~ pool_totalAmount pool == 0 ->
  forall v, In v (investors (summarize id pool people)) ->
  Qabs (iv_sharePercentage v - person_amount (iv_person v) / pool_totalAmount pool * 100)
  <= 1 # 200.
Proof.
  intros H v Hv. apply in_investors in Hv. destruct Hv as [e [_ ->]]. simpl.
  apply calculatePercentage_close, H.
Qed.

(** C6: For a nonzero goal, the admin's and all investors' percentages add
    up to [totalInvestment / totalAmount * 100] up to 0.005 per
    participant: not to 100 unless the pool is exactly funded. *)
Theorem summary_shares_sum id pool people :
  ~ pool_totalAmount pool == 0 ->
  let s := summarize id pool people in
  Qabs (ac_sharePercentage (adminContribution s)
        + qsum_from iv_sharePercentage 0 (investors s)
        - totalInvestment (investmentStatus s) / pool_totalAmount pool * 100)
  <= inject_Z (Z.of_nat (investorCount s + 1)) * (1 # 200).
Proof.
  intros H. unfold summarize.
  cbn [adminContribution investors investmentStatus totalInvestment ac_sharePercentage
       investorCount iv_sharePercentage].
  rewrite qsum_from_map. cbn [iv_sharePercentage].
  pose proof (exact_shares_sum pool people) as Hx. cbv zeta in Hx. rewrite <- Hx.
  set (t := pool_totalAmount pool).
  pose proof (calculatePercentage_close (adminShare_of pool) t H) as Ha.
  pose proof (qsum_from_close (fun e => calculatePercentage (person_amount (snd e)) t)
                (fun e => person_amount (snd e) / t * 100) (1 # 200) people
                (fun e _ => calculatePercentage_close _ _ H)) as Hs.
  rewrite Nat2Z.inj_add, inject_Z_plus, Qmult_plus_distr_l, Qmult_1_l.
  eapply Qle_trans; [|apply Qplus_le_compat; [exact Hs | exact Ha]].
  eapply Qle_trans; [|apply Qabs_triangle]. apply Qle_lteq. right.
  apply Qabs_wd. ring.
Qed.

Section PositiveGoal.
Variable total : Q.
Hypothesis total_pos : 0 < total.

(** C9: For a positive goal, a larger amount never gets a smaller
    [calculatePercentage]. *)
Theorem calculatePercentage_mono a a' :
  a <= a' -> calculatePercentage a total <= calculatePercentage a' total.
Proof.
  intros H. rewrite 2calculatePercentage_nonzero by (intros E; lra).
  apply round2_mono, share_mono_pos; assumption.
Qed.
End PositiveGoal.

Section NegativeGoal.
Variable total : Q.
Hypothesis total_neg : total < 0.

(** C10: For a negative goal, which [POST /create] accepts, the order is
    reversed: a larger amount never gets a larger [calculatePercentage]. *)
Theorem calculatePercentage_anti_negative a a' :
  a <= a' -> calculatePercentage a' total <= calculatePercentage a total.
Proof.
  intros H. rewrite 2calculatePercentage_nonzero by (intros E; lra).
  apply round2_mono, share_anti_neg; assumption.
Qed.
End NegativeGoal.

(** ** Witnesses: the theorems above at a concrete pool *)

Definition w_pool : PoolDoc := mkPool (JStr "Alpha"%string) 1000 100 0.
Definition w_bob : PersonDoc := mkPerson 7%N (JStr "Bob"%string) 250 0.
Definition w_people : list (oid * PersonDoc) := [(8%N, w_bob)].
Definition w_bob_view : InvestorView := mkInvestorView 8%N w_bob (calculatePercentage 250 1000).

Lemma summary_zero_goal_witness :
  pool_totalAmount (mkPool (JStr "Zero"%string) 0 5 0) == 0
  /\ ac_sharePercentage (adminContribution (summarize 7%N (mkPool (JStr "Zero"%string) 0 5 0) w_people)) = 0.
Proof.
  assert (H : pool_totalAmount (mkPool (JStr "Zero"%string) 0 5 0) == 0) by reflexivity.
  split; [exact H | apply (summary_zero_goal 7%N _ w_people H)].
Defined.

Lemma summary_share_close_witness :
  ~ pool_totalAmount w_pool == 0 /\ In w_bob_view (investors (summarize 7%N w_pool w_people))
  /\ Qabs (iv_sharePercentage w_bob_view
           - person_amount (iv_person w_bob_view) / pool_totalAmount w_pool * 100) <= 1 # 200.
Proof.
  assert (H1 : ~ pool_totalAmount w_pool == 0) by (vm_compute; intros E; discriminate E).
  assert (H2 : In w_bob_view (investors (summarize 7%N w_pool w_people))) by (left; reflexivity).
  split; [exact H1 | split; [exact H2 | exact (summary_share_close 7%N w_pool w_people H1 w_bob_view H2)]].
Defined.

Lemma summary_shares_sum_witness :
  ~ pool_totalAmount w_pool == 0
  /\ Qabs (ac_sharePercentage (adminContribution (summarize 7%N w_pool w_people))
           + qsum_from iv_sharePercentage 0 (investors (summarize 7%N w_pool w_people))
           - totalInvestment (investmentStatus (summarize 7%N w_pool w_people))
             / pool_totalAmount w_pool * 100)
     <= inject_Z (Z.of_nat (investorCount (summarize 7%N w_pool w_people) + 1)) * (1 # 200).
Proof.
  assert (H1 : ~ pool_totalAmount w_pool == 0) by (vm_compute; intros E; discriminate E).
  split; [exact H1 | exact (summary_shares_sum 7%N w_pool w_people H1)].
Defined.

Lemma calculatePercentage_mono_witness :
  0 < 3 /\ 1 <= 2 /\ calculatePercentage 1 3 <= calculatePercentage 2 3.
Proof.
  assert (H1 : 0 < 3) by (vm_compute; reflexivity).
  assert (H2 : 1 <= 2) by (vm_compute; discriminate).
  split; [exact H1 | split; [exact H2 | exact (calculatePercentage_mono 3 H1 1 2 H2)]].
Defined.

Lemma calculatePercentage_anti_negative_witness :
  -100 < 0 /\ 10 <= 20 /\ calculatePercentage 20 (-100) <= calculatePercentage 10 (-100).
Proof.
  assert (H1 : -100 < 0) by (vm_compute; reflexivity).
  assert (H2 : 10 <= 20) by (vm_compute; discriminate).
  split; [exact H1 | split; [exact H2 | exact (calculatePercentage_anti_negative (-100) H1 10 20 H2)]].
Defined.
