(* ===== verification/Api.v ===== *)
(** * The request handlers of pool.js

    The five routes of [src/backend/routes.js/pool.js], each one whole:
    the guards in the code's order with their messages (they run before
    the [try] and answer 400), then the [try] block, which reads the
    connection handle of db.js ([getDB()]), calls the store and answers,
    and the [catch] that answers 500 on any exception.

    A handler is a computation of the monad [M] of [Prelude]: it reads the
    request environment [Env] (the clock of [new Date()], the [_id] the
    driver draws for an insert, and which store calls of the request fail),
    and threads [HState]: the connection handle ([None] is the [null] of
    db.js before [connect]) with the store behind it, and the number of
    store calls made so far. *)

From Stdlib Require Import QArith Lqa ZArith NArith String List Permutation Sorted.
From stdpp Require Import base decidable numbers.
From S2P Require Import Prelude JsValue ObjectId Store Summary.

Import ListNotations.
Open Scope Q_scope.
Open Scope pool_scope.

(** ** Requests, responses, errors *)

Record Env := mkEnv {
  env_now : Z;              (** [new Date()], in milliseconds *)
  env_newId : oid;          (** the [_id] the driver draws for [insertOne] *)
  env_fail : nat -> bool    (** whether the k-th store call of the request fails *)
}.

(** What a store call may throw. *)
Inductive StoreError :=
| NullHandle        (** [getDB()] returned [null]: [db.collection] throws *)
| IOFailure         (** connection or I/O failure *)
| DuplicateKey.     (** [insertOne] with an [_id] already used *)

Record HState (S : Type) := mkH {
  h_db : option S;
  h_calls : nat
}.
Arguments mkH {S}.
Arguments h_db {S}.
Arguments h_calls {S}.

(** The JSON bodies the handlers send. *)
Inductive Body :=
| BError (error : string)                        (** [{success: false, error}] *)
| BPools (pools : list (oid * PoolDoc))          (** [{success: true, pools}] *)
| BMessage (message : string)                    (** [{success: true, message}] *)
| BCreated (message : string) (poolId : oid)     (** [{success: true, message, poolId}] *)
| BSummary (summary : Summary).                  (** [{success: true, summary}] *)

Record Response := mkResponse {
  status : Z;
  body : Body
}.

Definition msg_internal : string := "Internal server error.".
Definition msg_invalid_id : string := "Invalid Pool ID format.".

(** [new ObjectId(poolId)] once [isValidObjectId(poolId)] has held. *)
Definition oid_of_jsval (v : jsval) : oid :=
  match v with JStr s => objectid_of_string s | _ => 0%N end.

(** A request: its route and its parsed body or path parameter. *)
Inductive Request :=
| ListPools
| CreatePool (body : jsval)
| AddPerson (body : jsval)
| AddShares (body : jsval)
| PoolSummary (poolId : string).

Section Handlers.
Context {St : Type} {PS : PoolStore St}.

Local Abbreviation Act A := (M Env (HState St) StoreError A).

(** A store call through [getDB()]: it throws when the handle is [null]
    or when the environment makes this call fail; otherwise it runs
    [op] on the store. *)
Definition store_call {A} (op : St -> Exc StoreError A * St) : Act A :=
  fun e h =>
    match h_db h with
    | None => (Throw NullHandle, h)
    | Some s =>
        if env_fail e (h_calls h) then (Throw IOFailure, mkH (Some s) (S (h_calls h)))
        else let '(r, s') := op s in (r, mkH (Some s') (S (h_calls h)))
    end.

Definition find_pools_sorted : Act (list (oid * PoolDoc)) :=
  store_call (fun s => (Ok (sort_createdAt_desc (pools_find_all s)), s)).

Definition insert_pool (id : oid) (d : PoolDoc) : Act oid :=
  store_call (fun s => match pools_insertOne id d s with
                       | Some s' => (Ok id, s')
                       | None => (Throw DuplicateKey, s)
                       end).

Definition insert_person (id : oid) (p : PersonDoc) : Act oid :=
  store_call (fun s => match people_insertOne id p s with
                       | Some s' => (Ok id, s')
                       | None => (Throw DuplicateKey, s)
                       end).

Definition inc_admin_share (id : oid) (x : Q) : Act unit :=
  store_call (fun s => (Ok tt, pools_incAdminShare id x s)).

Definition find_pool (id : oid) : Act (option PoolDoc) :=
  store_call (fun s => (Ok (pools_findOne id s), s)).

Definition find_people (pid : oid) : Act (list (oid * PersonDoc)) :=
  store_call (fun s => (Ok (people_findByPool pid s), s)).

(** [catch (error) { res.status(500).send(...) }] *)
Definition server_error (_ : StoreError) : Act Response :=
  ret (mkResponse 500 (BError msg_internal)).

(** [GET /] (lines 13-22). *)
Definition list_pools : Act Response :=
  catch (pools <- find_pools_sorted ;;
         ret (mkResponse 200 (BPools pools)))
        server_error.

(** [POST /create] (lines 26-51). *)
Definition create_pool (req : jsval) : Act Response :=
  let name := get_field req "name" in
  let totalAmount := get_field req "totalAmount" in
  let adminShare := get_field req "adminShare" in
  if negb (truthy name) || negb (truthy totalAmount) then
    ret (mkResponse 400 (BError "`name` and `totalAmount` are required."))
  else if negb (is_number totalAmount) || (truthy adminShare && negb (is_number adminShare)) then
    ret (mkResponse 400 (BError "`totalAmount` and `adminShare` must be numbers."))
  else
    catch (e <- ask ;;
           let pool := mkPool name (num_or_zero totalAmount)
                         (num_or_zero (js_or adminShare (JNum 0))) (env_now e) in
           id <- insert_pool (env_newId e) pool ;;
           ret (mkResponse 201 (BCreated "Pool created successfully." id)))
          server_error.

(** [POST /add-person] (lines 54-82). *)
Definition add_person (req : jsval) : Act Response :=
  let poolId := get_field req "poolId" in
  let personName := get_field req "personName" in
  let amount := get_field req "amount" in
  if negb (truthy poolId) || negb (truthy personName) || negb (truthy amount) then
    ret (mkResponse 400 (BError "`poolId`, `personName`, and `amount` are required."))
  else if negb (isValidObjectId poolId) then
    ret (mkResponse 400 (BError msg_invalid_id))
  else if negb (is_number amount) then
    ret (mkResponse 400 (BError "`amount` must be a number."))
  else
    catch (e <- ask ;;
           let person := mkPerson (oid_of_jsval poolId) personName
                           (num_or_zero amount) (env_now e) in
           _ <- insert_person (env_newId e) person ;;
           ret (mkResponse 201 (BMessage "Person added to pool successfully.")))
          server_error.

(** [POST /admin/add-shares] (lines 85-109). *)
Definition add_shares (req : jsval) : Act Response :=
  let poolId := get_field req "poolId" in
  let extraAmount := get_field req "extraAmount" in
  if negb (truthy poolId) || negb (truthy extraAmount) then
    ret (mkResponse 400 (BError "`poolId` and `extraAmount` are required."))
  else if negb (isValidObjectId poolId) then
    ret (mkResponse 400 (BError msg_invalid_id))
  else if negb (is_number extraAmount) then
    ret (mkResponse 400 (BError "`extraAmount` must be a number."))
  else
    catch (inc_admin_share (oid_of_jsval poolId) (num_or_zero extraAmount) ;;
           ret (mkResponse 200 (BMessage "Admin share updated successfully.")))
          server_error.

(** [GET /:poolId/summary] (lines 112-174); the path parameter is a
    string. *)
Definition pool_summary (poolId : string) : Act Response :=
  if negb (isValidObjectId (JStr poolId)) then
    ret (mkResponse 400 (BError msg_invalid_id))
  else
    let id := objectid_of_string poolId in
    catch (pool <- find_pool id ;;
           match pool with
           | None => ret (mkResponse 404 (BError "Pool not found."))
           | Some p =>
               people <- find_people id ;;
               ret (mkResponse 200 (BSummary (summarize id p people)))
           end)
          server_error.
(** The routes of the router ([router.get('/')], [router.post('/create')],
    ...), mounted under [/api/pool] by index.js. *)
Definition handle (req : Request) : Act Response :=
  match req with
  | ListPools => list_pools
  | CreatePool b => create_pool b
  | AddPerson b => add_person b
  | AddShares b => add_shares b
  | PoolSummary p => pool_summary p
  end.

(** One request: the handler runs on the store behind the handle, its
    store calls counted from 0. *)
Definition run {A} (m : Act A) (e : Env) (db : option St) : Exc StoreError A * option St :=
  let '(r, h) := m e (mkH db 0) in (r, h_db h).
End Handlers.

(** ** Proof automation for the handlers *)

(** The JavaScript built-ins and the summary stay folded: the handlers'
    proofs split on their results, not on the request body. *)
#[local] Arguments get_field : simpl never.
#[local] Arguments truthy : simpl never.
#[local] Arguments is_number : simpl never.
#[local] Arguments isValidObjectId : simpl never.
#[local] Arguments summarize : simpl never.
#[local] Arguments sort_createdAt_desc : simpl never.
#[local] Arguments objectid_of_string : simpl never.
#[local] Arguments toHexString : simpl never.

(** What the guards see of an id the store handed out. *)
Lemma valid_id_guards n :
  (n < 2 ^ 96)%N ->
  truthy (JStr (toHexString n)) = true /\ isValidObjectId (JStr (toHexString n)) = true
  /\ oid_of_jsval (JStr (toHexString n)) = n.
Proof.
  intros Hn. split; [|split].
  - unfold truthy. destruct (toHexString n) eqn:E; [|reflexivity].
    pose proof (toHexString_length n) as L. rewrite E in L. discriminate.
  - apply isValidObjectId_toHexString, Hn.
  - apply objectid_of_toHexString, Hn.
Qed.

Lemma truthy_nonzero_num x : ~ x == 0 -> truthy (JNum x) = true.
Proof. intros H. apply truthy_num, H. Qed.

(** Unfold a request down to the store calls and split every test. *)
Ltac run_handler :=
  unfold run, handle, list_pools, create_pool, add_person, add_shares, pool_summary,
    server_error, find_pools_sorted, insert_pool, insert_person, inc_admin_share,
    find_pool, find_people, store_call, catch, bind, ret, ask in *;
  repeat (case_match; simplify_eq/=).

(** [bool_hyps] splits the guard results among the hypotheses. *)
Ltac bool_hyps :=
  repeat match goal with
  | H : (_ || _)%bool = false |- _ => apply Bool.orb_false_iff in H; destruct H
  | H : (_ && _)%bool = true |- _ => apply andb_true_iff in H; destruct H
  | H : negb _ = false |- _ => apply Bool.negb_false_iff in H
  | H : negb _ = true |- _ => apply Bool.negb_true_iff in H
  end.

(** ** The store invariant *)

(** What the guards of [POST /create] ensure of a pool document. *)
Definition pool_ok (d : PoolDoc) : Prop :=
  truthy (pool_name d) = true /\ ~ pool_totalAmount d == 0.

(** What the guards of [POST /add-person] ensure of a person document. *)
Definition person_ok (p : PersonDoc) : Prop :=
  truthy (person_personName p) = true /\ ~ person_amount p == 0.

Section Invariant.
Context {St : Type} {PS : PoolStore St} {PL : PoolStoreLaws St}.

Record store_wf (s : St) : Prop := {
  wf_pools : forall id d, pools_findOne id s = Some d -> pool_ok d;
  wf_people : forall pid id p, In (id, p) (people_findByPool pid s) -> person_ok p
}.

Definition db_wf (db : option St) : Prop :=
  match db with Some s => store_wf s | None => True end.

Lemma wf_pools_insert s s' id d :
  store_wf s -> pool_ok d -> pools_insertOne id d s = Some s' -> store_wf s'.
Proof.
  intros [Hp Hq] Hd Hi. split.
  - intros id' d'. rewrite (pools_insertOne_findOne _ _ _ _ Hi).
    case_decide; [congruence | apply Hp].
  - intros pid. rewrite (pools_insertOne_people _ _ _ _ Hi). apply Hq.
Qed.

Lemma wf_people_insert s s' id p :
  store_wf s -> person_ok p -> people_insertOne id p s = Some s' -> store_wf s'.
Proof.
  intros [Hp Hq] Hd Hi. destruct (people_insertOne_pools _ _ _ _ Hi) as [Hf _]. split.
  - intros id' d'. rewrite Hf. apply Hp.
  - intros pid id' p'. rewrite (people_insertOne_find _ _ _ _ Hi), in_app_iff.
    intros [H|H]; [eapply Hq; exact H|].
    case_decide; [|contradiction]. destruct H as [[= _ <-]|[]]. exact Hd.
Qed.

Lemma wf_inc s id x : store_wf s -> store_wf (pools_incAdminShare id x s).
Proof.
  intros [Hp Hq]. split.
  - intros id' d'. rewrite pools_inc_findOne. case_decide; [|apply Hp].
    destruct (pools_findOne id s) as [d|] eqn:E; simpl; [|discriminate].
    intros [= <-]. apply Hp in E. exact E.
  - intros pid. rewrite pools_inc_people. apply Hq.
Qed.
End Invariant.

Lemma truthy_number_nonzero v :
  truthy v = true -> is_number v = true -> ~ num_or_zero v == 0.
Proof. destruct v; try discriminate. intros H _. apply truthy_num, H. Qed.

(** What the guards of [POST /create] and [POST /add-person] give. *)
Lemma pool_ok_intro name v a c :
  truthy name = true -> truthy v = true -> is_number v = true ->
  pool_ok (mkPool name (num_or_zero v) a c).
Proof. intros Hn Hv Hnum. split; [exact Hn | apply truthy_number_nonzero; assumption]. Qed.

Lemma person_ok_intro pid name v c :
  truthy name = true -> truthy v = true -> is_number v = true ->
  person_ok (mkPerson pid name (num_or_zero v) c).
Proof. intros Hn Hv Hnum. split; [exact Hn | apply truthy_number_nonzero; assumption]. Qed.

(** The invariant steps of the three writes, for [eauto with pool]. *)
#[export] Hint Resolve wf_pools_insert wf_people_insert wf_inc pool_ok_intro person_ok_intro : pool.

Section Properties.
Context {St : Type} {PS : PoolStore St} {PL : PoolStoreLaws St}.

Lemma handle_total req e (db : option St) :
  exists r db', run (handle req) e db = (Ok r, db').
Proof. destruct req; run_handler; eauto. Qed.

(** A request neither opens nor drops the connection handle. *)
Lemma run_handle_is_Some req e (db : option St) :
  is_Some (snd (run (handle req) e db)) <-> is_Some db.
Proof. destruct req; run_handler; split; intros; eauto. Qed.

(** No request lets an exception escape: every handler ends with a response, whatever the store does (null handle, I/O failure, duplicate key). *)
Lemma handle_ok req e (db : option St) :
  exists r db', run (handle req) e db = (Ok r, db').
Proof. apply handle_total. Qed.

(** The statuses the handlers send: 200 or 201, or 400 and more with the
    store as it was. *)
Lemma handle_status req e (db : option St) r db' :
  run (handle req) e db = (Ok r, db') ->
  (status r = 200 \/ status r = 201)%Z \/ ((400 <= status r)%Z /\ db' = db).
Proof.
  intros Hr. destruct req; run_handler; simpl;
    first [left; first [left; reflexivity | right; reflexivity] | right; split; [lia | reflexivity]].
Qed.

(** The bodies that go with the statuses: a success body with 200 or 201,
    an error body with a non-empty message otherwise. *)
Lemma handle_body_shape req e (db : option St) r db' :
  run (handle req) e db = (Ok r, db') ->
  ((status r = 200 \/ status r = 201)%Z /\ (forall m, body r <> BError m))
  \/ ((400 <= status r)%Z /\ exists m, body r = BError m /\ m <> ""%string).
Proof.
  intros Hr. destruct req; run_handler; simpl;
    first [left; split; [first [left; reflexivity | right; reflexivity] | discriminate]
          | right; split; [lia | eexists; split; [reflexivity | discriminate]]].
Qed.

(** The two [GET] routes leave the store as it was. *)
Lemma handle_readonly req e (db : option St) :
  (req = ListPools \/ exists p, req = PoolSummary p) -> snd (run (handle req) e db) = db.
Proof. intros [->|[p ->]]; run_handler; reflexivity. Qed.

(** What [POST /admin/add-shares] can do to the store: nothing, or the
    [$inc] of a truthy number [extraAmount]. *)
Lemma add_shares_effect b e s r db' :
  run (handle (AddShares b)) e (Some s) = (Ok r, db') ->
  db' = Some s
  \/ (truthy (get_field b "extraAmount") = true /\ is_number (get_field b "extraAmount") = true
      /\ db' = Some (pools_incAdminShare (oid_of_jsval (get_field b "poolId"))
                                         (num_or_zero (get_field b "extraAmount")) s)).
Proof. intros Hr. run_handler; bool_hyps; auto. Qed.

(** C3: Every answer with status 400 or more (a validation error, 404, or 500 after a failed store call) leaves the store as it was: no request has a partial effect. *)
Lemma handle_error_atomic req e (db : option St) r db' :
  run (handle req) e db = (Ok r, db') -> (400 <= status r)%Z -> db' = db.
Proof.
  intros Hr Hs. destruct (handle_status req e db r db' Hr) as [[E|E]|[_ E]]; [lia | lia | exact E].
Qed.
Lemma wf_step req e (db : option St) :
  db_wf db -> db_wf (snd (run (handle req) e db)).
Proof.
  intros Hwf. destruct req; run_handler; bool_hyps; simpl in *; eauto with pool.
Qed.

(** C4: Every request preserves the store invariant [store_wf]: each pool has a truthy name and a nonzero [totalAmount], each person a truthy name and a nonzero [amount]. *)
Lemma handle_preserves_wf req e (db : option St) :
  db_wf db -> db_wf (snd (run (handle req) e db)).
Proof. apply wf_step. Qed.
End Properties.

Section Functional.
Context {St : Type} {PS : PoolStore St} {PL : PoolStoreLaws St}.

(** C8: [POST /create] with a missing or falsy [totalAmount] answers 400 with the code's message and persists nothing. *)
Lemma create_missing_totalAmount b e (db : option St) :
  truthy (get_field b "totalAmount") = false ->
  run (handle (CreatePool b)) e db
  = (Ok (mkResponse 400 (BError "`name` and `totalAmount` are required.")), db).
Proof.
  intros H. unfold run, handle, create_pool, ret. rewrite H, orb_true_r. reflexivity.
Qed.

(** C11: [POST /create] with a truthy name, a nonzero number goal and a number or falsy [adminShare] answers 201 with the new id; the store then holds exactly one more pool under that id, with [adminShare] the given number or 0 and [createdAt] the request time. *)
Lemma create_ok b e s t :
  truthy (get_field b "name") = true ->
  get_field b "totalAmount" = JNum t -> ~ t == 0 ->
  (truthy (get_field b "adminShare") = false \/ is_number (get_field b "adminShare") = true) ->
  env_fail e 0 = false -> pools_findOne (env_newId e) s = None ->
  exists s' d,
    run (handle (CreatePool b)) e (Some s)
    = (Ok (mkResponse 201 (BCreated "Pool created successfully." (env_newId e))), Some s')
    /\ pools_findOne (env_newId e) s' = Some d
    /\ pools_find_all s' = pools_find_all s ++ [(env_newId e, d)]
    /\ pool_name d = get_field b "name" /\ pool_totalAmount d = t
    /\ pool_adminShare d == num_or_zero (get_field b "adminShare")
    /\ pool_createdAt d = env_now e.
Proof.
  intros Hn Ht Ht0 Ha Hf Hfresh.
  set (d := mkPool (get_field b "name") t
              (num_or_zero (js_or (get_field b "adminShare") (JNum 0))) (env_now e)).
  destruct (pools_insertOne (env_newId e) d s) as [s'|] eqn:Hi;
    [|apply pools_insertOne_dup in Hi; contradiction].
  exists s', d. split; [|split].
  - unfold run, handle, create_pool, catch, bind, ask, ret, insert_pool, store_call.
    rewrite Hn, Ht, (truthy_nonzero_num t Ht0).
    change (is_number (JNum t)) with true. simpl negb. rewrite orb_false_l.
    destruct Ha as [Ha|Ha]; rewrite Ha; rewrite ?andb_false_r; simpl;
      rewrite Hf; fold d; rewrite Hi; reflexivity.
  - rewrite (pools_insertOne_findOne _ _ _ _ Hi). case_decide; [reflexivity | congruence].
  - split; [apply (pools_insertOne_find_all _ _ _ _ Hi)|].
    do 2 (split; [reflexivity|]). split; [|reflexivity].
    simpl. unfold js_or. destruct (truthy (get_field b "adminShare")) eqn:T; [reflexivity|].
    destruct (get_field b "adminShare"); try reflexivity.
    unfold truthy in T. destruct (Qeq_bool q 0) eqn:E; [|discriminate]. qbool.
    symmetry. exact E.
Qed.
(** [POST /admin/add-shares] on a valid id: 200, and the store is the
    one [$inc] leaves. *)
Lemma add_shares_run b e s n x :
  (n < 2 ^ 96)%N -> get_field b "poolId" = JStr (toHexString n) ->
  get_field b "extraAmount" = JNum x -> ~ x == 0 -> env_fail e 0 = false ->
  run (handle (AddShares b)) e (Some s)
  = (Ok (mkResponse 200 (BMessage "Admin share updated successfully.")),
     Some (pools_incAdminShare n x s)).
Proof.
  intros Hn Hp Hx Hx0 Hf. destruct (valid_id_guards n Hn) as [T [V O]].
  unfold run, handle, add_shares, catch, bind, ret, inc_admin_share, store_call.
  rewrite Hp, Hx, T, V, (truthy_nonzero_num x Hx0), O.
  change (is_number (JNum x)) with true. simpl. rewrite Hf. reflexivity.
Qed.

(** C12: Adding admin shares to an existing pool adds exactly [extraAmount]
    to its [adminShare] and changes no other pool. *)
Lemma add_shares_existing b e s n x d :
  (n < 2 ^ 96)%N -> get_field b "poolId" = JStr (toHexString n) ->
  get_field b "extraAmount" = JNum x -> ~ x == 0 -> env_fail e 0 = false ->
  pools_findOne n s = Some d ->
  exists s',
    run (handle (AddShares b)) e (Some s)
    = (Ok (mkResponse 200 (BMessage "Admin share updated successfully.")), Some s')
    /\ pools_findOne n s' = Some (inc_adminShare x d)
    /\ (forall id, id <> n -> pools_findOne id s' = pools_findOne id s).
Proof.
  intros Hn Hp Hx Hx0 Hf Hd. exists (pools_incAdminShare n x s).
  split; [apply add_shares_run; assumption|]. split.
  - rewrite pools_inc_findOne, Hd. case_decide; [reflexivity | congruence].
  - intros id Hid. rewrite pools_inc_findOne. case_decide; [contradiction | reflexivity].
Qed.

(** C13: Adding admin shares to a pool that does not exist answers 200 and
    changes nothing: a silent no-op. *)
Lemma add_shares_absent b e s n x :
  (n < 2 ^ 96)%N -> get_field b "poolId" = JStr (toHexString n) ->
  get_field b "extraAmount" = JNum x -> ~ x == 0 -> env_fail e 0 = false ->
  pools_findOne n s = None ->
  run (handle (AddShares b)) e (Some s)
  = (Ok (mkResponse 200 (BMessage "Admin share updated successfully.")), Some s).
Proof.
  intros Hn Hp Hx Hx0 Hf Hd. rewrite (add_shares_run b e s n x) by assumption.
  rewrite pools_inc_absent by exact Hd. reflexivity.
Qed.

(** C14: [POST /add-person] with a valid id answers 201 and lists the person
    under that pool id, whether or not a pool has that id. *)
Lemma add_person_ok b e s s' n x :
  (n < 2 ^ 96)%N -> get_field b "poolId" = JStr (toHexString n) ->
  truthy (get_field b "personName") = true ->
  get_field b "amount" = JNum x -> ~ x == 0 -> env_fail e 0 = false ->
  people_insertOne (env_newId e) (mkPerson n (get_field b "personName") x (env_now e)) s = Some s' ->
  run (handle (AddPerson b)) e (Some s)
    = (Ok (mkResponse 201 (BMessage "Person added to pool successfully.")), Some s')
  /\ people_findByPool n s'
     = people_findByPool n s ++ [(env_newId e, mkPerson n (get_field b "personName") x (env_now e))]
  /\ (forall id, pools_findOne id s' = pools_findOne id s).
Proof.
  intros Hn Hp Hnm Hx Hx0 Hf Hi. destruct (valid_id_guards n Hn) as [T [V O]].
  split; [|split].
  - unfold run, handle, add_person, catch, bind, ask, ret, insert_person, store_call.
    rewrite Hp, Hx, T, V, Hnm, (truthy_nonzero_num x Hx0), O.
    change (is_number (JNum x)) with true. simpl. rewrite Hf, Hi. reflexivity.
  - rewrite (people_insertOne_find _ _ _ _ Hi). simpl. case_decide; [reflexivity | congruence].
  - apply (people_insertOne_pools _ _ _ _ Hi).
Qed.

(** C17: [GET /:poolId/summary] with a malformed id answers 400. *)
Lemma summary_invalid_id p e (db : option St) :
  isValidObjectId (JStr p) = false ->
  run (handle (PoolSummary p)) e db = (Ok (mkResponse 400 (BError msg_invalid_id)), db).
Proof. intros H. unfold run, handle, pool_summary, ret. rewrite H. reflexivity. Qed.

(** C15: A well-formed id that names no pool answers 404, not a crash or an
    empty success. *)
Lemma summary_not_found p e s :
  isValidObjectId (JStr p) = true -> env_fail e 0 = false ->
  pools_findOne (objectid_of_string p) s = None ->
  run (handle (PoolSummary p)) e (Some s)
  = (Ok (mkResponse 404 (BError "Pool not found.")), Some s).
Proof.
  intros V Hf Hd. unfold run, handle, pool_summary, catch, bind, ret, find_pool, store_call.
  rewrite V. simpl. rewrite Hf, Hd. reflexivity.
Qed.

(** C16: An existing pool's summary is [summarize] of the pool and of the
    people filed under its id. *)
Lemma summary_found p e s d :
  isValidObjectId (JStr p) = true -> env_fail e 0 = false -> env_fail e 1 = false ->
  pools_findOne (objectid_of_string p) s = Some d ->
  run (handle (PoolSummary p)) e (Some s)
  = (Ok (mkResponse 200 (BSummary (summarize (objectid_of_string p) d
                                    (people_findByPool (objectid_of_string p) s)))), Some s).
Proof.
  intros V Hf0 Hf1 Hd.
  unfold run, handle, pool_summary, catch, bind, ret, find_pool, find_people, store_call.
  rewrite V. simpl. rewrite Hf0, Hd. simpl. rewrite Hf1. reflexivity.
Qed.

(** C18: [GET /] lists every pool, newest first. *)
Lemma list_pools_ok e s :
  env_fail e 0 = false ->
  exists l,
    run (handle ListPools) e (Some s) = (Ok (mkResponse 200 (BPools l)), Some s)
    /\ Permutation (pools_find_all s) l
    /\ Sorted (fun a b => (pool_createdAt (snd b) <= pool_createdAt (snd a))%Z) l.
Proof.
  intros Hf. exists (sort_createdAt_desc (pools_find_all s)). split; [|split].
  - unfold run, handle, list_pools, catch, bind, ret, find_pools_sorted, store_call.
    simpl. rewrite Hf. reflexivity.
  - apply sort_createdAt_desc_perm.
  - apply sort_createdAt_desc_sorted.
Qed.
End Functional.

(** ** Reachable stores *)

(** The stores a sequence of requests reaches from [init]. *)
Inductive reachable {St : Type} {PS : PoolStore St} (init : St) : option St -> Prop :=
| reach_init : reachable init (Some init)
| reach_step req e db :
    reachable init db -> reachable init (snd (run (handle req) e db)).

Section Reachable.
Context {St : Type} {PS : PoolStore St} {PL : PoolStoreLaws St}.

Lemma reachable_wf (init : St) db :
  store_wf init -> reachable init db -> db_wf db.
Proof.
  intros Hinit Hr. induction Hr as [|req e db _ IH]; [exact Hinit|].
  apply wf_step, IH.
Qed.

(** C5: Every summary the service sends from a reachable store has a nonzero
    goal: [POST /create] refuses a falsy [totalAmount] and nothing
    changes it afterwards, so the [total === 0] branch of
    [calculatePercentage] never runs. *)
Lemma summary_goal_nonzero (init : St) s p e r db' sm :
  store_wf init -> reachable init (Some s) ->
  run (handle (PoolSummary p)) e (Some s) = (Ok r, db') -> body r = BSummary sm ->
  ~ pd_totalAmount (poolDetails sm) == 0.
Proof.
  intros Hinit Hr Hrun Hb.
  pose proof (reachable_wf init (Some s) Hinit Hr) as Hwf. simpl in Hwf.
  revert Hrun. run_handler; intros; simplify_eq/=.
  unfold summarize. simpl. eapply proj2, wf_pools; eassumption.
Qed.
End Reachable.

Lemma empty_db_wf : store_wf (mkDB [] []).
Proof. split; simpl; [discriminate | contradiction]. Qed.

(** ** The scenarios of the specification, run on the list store *)

Definition no_fault (now : Z) (id : oid) : Env := mkEnv now id (fun _ => false).

Definition alpha_id : oid := 7%N.
Definition req_alpha : jsval := JObj [("name"%string, JStr "Alpha"%string); ("totalAmount"%string, JNum 1000)].
Definition req_bob : jsval :=
  JObj [("poolId"%string, JStr (toHexString alpha_id)); ("personName"%string, JStr "Bob"%string); ("amount"%string, JNum 250)].
Definition req_admin750 : jsval :=
  JObj [("poolId"%string, JStr (toHexString alpha_id)); ("extraAmount"%string, JNum 750)].

Definition db_alpha : option DB :=
  snd (run (handle (CreatePool req_alpha)) (no_fault 1 alpha_id) (Some (mkDB [] []))).
Definition db_bob : option DB := snd (run (handle (AddPerson req_bob)) (no_fault 2 8%N) db_alpha).
Definition db_admin : option DB :=
  snd (run (handle (AddShares req_admin750)) (no_fault 3 9%N) db_bob).

Definition summary_of (db : option DB) : option Summary :=
  match fst (run (handle (PoolSummary (toHexString alpha_id))) (no_fault 4 10%N) db) with
  | Ok (mkResponse 200 (BSummary sm)) => Some sm
  | _ => None
  end.

(** Creating [{name: "Alpha", totalAmount: 1000}] and then listing the
    pools gives exactly one pool, named "Alpha", with [adminShare] 0. *)
Theorem scenario_create_then_list :
  fst (run (handle ListPools) (no_fault 2 0%N) db_alpha)
  = Ok (mkResponse 200 (BPools [(alpha_id, mkPool (JStr "Alpha"%string) 1000 0 1)])).
Proof. vm_compute. reflexivity. Qed.

(** Adding [{personName: "Bob", amount: 250}] to that pool: the summary
    has [totalInvestment] 250, [remainingAmount] 750, [isFunded] false, and
    Bob's [sharePercentage] is 25. *)
Theorem scenario_bob_summary :
  match summary_of db_bob with
  | Some sm =>
      totalInvestment (investmentStatus sm) == 250
      /\ remainingAmount (investmentStatus sm) == 750
      /\ isFunded (investmentStatus sm) = false
      /\ Forall2 Qeq (map iv_sharePercentage (investors sm)) [25]
  | None => False
  end.
Proof. vm_compute. repeat (split || constructor); reflexivity. Qed.

(** Adding 750 of admin shares then funds the pool exactly. *)
Theorem scenario_admin_funds :
  match summary_of db_admin with
  | Some sm =>
      totalInvestment (investmentStatus sm) == 1000
      /\ remainingAmount (investmentStatus sm) == 0
      /\ isFunded (investmentStatus sm) = true
  | None => False
  end.
Proof. vm_compute. repeat split; reflexivity. Qed.

(** ** Witnesses: the handler theorems on concrete requests and stores *)

Definition s_empty : DB := mkDB [] [].
Definition alpha_doc : PoolDoc := mkPool (JStr "Alpha"%string) 1000 0 1.
Definition s_alpha : DB := mkDB [(alpha_id, alpha_doc)] [].
Definition bob_doc : PersonDoc := mkPerson alpha_id (JStr "Bob"%string) 250 2.
Definition req_no_total : jsval := JObj [("name"%string, JStr "Alpha"%string)].
Definition msg_required : string := "`name` and `totalAmount` are required.".

Lemma handle_error_atomic_witness :
  run (handle (CreatePool req_no_total)) (no_fault 0 0%N) (Some s_empty)
    = (Ok (mkResponse 400 (BError msg_required)), Some s_empty)
  /\ (400 <= status (mkResponse 400 (BError msg_required)))%Z
  /\ Some s_empty = Some s_empty.
Proof.
  assert (H1 : run (handle (CreatePool req_no_total)) (no_fault 0 0%N) (Some s_empty)
               = (Ok (mkResponse 400 (BError msg_required)), Some s_empty)) by (vm_compute; reflexivity).
  assert (H2 : (400 <= status (mkResponse 400 (BError msg_required)))%Z) by (simpl; lia).
  split; [exact H1 | split; [exact H2 | exact (handle_error_atomic _ _ _ _ _ H1 H2)]].
Defined.

Lemma handle_preserves_wf_witness :
  db_wf (Some s_empty)
  /\ db_wf (snd (run (handle (CreatePool req_alpha)) (no_fault 1 alpha_id) (Some s_empty))).
Proof.
  assert (H : db_wf (Some s_empty)) by (constructor; simpl; [discriminate | contradiction]).
  split; [exact H | exact (handle_preserves_wf (CreatePool req_alpha) _ _ H)].
Defined.

Lemma summary_goal_nonzero_witness :
  store_wf s_empty /\ reachable s_empty (Some s_alpha)
  /\ run (handle (PoolSummary (toHexString alpha_id))) (no_fault 2 0%N) (Some s_alpha)
     = (Ok (mkResponse 200 (BSummary (summarize alpha_id alpha_doc []))), Some s_alpha)
  /\ body (mkResponse 200 (BSummary (summarize alpha_id alpha_doc [])))
     = BSummary (summarize alpha_id alpha_doc [])
  /\ ~ pd_totalAmount (poolDetails (summarize alpha_id alpha_doc [])) == 0.
Proof.
  assert (H1 : store_wf s_empty) by (constructor; simpl; [discriminate | contradiction]).
  assert (H2 : reachable s_empty (Some s_alpha)).
  { replace (Some s_alpha) with db_alpha by (vm_compute; reflexivity).
    apply reach_step, reach_init. }
  assert (H3 : run (handle (PoolSummary (toHexString alpha_id))) (no_fault 2 0%N) (Some s_alpha)
     = (Ok (mkResponse 200 (BSummary (summarize alpha_id alpha_doc []))), Some s_alpha))
    by (vm_compute; reflexivity).
  assert (H4 : body (mkResponse 200 (BSummary (summarize alpha_id alpha_doc [])))
               = BSummary (summarize alpha_id alpha_doc [])) by reflexivity.
  do 4 (split; [assumption|]).
  exact (summary_goal_nonzero s_empty s_alpha _ _ _ _ _ H1 H2 H3 H4).
Defined.

Lemma create_missing_totalAmount_witness :
  truthy (get_field req_no_total "totalAmount") = false
  /\ run (handle (CreatePool req_no_total)) (no_fault 0 0%N) (Some s_empty)
     = (Ok (mkResponse 400 (BError msg_required)), Some s_empty).
Proof.
  assert (H : truthy (get_field req_no_total "totalAmount") = false) by (vm_compute; reflexivity).
  split; [exact H | exact (create_missing_totalAmount req_no_total (no_fault 0 0%N) (Some s_empty) H)].
Defined.

Lemma create_ok_witness :
  truthy (get_field req_alpha "name") = true /\ get_field req_alpha "totalAmount" = JNum 1000
  /\ ~ 1000 == 0
  /\ (truthy (get_field req_alpha "adminShare") = false \/ is_number (get_field req_alpha "adminShare") = true)
  /\ env_fail (no_fault 1 alpha_id) 0 = false /\ pools_findOne alpha_id s_empty = None
  /\ exists s' d,
      run (handle (CreatePool req_alpha)) (no_fault 1 alpha_id) (Some s_empty)
      = (Ok (mkResponse 201 (BCreated "Pool created successfully." alpha_id)), Some s')
      /\ pools_findOne alpha_id s' = Some d
      /\ pools_find_all s' = pools_find_all s_empty ++ [(alpha_id, d)]
      /\ pool_name d = get_field req_alpha "name" /\ pool_totalAmount d = 1000
      /\ pool_adminShare d == num_or_zero (get_field req_alpha "adminShare")
      /\ pool_createdAt d = 1%Z.
Proof.
  assert (H1 : truthy (get_field req_alpha "name") = true) by (vm_compute; reflexivity).
  assert (H2 : get_field req_alpha "totalAmount" = JNum 1000) by reflexivity.
  assert (H3 : ~ 1000 == 0) by (vm_compute; intros E; discriminate E).
  assert (H4 : truthy (get_field req_alpha "adminShare") = false
               \/ is_number (get_field req_alpha "adminShare") = true) by (left; reflexivity).
  assert (H5 : env_fail (no_fault 1 alpha_id) 0 = false) by reflexivity.
  assert (H6 : pools_findOne alpha_id s_empty = None) by reflexivity.
  do 6 (split; [assumption|]).
  exact (create_ok req_alpha (no_fault 1 alpha_id) s_empty 1000 H1 H2 H3 H4 H5 H6).
Defined.

Lemma add_shares_existing_witness :
  (alpha_id < 2 ^ 96)%N /\ get_field req_admin750 "poolId" = JStr (toHexString alpha_id)
  /\ get_field req_admin750 "extraAmount" = JNum 750 /\ ~ 750 == 0
  /\ env_fail (no_fault 3 9%N) 0 = false /\ pools_findOne alpha_id s_alpha = Some alpha_doc
  /\ exists s',
      run (handle (AddShares req_admin750)) (no_fault 3 9%N) (Some s_alpha)
      = (Ok (mkResponse 200 (BMessage "Admin share updated successfully.")), Some s')
      /\ pools_findOne alpha_id s' = Some (inc_adminShare 750 alpha_doc)
      /\ (forall id, id <> alpha_id -> pools_findOne id s' = pools_findOne id s_alpha).
Proof.
  assert (H1 : (alpha_id < 2 ^ 96)%N) by (vm_compute; reflexivity).
  assert (H2 : get_field req_admin750 "poolId" = JStr (toHexString alpha_id)) by reflexivity.
  assert (H3 : get_field req_admin750 "extraAmount" = JNum 750) by reflexivity.
  assert (H4 : ~ 750 == 0) by (vm_compute; intros E; discriminate E).
  assert (H5 : env_fail (no_fault 3 9%N) 0 = false) by reflexivity.
  assert (H6 : pools_findOne alpha_id s_alpha = Some alpha_doc) by reflexivity.
  do 6 (split; [assumption|]).
  exact (add_shares_existing req_admin750 _ s_alpha alpha_id 750 alpha_doc H1 H2 H3 H4 H5 H6).
Defined.

Lemma add_shares_absent_witness :
  (alpha_id < 2 ^ 96)%N /\ get_field req_admin750 "poolId" = JStr (toHexString alpha_id)
  /\ get_field req_admin750 "extraAmount" = JNum 750 /\ ~ 750 == 0
  /\ env_fail (no_fault 3 9%N) 0 = false /\ pools_findOne alpha_id s_empty = None
  /\ run (handle (AddShares req_admin750)) (no_fault 3 9%N) (Some s_empty)
     = (Ok (mkResponse 200 (BMessage "Admin share updated successfully.")), Some s_empty).
Proof.
  assert (H1 : (alpha_id < 2 ^ 96)%N) by (vm_compute; reflexivity).
  assert (H2 : get_field req_admin750 "poolId" = JStr (toHexString alpha_id)) by reflexivity.
  assert (H3 : get_field req_admin750 "extraAmount" = JNum 750) by reflexivity.
  assert (H4 : ~ 750 == 0) by (vm_compute; intros E; discriminate E).
  assert (H5 : env_fail (no_fault 3 9%N) 0 = false) by reflexivity.
  assert (H6 : pools_findOne alpha_id s_empty = None) by reflexivity.
  do 6 (split; [assumption|]).
  exact (add_shares_absent req_admin750 _ s_empty alpha_id 750 H1 H2 H3 H4 H5 H6).
Defined.

(** On the empty store: no pool has the id, and the person is filed
    under it all the same. *)
Lemma add_person_ok_witness :
  (alpha_id < 2 ^ 96)%N /\ get_field req_bob "poolId" = JStr (toHexString alpha_id)
  /\ truthy (get_field req_bob "personName") = true
  /\ get_field req_bob "amount" = JNum 250 /\ ~ 250 == 0
  /\ env_fail (no_fault 2 8%N) 0 = false
  /\ people_insertOne 8%N bob_doc s_empty = Some (mkDB [] [(8%N, bob_doc)])
  /\ run (handle (AddPerson req_bob)) (no_fault 2 8%N) (Some s_empty)
     = (Ok (mkResponse 201 (BMessage "Person added to pool successfully.")), Some (mkDB [] [(8%N, bob_doc)]))
  /\ people_findByPool alpha_id (mkDB [] [(8%N, bob_doc)])
     = people_findByPool alpha_id s_empty ++ [(8%N, bob_doc)]
  /\ (forall id, pools_findOne id (mkDB [] [(8%N, bob_doc)]) = pools_findOne id s_empty).
Proof.
  assert (H1 : (alpha_id < 2 ^ 96)%N) by (vm_compute; reflexivity).
  assert (H2 : get_field req_bob "poolId" = JStr (toHexString alpha_id)) by reflexivity.
  assert (H3 : truthy (get_field req_bob "personName") = true) by (vm_compute; reflexivity).
  assert (H4 : get_field req_bob "amount" = JNum 250) by reflexivity.
  assert (H5 : ~ 250 == 0) by (vm_compute; intros E; discriminate E).
  assert (H6 : env_fail (no_fault 2 8%N) 0 = false) by reflexivity.
  assert (H7 : people_insertOne 8%N bob_doc s_empty = Some (mkDB [] [(8%N, bob_doc)]))
    by (vm_compute; reflexivity).
  do 7 (split; [assumption|]).
  exact (add_person_ok req_bob (no_fault 2 8%N) s_empty _ alpha_id 250 H1 H2 H3 H4 H5 H6 H7).
Defined.

Lemma summary_invalid_id_witness :
  isValidObjectId (JStr "not-an-id"%string) = false
  /\ run (handle (PoolSummary "not-an-id"%string)) (no_fault 0 0%N) (Some s_alpha)
     = (Ok (mkResponse 400 (BError msg_invalid_id)), Some s_alpha).
Proof.
  assert (H : isValidObjectId (JStr "not-an-id"%string) = false) by (vm_compute; reflexivity).
  split; [exact H | exact (summary_invalid_id _ (no_fault 0 0%N) (Some s_alpha) H)].
Defined.

Lemma summary_not_found_witness :
  isValidObjectId (JStr (toHexString alpha_id)) = true /\ env_fail (no_fault 0 0%N) 0 = false
  /\ pools_findOne (objectid_of_string (toHexString alpha_id)) s_empty = None
  /\ run (handle (PoolSummary (toHexString alpha_id))) (no_fault 0 0%N) (Some s_empty)
     = (Ok (mkResponse 404 (BError "Pool not found.")), Some s_empty).
Proof.
  assert (H1 : isValidObjectId (JStr (toHexString alpha_id)) = true) by (vm_compute; reflexivity).
  assert (H2 : env_fail (no_fault 0 0%N) 0 = false) by reflexivity.
  assert (H3 : pools_findOne (objectid_of_string (toHexString alpha_id)) s_empty = None)
    by (vm_compute; reflexivity).
  do 3 (split; [assumption|]).
  exact (summary_not_found _ _ s_empty H1 H2 H3).
Defined.

Lemma summary_found_witness :
  isValidObjectId (JStr (toHexString alpha_id)) = true /\ env_fail (no_fault 0 0%N) 0 = false
  /\ env_fail (no_fault 0 0%N) 1 = false
  /\ pools_findOne (objectid_of_string (toHexString alpha_id)) s_alpha = Some alpha_doc
  /\ run (handle (PoolSummary (toHexString alpha_id))) (no_fault 0 0%N) (Some s_alpha)
     = (Ok (mkResponse 200 (BSummary (summarize (objectid_of_string (toHexString alpha_id)) alpha_doc
          (people_findByPool (objectid_of_string (toHexString alpha_id)) s_alpha)))), Some s_alpha).
Proof.
  assert (H1 : isValidObjectId (JStr (toHexString alpha_id)) = true) by (vm_compute; reflexivity).
  assert (H2 : env_fail (no_fault 0 0%N) 0 = false) by reflexivity.
  assert (H3 : env_fail (no_fault 0 0%N) 1 = false) by reflexivity.
  assert (H4 : pools_findOne (objectid_of_string (toHexString alpha_id)) s_alpha = Some alpha_doc)
    by (vm_compute; reflexivity).
  do 4 (split; [assumption|]).
  exact (summary_found _ _ s_alpha alpha_doc H1 H2 H3 H4).
Defined.

Lemma list_pools_ok_witness :
  env_fail (no_fault 0 0%N) 0 = false
  /\ exists l,
      run (handle ListPools) (no_fault 0 0%N) (Some s_alpha) = (Ok (mkResponse 200 (BPools l)), Some s_alpha)
      /\ Permutation (pools_find_all s_alpha) l
      /\ Sorted (fun a b => (pool_createdAt (snd b) <= pool_createdAt (snd a))%Z) l.
Proof.
  assert (H : env_fail (no_fault 0 0%N) 0 = false) by reflexivity.
  split; [exact H | exact (list_pools_ok (no_fault 0 0%N) s_alpha H)].
Defined.
