(* ===== verification/Server.v ===== *)
(** * Start-up: the connection handle of db.js and the boot of index.js

    [src/backend/config/db.js] keeps the connection in a module-level
    [let db = null] (line 3); [connect(done)] (lines 5-16) opens the
    client, sets [db] to the [POOLSYSTEM] database and calls [done()], and
    calls [done(err)] from its [catch], which also catches what [done()]
    itself throws; [get()] (lines 18-20) returns the handle.

    [src/backend/index.js] calls [connect] with a callback (lines 26-35)
    that logs a failure, or logs the success and calls [app.listen]: the
    router is served only once the handle is set.

    [Server] is the process state: the handle with the store behind it,
    whether [app.listen] has run, and the console.  [boot] is the top
    level of index.js; [serve] runs one request through [Api.handle] on
    the handle; [srv_reachable] is the step relation of a process. *)

From Stdlib Require Import QArith ZArith String List.
From stdpp Require Import base decidable.
From S2P Require Import Prelude JsValue ObjectId Store Summary Api.

Import ListNotations.
Open Scope pool_scope.

(** The lines index.js writes with [console.log]. *)
Inductive LogLine :=
| LogConnectFailed (err : string)   (** ["Failed to connect to MongoDB:", err] *)
| LogConnected                      (** ["Connected to MongoDB successfully"] *)
| LogStarted (port : jsval).        (** ["Server started at http://localhost:" + port] *)

Record Server (St : Type) := mkServer {
  srv_db : option St;       (** [let db = null] of db.js, behind [get()] *)
  srv_listening : bool;     (** [app.listen] has run *)
  srv_log : list LogLine
}.
Arguments mkServer {St}.
Arguments srv_db {St}.
Arguments srv_listening {St}.
Arguments srv_log {St}.

(** What [await MongoClient.connect(url)] gives: a client whose
    [client.db('POOLSYSTEM')] is the store [s], or a rejection. *)
Inductive ConnectResult (St : Type) :=
| Connected (s : St)
| ConnectRejected (err : string).
Arguments Connected {St}.
Arguments ConnectRejected {St}.

(** A callback of [connect]: it may throw. *)
Definition Callback (St : Type) : Type :=
  option string -> Server St -> Exc string unit * Server St.

Section Process.
Context {St : Type} {PS : PoolStore St}.

Definition set_db (db : option St) (sv : Server St) : Server St :=
  mkServer db (srv_listening sv) (srv_log sv).

Definition log_line (l : LogLine) (sv : Server St) : Server St :=
  mkServer (srv_db sv) (srv_listening sv) (srv_log sv ++ [l]).

(** [connect(done)] of db.js (lines 5-16): the [catch] receives the
    rejection of [MongoClient.connect] and also an exception of [done()]. *)
Definition connect (done : Callback St) (r : ConnectResult St) (sv : Server St)
  : Exc string unit * Server St :=
  match r with
  | ConnectRejected err => done (Some err) sv
  | Connected s =>
      let sv1 := set_db (Some s) sv in
      match done None sv1 with
      | (Ok u, sv2) => (Ok u, sv2)
      | (Throw err, sv2) => done (Some err) sv2
      end
  end.

(** [const port = process.env.PORT || 5000] (index.js line 11). *)
Definition port_of (env_port : option string) : jsval :=
  js_or (match env_port with Some p => JStr p | None => JUndefined end) (JNum 5000).

(** [app.listen(port, cb)]: the server accepts requests, and the callback
    logs the address. *)
Definition listen (port : jsval) (sv : Server St) : Server St :=
  log_line (LogStarted port) (mkServer (srv_db sv) true (srv_log sv)).

(** The callback index.js passes to [connect] (lines 26-35). *)
Definition on_connect (port : jsval) : Callback St :=
  fun err sv =>
    match err with
    | Some e => (Ok tt, log_line (LogConnectFailed e) sv)
    | None => (Ok tt, listen port (log_line LogConnected sv))
    end.

Definition init_server : Server St := mkServer None false [].

(** The top level of index.js: [connect] with its callback. *)
Definition boot (env_port : option string) (r : ConnectResult St) : Server St :=
  snd (connect (on_connect (port_of env_port)) r init_server).

(** One request through the router on the handle [get()] returns; a
    handler whose promise rejects sends nothing. *)
Definition serve (req : Request) (e : Env) (sv : Server St) : option Response * Server St :=
  match run (handle req) e (srv_db sv) with
  | (Ok resp, db') => (Some resp, set_db db' sv)
  | (Throw _, db') => (None, set_db db' sv)
  end.

(** The states of a process whose connection attempt gave [r]: its boot,
    then requests while it listens. *)
Inductive srv_reachable (r : ConnectResult St) : Server St -> Prop :=
| sr_boot env_port : srv_reachable r (boot env_port r)
| sr_serve sv req e :
    srv_reachable r sv -> srv_listening sv = true -> srv_reachable r (snd (serve req e sv)).
End Process.

(** ** Boot *)

Section Boot.
Context {St : Type} {PS : PoolStore St}.

Lemma serve_listening req e (sv : Server St) :
  srv_listening (snd (serve req e sv)) = srv_listening sv.
Proof. unfold serve. destruct (run (handle req) e (srv_db sv)) as [[] ?]; reflexivity. Qed.

Lemma serve_db req e (sv : Server St) :
  srv_db (snd (serve req e sv)) = snd (run (handle req) e (srv_db sv)).
Proof. unfold serve. destruct (run (handle req) e (srv_db sv)) as [[] ?]; reflexivity. Qed.

(** The boot follows the connection: when it succeeds the process
    holds the [POOLSYSTEM] store behind the handle, listens, and has logged
    the success and then the address; when it is rejected the process logs
    the error, keeps the [null] handle and never listens. *)
Theorem boot_outcome env_port (s : St) err :
  boot env_port (Connected s)
  = mkServer (Some s) true [LogConnected; LogStarted (port_of env_port)]
  /\ boot env_port (ConnectRejected err) = mkServer (St := St) None false [LogConnectFailed err].
Proof. split; reflexivity. Qed.

Lemma listening_handle_boot env_port (r : ConnectResult St) :
  srv_listening (boot env_port r) = true <-> is_Some (srv_db (boot env_port r)).
Proof. destruct r; simpl; split; intros H; [eauto | reflexivity | discriminate | inversion H; discriminate]. Qed.

(** C19: In every state of a process the server listens exactly when the
    handle is set: the router is mounted before [connect], but requests
    arrive only after [app.listen], which runs only once [db] is set, so
    no handler meets the [null] handle. *)
Theorem listening_iff_handle (r : ConnectResult St) sv :
  srv_reachable r sv -> (srv_listening sv = true <-> is_Some (srv_db sv)).
Proof.
  induction 1 as [p|sv req e Hr IH Hl].
  - apply listening_handle_boot.
  - rewrite serve_listening, serve_db, run_handle_is_Some. exact IH.
Qed.

(** A process whose connection was rejected serves nothing: every state
    it reaches is its boot state. *)
Theorem rejected_serves_nothing err (sv : Server St) :
  srv_reachable (ConnectRejected err) sv -> exists p, sv = boot p (ConnectRejected err).
Proof.
  induction 1 as [p|sv req e Hr IH Hl]; [eauto|].
  destruct IH as [p ->]. discriminate.
Qed.

(** The stores a process reaches are the stores [Api.reachable]
    reaches from the store it connected to: the process refines the
    request-level model. *)
Theorem srv_refines_requests (s : St) sv :
  srv_reachable (Connected s) sv -> reachable s (srv_db sv).
Proof.
  induction 1 as [p|sv req e Hr IH Hl]; [constructor|].
  rewrite serve_db. constructor. exact IH.
Qed.
End Boot.

Section Serving.
Context {St : Type} {PS : PoolStore St} {PL : PoolStoreLaws St}.

(** C38: A process that listens answers [GET /api/pool] with 200 and the
    sorted listing whenever the store call itself succeeds: it never
    answers 500 for want of a connection. *)
Theorem served_list_pools (r : ConnectResult St) sv e :
  srv_reachable r sv -> srv_listening sv = true -> env_fail e 0 = false ->
  exists s, srv_db sv = Some s /\
    fst (serve ListPools e sv)
    = Some (mkResponse 200 (BPools (sort_createdAt_desc (pools_find_all s)))).
Proof.
  intros Hr Hl Hf. apply (listening_iff_handle r sv Hr) in Hl. destruct Hl as [s Hs].
  exists s. split; [exact Hs|].
  unfold serve, run, handle, list_pools, catch, bind, ret, find_pools_sorted, store_call.
  rewrite Hs. simpl. rewrite Hf. reflexivity.
Qed.
End Serving.

(** ** Witnesses *)

Definition boot_alpha : Server DB := boot None (Connected s_alpha).

Lemma listening_iff_handle_witness :
  srv_reachable (Connected s_alpha) boot_alpha
  /\ (srv_listening boot_alpha = true <-> is_Some (srv_db boot_alpha)).
Proof.
  split; [constructor|]. apply (listening_iff_handle (Connected s_alpha) boot_alpha (sr_boot _ None)).
Defined.

Lemma rejected_serves_nothing_witness :
  srv_reachable (St := DB) (ConnectRejected "ECONNREFUSED") (boot None (ConnectRejected "ECONNREFUSED"))
  /\ exists p, boot (St := DB) None (ConnectRejected "ECONNREFUSED") = boot p (ConnectRejected "ECONNREFUSED").
Proof.
  split; [constructor|].
  apply (rejected_serves_nothing "ECONNREFUSED" _ (sr_boot _ None)).
Defined.

Definition served_once : Server DB := snd (serve (CreatePool req_alpha) (no_fault 1 alpha_id) (boot None (Connected s_empty))).

Lemma srv_refines_requests_witness :
  srv_reachable (Connected s_empty) served_once /\ reachable s_empty (srv_db served_once).
Proof.
  assert (H : srv_reachable (Connected s_empty) served_once)
    by (apply sr_serve; [constructor | reflexivity]).
  split; [exact H | apply (srv_refines_requests s_empty served_once H)].
Defined.

Lemma served_list_pools_witness :
  exists s, srv_db boot_alpha = Some s /\
    fst (serve ListPools (no_fault 5 0%N) boot_alpha)
    = Some (mkResponse 200 (BPools (sort_createdAt_desc (pools_find_all s)))).
Proof.
  apply (served_list_pools (Connected s_alpha) boot_alpha (no_fault 5 0%N));
    [constructor | reflexivity | reflexivity].
Defined.

