(* ===== verification/Forms.v ===== *)
(** * The dashboard's forms and its requests: App.jsx lines 107-235

    The request bodies the three forms of the dashboard build from their
    fields ([Number(formData.get(..))]), the client-side check of
    [AddAdminSharesForm] (line 217), [useApi().post] (lines 107-123), and
    the toast and [onComplete] that end a submission.  [submit] runs a
    submission through [Api.handle] on the store, so the theorems here are
    about the dashboard and the server together. *)

From Stdlib Require Import QArith Lqa ZArith NArith Lia String Ascii List Decimal DecimalString DecimalNat.
From stdpp Require Import base decidable.
From S2P Require Import Prelude JsValue ObjectId Store Summary Api.

Import ListNotations.
Open Scope Q_scope.
Open Scope pool_scope.

(** ** [Number(string)] on the value of an [<input type="number">]

    A JavaScript number here is [Some q], or [None] for [NaN].  The value
    of a number input is [""] or a valid floating-point number (the
    browser sanitises it), so the parser reads the decimal literals of
    [StringToNumber] (sign, digits, optional fraction, optional
    exponent) and gives [NaN] for anything else; [""] is [0]. *)
Definition jsnum := option Q.

Definition digit_of (c : ascii) : option Z :=
  let n := nat_of_ascii c in
  if (48 <=? n)%nat && (n <=? 57)%nat then Some (Z.of_nat n - 48)%Z else None.

(** The longest prefix of digits and the rest. *)
Fixpoint take_digits (s : string) : list Z * string :=
  match s with
  | String c s' =>
      match digit_of c with
      | Some d => let '(ds, r) := take_digits s' in (d :: ds, r)
      | None => ([], s)
      end
  | EmptyString => ([], EmptyString)
  end.

Definition digits_value (ds : list Z) : Z := fold_left (fun a d => a * 10 + d)%Z ds 0%Z.

(** An optional sign: [-1] for ["-"], [1] otherwise. *)
Definition take_sign (s : string) : Z * string :=
  match s with
  | String "-" r => (-1, r)%Z
  | String "+" r => (1, r)%Z
  | _ => (1, s)%Z
  end.

Definition parse_exponent (s : string) : option Z :=
  let '(sg, r) := take_sign s in
  let '(ds, r') := take_digits r in
  match ds, r' with
  | _ :: _, EmptyString => Some (sg * digits_value ds)%Z
  | _, _ => None
  end.

(** [digits [. digits] [(e|E) [sign] digits]], with a digit somewhere in
    the mantissa. *)
Definition parse_unsigned (s : string) : jsnum :=
  let '(int, r1) := take_digits s in
  let '(frac, r2) := match r1 with
                     | String "." r => take_digits r
                     | _ => ([], r1)
                     end in
  let mant := inject_Z (digits_value (int ++ frac)) / (10 ^ Z.of_nat (length frac)) in
  match int ++ frac with
  | [] => None
  | _ =>
      match r2 with
      | EmptyString => Some mant
      | String c r3 =>
          if (c =? "e")%char || (c =? "E")%char then
            option_map (fun k => mant * 10 ^ k) (parse_exponent r3)
          else None
      end
  end.

(** [Number(s)]. *)
Definition js_Number (s : string) : jsnum :=
  match s with
  | EmptyString => Some 0
  | _ => let '(sg, r) := take_sign s in option_map (Qmult (inject_Z sg)) (parse_unsigned r)
  end.

(** The number as [JSON.stringify] writes it and [express.json()] reads it
    back: [NaN] becomes [null]. *)
Definition num_json (x : jsnum) : jsval :=
  match x with Some q => JNum q | None => JNull end.

(** [x || 0] on a number: [NaN] and [0] are falsy. *)
Definition num_or_zero_js (x : jsnum) : jsnum :=
  match x with Some q => if Qeq_bool q 0 then Some 0 else Some q | None => Some 0 end.

(** [x <= 0]: false for [NaN]. *)
Definition num_le_zero (x : jsnum) : bool :=
  match x with Some q => Qle_bool q 0 | None => false end.

(** ** Request bodies and the forms *)

(** [CreatePoolForm] (lines 168-172). *)
Definition create_body (name totalAmount adminShare : string) : jsval :=
  JObj [("name", JStr name);
        ("totalAmount", num_json (js_Number totalAmount));
        ("adminShare", num_json (num_or_zero_js (js_Number adminShare)))]%string.

(** [AddPersonForm] (lines 193-197); [poolId] is the prop, the [_id] of the
    listed pool. *)
Definition add_person_body (poolId personName amount : string) : jsval :=
  JObj [("poolId", JStr poolId); ("personName", JStr personName);
        ("amount", num_json (js_Number amount))]%string.

(** [AddAdminSharesForm] (line 222). *)
Definition add_shares_body (poolId : string) (extraAmount : jsnum) : jsval :=
  JObj [("poolId", JStr poolId); ("extraAmount", num_json extraAmount)]%string.

Inductive ToastType := ToastSuccess | ToastError.

Record Toast := mkToast { toast_message : string; toast_type : ToastType }.

(** What a form's [handleSubmit] does: refuse with a toast and send
    nothing, or post a request with the toast of success and the default
    message of failure. *)
Inductive Submission :=
| Refuse (t : Toast)
| Post (req : Request) (success_msg default_error : string).

Definition CreatePoolForm (name totalAmount adminShare : string) : Submission :=
  Post (CreatePool (create_body name totalAmount adminShare))
       "Pool created successfully!" "Failed to create pool.".

Definition AddPersonForm (poolId personName amount : string) : Submission :=
  Post (AddPerson (add_person_body poolId personName amount))
       "Investor added successfully!" "Failed to add investor.".

(** Lines 216-222: the positive check, then the request. *)
Definition AddAdminSharesForm (poolId extraAmount : string) : Submission :=
  let x := js_Number extraAmount in
  if num_le_zero x then Refuse (mkToast "Please enter a positive amount." ToastError)
  else Post (AddShares (add_shares_body poolId x))
            "Admin shares added successfully!" "Failed to add shares.".

(** ** [fetch] and [useApi().post] *)

(** What [await fetch(url, ...)] gives: a rejection (network failure, with
    its message) or the server's response. *)
Inductive HttpResult :=
| NetworkError (message : string)
| HttpResponse (r : Response).

(** [response.ok]. *)
Definition response_ok (r : Response) : bool := (200 <=? status r)%Z && (status r <=? 299)%Z.

(** [result.success] of the JSON the handlers send. *)
Definition body_success (b : Body) : bool :=
  match b with BError _ => false | _ => true end.

(** [new Error(body.error).message]: the handlers' [error] string, or [""]
    for a body without one. *)
Definition body_error_message (b : Body) : string :=
  match b with BError e => e | _ => "" end.

(** [post(url, body)] (lines 109-121): the parsed body, or the thrown
    error's message. *)
Definition post (res : HttpResult) : Exc string Body :=
  match res with
  | NetworkError m => Throw m
  | HttpResponse r =>
      if response_ok r then Ok (body r) else Throw (body_error_message (body r))
  end.

(** The end of [handleSubmit]: the toast, and whether [onComplete] ran
    ([err.message || default]). *)
Definition finish_submission (success_msg default_error : string) (res : HttpResult) : Toast * bool :=
  match post res with
  | Ok _ => (mkToast success_msg ToastSuccess, true)
  | Throw m => (mkToast (if String.eqb m "" then default_error else m) ToastError, false)
  end.

(** The server as the dashboard reaches it: [Api.handle] on the store.  A
    handler never rejects ([Api.handle_ok]); a rejection would leave the
    request unanswered, which [fetch] reports as a network error. *)
Section Client.
Context {St : Type} {PS : PoolStore St}.

Definition call_api (req : Request) (e : Env) (db : option St) : HttpResult * option St :=
  match run (handle req) e db with
  | (Ok r, db') => (HttpResponse r, db')
  | (Throw _, db') => (NetworkError "Failed to fetch", db')
  end.

(** A submission from its start: the toast, whether [onComplete] ran, and
    the store afterwards. *)
Definition submit (sub : Submission) (e : Env) (db : option St) : Toast * bool * option St :=
  match sub with
  | Refuse t => (t, false, db)
  | Post req ok err =>
      let '(res, db') := call_api req e db in (finish_submission ok err res, db')
  end.
End Client.

(** ** Helper lemmas *)

#[local] Arguments get_field : simpl never.
#[local] Arguments truthy : simpl never.
#[local] Arguments is_number : simpl never.
#[local] Arguments isValidObjectId : simpl never.
#[local] Arguments summarize : simpl never.
#[local] Arguments sort_createdAt_desc : simpl never.
#[local] Arguments objectid_of_string : simpl never.

Section ClientLemmas.
Context {St : Type} {PS : PoolStore St}.

(** The server always answers. *)
Lemma call_api_response req e (db : option St) res db' :
  call_api req e db = (res, db') ->
  exists r, res = HttpResponse r /\ run (handle req) e db = (Ok r, db').
Proof.
  unfold call_api. destruct (handle_total req e db) as [r [db1 E]]. rewrite E.
  intros [= <- <-]. eauto.
Qed.

(** A submission either completes or leaves the store as it was. *)
Lemma submit_completes_or_unchanged sub e (db : option St) t ok db' :
  submit sub e db = (t, ok, db') -> ok = true \/ db' = db.
Proof.
  destruct sub as [t0|req okm errm]; simpl; [intros H; inversion H; right; reflexivity|].
  destruct (call_api req e db) as [res db1] eqn:E.
  destruct (call_api_response _ _ _ _ _ E) as [r [-> Hr]].
  unfold finish_submission, post.
  destruct (response_ok r) eqn:Ok; intros H; inversion H; subst; [left; reflexivity|right].
  destruct (handle_status _ _ _ _ _ Hr) as [[S|S]|[_ S]]; [| |exact S];
    unfold response_ok in Ok; rewrite S in Ok; discriminate.
Qed.
End ClientLemmas.

Lemma get_field_add_shares_body pid x :
  get_field (add_shares_body pid x) "extraAmount" = num_json x.
Proof. destruct x; reflexivity. Qed.

Lemma get_field_create_body n t a :
  get_field (create_body n t a) "totalAmount" = num_json (js_Number t).
Proof. unfold create_body. destruct (js_Number t); reflexivity. Qed.

Section Forms.
Context {St : Type} {PS : PoolStore St} {PL : PoolStoreLaws St}.

Lemma inc_adminShare_grows x d : 0 < x -> pool_adminShare d <= pool_adminShare (inc_adminShare x d).
Proof. intros H. simpl. lra. Qed.

(** C32: Whatever is typed in the admin-shares form, submitting it never
    lowers an admin share: the form refuses amounts [<= 0], and a [NaN]
    travels as [null], which the handler refuses.  (The API alone accepts
    a negative [extraAmount].) *)
Theorem ui_add_shares_monotone pid x e s t ok db' :
  submit (AddAdminSharesForm pid x) e (Some s) = (t, ok, db') ->
  exists s', db' = Some s' /\
    forall id d, pools_findOne id s = Some d ->
      exists d', pools_findOne id s' = Some d' /\ pool_adminShare d <= pool_adminShare d'.
Proof.
  unfold AddAdminSharesForm.
  destruct (num_le_zero (js_Number x)) eqn:Hle; simpl.
  { intros H; inversion H; subst. exists s. split; [reflexivity|]. intros id d Hd.
    exists d. split; [exact Hd | apply Qle_refl]. }
  destruct (call_api _ e (Some s)) as [res db1] eqn:E.
  destruct (call_api_response _ _ _ _ _ E) as [r [_ Hr]].
  intros H; inversion H; subst; clear H.
  destruct (add_shares_effect _ _ _ _ _ Hr) as [->|[Ht [_ ->]]].
  { exists s. split; [reflexivity|]. intros id d Hd. exists d. split; [exact Hd | apply Qle_refl]. }
  eexists. split; [reflexivity|]. intros id d Hd.
  rewrite get_field_add_shares_body in *.
  destruct (js_Number x) as [q|]; [|discriminate].
  simpl in Hle. apply Qle_bool_false in Hle. simpl.
  rewrite pools_inc_findOne. case_decide; [subst; rewrite Hd; simpl|].
  - eexists. split; [reflexivity|]. apply inc_adminShare_grows. exact Hle.
  - eexists. split; [exact Hd | apply Qle_refl].
Qed.

(** Submitting the create form with a goal that [Number()] makes
    falsy ([""], ["0"], not a number) shows the handler's message in an
    error toast, does not complete, and persists nothing. *)
Theorem ui_create_falsy_goal n t a e (db : option St) :
  truthy (num_json (js_Number t)) = false ->
  submit (CreatePoolForm n t a) e db
  = (mkToast "`name` and `totalAmount` are required." ToastError, false, db).
Proof.
  intros Ht. unfold submit, CreatePoolForm, call_api, run, handle, create_pool, ret.
  rewrite get_field_create_body, Ht, orb_true_r. reflexivity.
Qed.
End Forms.

(** ** Witnesses *)

Definition w_shares : Toast * bool * option DB :=
  submit (AddAdminSharesForm (toHexString alpha_id) "250") (no_fault 3 0%N) (Some s_alpha).

Lemma ui_add_shares_monotone_witness :
  exists s', snd w_shares = Some s' /\
    forall id d, pools_findOne id s_alpha = Some d ->
      exists d', pools_findOne id s' = Some d' /\ pool_adminShare d <= pool_adminShare d'.
Proof.
  apply (ui_add_shares_monotone (toHexString alpha_id) "250" (no_fault 3 0%N) s_alpha
           (fst (fst w_shares)) (snd (fst w_shares)) (snd w_shares)).
  vm_compute. reflexivity.
Defined.

Lemma ui_create_falsy_goal_witness :
  truthy (num_json (js_Number "")) = false
  /\ submit (CreatePoolForm "Alpha" "" "") (no_fault 1 alpha_id) (Some s_empty)
     = (mkToast "`name` and `totalAmount` are required." ToastError, false, Some s_empty).
Proof.
  split; [reflexivity|]. apply ui_create_falsy_goal. reflexivity.
Defined.

(** ** [Number()] against the Standard Library's decimal numbers *)

(** The digits of a decimal numeral, most significant first. *)
Fixpoint uint_digits (d : Decimal.uint) : list Z :=
  match d with
  | Decimal.Nil => []
  | Decimal.D0 d => 0%Z :: uint_digits d | Decimal.D1 d => 1%Z :: uint_digits d
  | Decimal.D2 d => 2%Z :: uint_digits d | Decimal.D3 d => 3%Z :: uint_digits d
  | Decimal.D4 d => 4%Z :: uint_digits d | Decimal.D5 d => 5%Z :: uint_digits d
  | Decimal.D6 d => 6%Z :: uint_digits d | Decimal.D7 d => 7%Z :: uint_digits d
  | Decimal.D8 d => 8%Z :: uint_digits d | Decimal.D9 d => 9%Z :: uint_digits d
  end.

Lemma take_digits_uint d :
  take_digits (NilEmpty.string_of_uint d) = (uint_digits d, EmptyString).
Proof. induction d; simpl; try rewrite IHd; reflexivity. Qed.

Lemma digits_value_uint d acc :
  fold_left (fun a x => a * 10 + x)%Z (uint_digits d) (Z.of_nat acc)
  = Z.of_nat (Nat.of_uint_acc d acc).
Proof.
  revert acc. induction d; intros acc; simpl; [reflexivity| ..];
    rewrite <- IHd; f_equal; rewrite Nat.tail_mul_spec; lia.
Qed.

(** On a numeral without sign, fraction or exponent, [Number()] is the
    Standard Library's reading of the decimal numeral. *)
Theorem js_Number_decimal d :
  d <> Decimal.Nil ->
  exists q, js_Number (NilEmpty.string_of_uint d) = Some q
            /\ q == inject_Z (Z.of_nat (Nat.of_uint d)).
Proof.
  intros Hd. remember (NilEmpty.string_of_uint d) as s eqn:Es.
  assert (Hsign : take_sign s = (1%Z, s)) by (subst; destruct d; [contradiction| ..]; reflexivity).
  assert (Hpu : parse_unsigned s = Some (inject_Z (Z.of_nat (Nat.of_uint d)) / 10 ^ Z.of_nat 0)).
  { subst s. unfold parse_unsigned. rewrite take_digits_uint. cbv beta iota zeta.
    rewrite app_nil_r. change (Nat.of_uint d) with (Nat.of_uint_acc d 0).
    rewrite <- (digits_value_uint d 0).
    destruct d; [contradiction| ..]; reflexivity. }
  destruct s as [|c s']; [subst; destruct d; [contradiction| ..]; discriminate|].
  unfold js_Number. rewrite Hsign, Hpu. eexists. split; [reflexivity|].
  change (10 ^ Z.of_nat 0) with 1. field.
Qed.


Lemma num_or_zero_js_some x : exists q, num_or_zero_js x = Some q.
Proof. destruct x as [q|]; simpl; [destruct (Qeq_bool q 0)|]; eauto. Qed.

(** The shape of the bodies the dashboard sends: the names and the pool
    id are strings, the amounts are numbers or [null] (a [NaN] from
    [Number()], which the handlers then refuse), and [adminShare] is
    always a number. *)
Theorem form_bodies_typed n t a pid pn am x :
  (get_field (create_body n t a) "name" = JStr n
   /\ (is_number (get_field (create_body n t a) "totalAmount") = true
       \/ get_field (create_body n t a) "totalAmount" = JNull)
   /\ is_number (get_field (create_body n t a) "adminShare") = true)
  /\ (get_field (add_person_body pid pn am) "poolId" = JStr pid
      /\ get_field (add_person_body pid pn am) "personName" = JStr pn
      /\ (is_number (get_field (add_person_body pid pn am) "amount") = true
          \/ get_field (add_person_body pid pn am) "amount" = JNull))
  /\ get_field (add_shares_body pid x) "poolId" = JStr pid
  /\ (is_number (get_field (add_shares_body pid x) "extraAmount") = true
      \/ get_field (add_shares_body pid x) "extraAmount" = JNull).
Proof.
  destruct (num_or_zero_js_some (js_Number a)) as [q Hq].
  unfold create_body, add_person_body, add_shares_body. rewrite Hq.
  repeat split; try (destruct (js_Number t)); try (destruct (js_Number am)); try (destruct x);
    first [reflexivity | left; reflexivity | right; reflexivity].
Qed.

Lemma js_Number_decimal_witness :
  exists q, js_Number (NilEmpty.string_of_uint (D2 (D5 (D0 Nil)))) = Some q
            /\ q == inject_Z (Z.of_nat (Nat.of_uint (D2 (D5 (D0 Nil))))).
Proof. apply js_Number_decimal. discriminate. Defined.
