(* ===== verification/Ui.v ===== *)
(** * The dashboard: the state of src/frontend/vite-project/src/App.jsx

    The [useFetch] state machine (lines 125-142), the figures
    [PoolDetailView] derives from a summary (lines 240-257), and the state
    of [App] (lines 347-369) under its events ([app_step]), each request
    served by the handlers on the store through [Forms.submit] and
    [Forms.call_api].  The toast's timer is part of the state: [Toast]
    (lines 15-30) restarts its 4-second [setTimeout] at every render of
    [App] ([rerender]), and [Tick] lets time pass.

    A submission is one step: its answer comes before any other event.
    [Submissions] models the create modal with its requests in flight and
    [useApi]'s [loading] flag, and shows that this step is the case of it
    where the answer comes at once.
    The fetches of [useFetch] ([FetchPools], [FetchSummary]) are events
    of their own, which a run may take at any time, more often than the
    effects of App.jsx start them ([Effects] says when they do): the
    theorems over all runs hold a fortiori for the runs App.jsx makes.
    An event is taken to render [App] when it calls one of [App]'s setters;
    React skips a render when the new value is the old one, which the
    events below, as the screen offers them, never do (a modal's open
    button is hidden behind the open modal, a fetch always changes
    [loading], a toast is a new object). *)

From Stdlib Require Import QArith Qminmax Lqa ZArith NArith Lia String Ascii List Permutation DecimalString DecimalN.
From stdpp Require Import base decidable.
From S2P Require Import Prelude JsValue ObjectId Store Summary Api Forms.

Import ListNotations.
Open Scope Q_scope.
Open Scope pool_scope.

(** ** [useFetch] (lines 125-142) *)

Record FetchState := mkFetch {
  f_data : option Body;     (** [data] *)
  f_loading : bool;         (** [loading] *)
  f_error : option string   (** [error] *)
}.

(** [useState(null)], [useState(true)], [useState(null)]. *)
Definition fetch_init : FetchState := mkFetch None true None.

(** [String(n)] of an HTTP status. *)
Definition z_to_string (z : Z) : string := NilZero.string_of_uint (N.to_uint (Z.to_N z)).

(** [fetchData] (lines 129-139): [setLoading(true); setError(null)], the
    request, then [setData] or [setError], and [setLoading(false)]. *)
Definition fetch_start (st : FetchState) : FetchState := mkFetch (f_data st) true None.

Definition fetch_finish (res : HttpResult) (st : FetchState) : FetchState :=
  match res with
  | NetworkError m => mkFetch (f_data st) false (Some m)
  | HttpResponse r =>
      if negb (response_ok r) then
        mkFetch (f_data st) false (Some ("HTTP error! status: " ++ z_to_string (status r))%string)
      else if body_success (body r) then mkFetch (Some (body r)) false None
      else mkFetch (f_data st) false (Some (body_error_message (body r)))
  end.

Definition fetchData (res : HttpResult) (st : FetchState) : FetchState :=
  fetch_finish res (fetch_start st).

(** A string state is shown when it is truthy. *)
Definition shown (o : option string) : bool :=
  match o with Some m => negb (String.eqb m "") | None => false end.

(** ** What [PoolDetailView] derives from a summary (lines 249-257) *)

Record Figures := mkFigures {
  fundingPercentage : Q;
  pieChartData : list (string * Q);
  participants : nat        (** [investors.length + 1] (line 289) *)
}.

Definition figures (sm : Summary) : Figures :=
  let goal := pd_totalAmount (poolDetails sm) in
  let ti := totalInvestment (investmentStatus sm) in
  let admin := ac_amount (adminContribution sm) in
  mkFigures (if negb (Qle_bool goal 0) then ti / goal * 100 else 0)
            [("Admin", admin); ("Investors", ti - admin);
             ("Unfunded", Qmax 0 (remainingAmount (investmentStatus sm)))]%string
            (length (investors sm) + 1).

Inductive DetailView :=
| DSpinner
| DError (message : string)
| DNothing
| DDetails (f : Figures)
| DCrash.                   (** [const { summary } = data] on a body without one *)

(** Lines 245-252: the early returns, then the figures. *)
Definition PoolDetailView (st : FetchState) : DetailView :=
  if f_loading st then DSpinner
  else if shown (f_error st) then DError (match f_error st with Some m => m | None => "" end)
  else match f_data st with
       | None => DNothing
       | Some (BSummary sm) => DDetails (figures sm)
       | Some _ => DCrash
       end.

(** ** [App] (lines 347-369) *)

(** The state of [PoolDetailView] while it is mounted. *)
Record DetailState := mkDetail {
  isAddPersonModalOpen : bool;
  isAddSharesModalOpen : bool;
  summary_fetch : FetchState
}.

Record AppState := mkApp {
  viewingPoolId : option string;
  isCreateModalOpen : bool;
  toast : option Toast;
  dataVersion : nat;
  pools_fetch : FetchState;
  detail : DetailState;
  toast_timer : nat        (** ms before the [setTimeout] of [Toast] fires *)
}.

Definition detail_init : DetailState := mkDetail false false fetch_init.

Definition app_init : AppState := mkApp None false None 0 fetch_init detail_init 0.

(** The listing's URL: [`${API_BASE_URL}?v=${dataVersion}`]; a new URL
    makes [useFetch] fetch again. *)
Definition listing_url (st : AppState) : string :=
  ("http://localhost:5000/api/pool?v=" ++ z_to_string (Z.of_nat (dataVersion st)))%string.

(** [data?.pools || []] (line 357). *)
Definition displayed_pools (st : FetchState) : list (oid * PoolDoc) :=
  match f_data st with Some (BPools l) => l | _ => [] end.

(** The table of line 381: shown when [!loading && !error]. *)
Definition pools_table (st : AppState) : option (list (oid * PoolDoc)) :=
  if f_loading (pools_fetch st) || shown (f_error (pools_fetch st)) then None
  else Some (displayed_pools (pools_fetch st)).

Inductive AppEvent :=
| OpenCreate | CloseCreate
| ViewDetails (poolId : string) | CloseDetails
| OpenAddPerson | CloseAddPerson | OpenAddShares | CloseAddShares
| SubmitCreate (name totalAmount adminShare : string)
| SubmitAddPerson (personName amount : string)
| SubmitAddShares (extraAmount : string)
| FetchPools                  (** the listing's [fetchData] *)
| FetchSummary                (** the detail view's [fetchData] *)
| Tick (ms : nat).            (** [ms] milliseconds with no other event *)

Section AppSteps.
Context {St : Type} {PS : PoolStore St}.

Definition set_create (b : bool) (st : AppState) : AppState :=
  mkApp (viewingPoolId st) b (toast st) (dataVersion st) (pools_fetch st) (detail st) (toast_timer st).

Definition set_toast (t : option Toast) (st : AppState) : AppState :=
  mkApp (viewingPoolId st) (isCreateModalOpen st) t (dataVersion st) (pools_fetch st) (detail st) (toast_timer st).

Definition set_view (v : option string) (st : AppState) : AppState :=
  mkApp v (isCreateModalOpen st) (toast st) (dataVersion st) (pools_fetch st) detail_init (toast_timer st).

Definition set_detail (d : DetailState) (st : AppState) : AppState :=
  mkApp (viewingPoolId st) (isCreateModalOpen st) (toast st) (dataVersion st) (pools_fetch st) d (toast_timer st).

Definition set_pools_fetch (f : FetchState) (st : AppState) : AppState :=
  mkApp (viewingPoolId st) (isCreateModalOpen st) (toast st) (dataVersion st) f (detail st) (toast_timer st).

(** [handleDataUpdate] (line 355): [setDataVersion(v => v + 1)]; the new
    URL starts the listing's [fetchData]. *)
Definition handleDataUpdate (st : AppState) : AppState :=
  mkApp (viewingPoolId st) (isCreateModalOpen st) (toast st) (S (dataVersion st))
        (fetch_start (pools_fetch st)) (detail st) (toast_timer st).

(** The [onComplete] of the detail view's forms (lines 262 and 265): close
    the modal, [retry()] the summary, [onDataUpdate()]. *)
Definition detail_complete (person_modal : bool) (st : AppState) : AppState :=
  let d := detail st in
  handleDataUpdate
    (set_detail (mkDetail (if person_modal then false else isAddPersonModalOpen d)
                          (if person_modal then isAddSharesModalOpen d else false)
                          (fetch_start (summary_fetch d))) st).

(** [Toast] (lines 15-30) starts [setTimeout(onDismiss, 4000)] in an
    effect whose dependency [onDismiss] is the arrow [() => setToast(null)]
    that [App] creates anew at each render (line 362): every render of
    [App] while a toast is shown clears the timer and starts it again. *)
Definition rerender (st : AppState) : AppState :=
  mkApp (viewingPoolId st) (isCreateModalOpen st) (toast st) (dataVersion st)
        (pools_fetch st) (detail st)
        (match toast st with Some _ => 4000 | None => toast_timer st end).

(** [ms] milliseconds pass: the timer fires [onDismiss] when it runs out. *)
Definition tick (ms : nat) (st : AppState) : AppState :=
  match toast st with
  | Some _ =>
      if (toast_timer st <=? ms)%nat then set_toast None st
      else mkApp (viewingPoolId st) (isCreateModalOpen st) (toast st) (dataVersion st)
                 (pools_fetch st) (detail st) (toast_timer st - ms)
  | None => st
  end.

(** One event of the dashboard, with the request it sends served by the
    handlers on the store.  A form is on screen only while its modal is
    open ([Modal] renders nothing otherwise). *)
Definition app_step (ev : AppEvent) (e : Env) (st : AppState) (db : option St)
  : AppState * option St :=
  let d := detail st in
  match ev with
  | OpenCreate => (rerender (set_create true st), db)
  | CloseCreate => (rerender (set_create false st), db)
  | ViewDetails id => (rerender (set_view (Some id) st), db)
  | CloseDetails => (rerender (set_view None st), db)
  | OpenAddPerson => (set_detail (mkDetail true (isAddSharesModalOpen d) (summary_fetch d)) st, db)
  | CloseAddPerson => (set_detail (mkDetail false (isAddSharesModalOpen d) (summary_fetch d)) st, db)
  | OpenAddShares => (set_detail (mkDetail (isAddPersonModalOpen d) true (summary_fetch d)) st, db)
  | CloseAddShares => (set_detail (mkDetail (isAddPersonModalOpen d) false (summary_fetch d)) st, db)
  | SubmitCreate n t a =>
      if isCreateModalOpen st then
        let '(t', ok, db') := submit (CreatePoolForm n t a) e db in
        let st1 := set_toast (Some t') st in
        (rerender (if ok then handleDataUpdate (set_create false st1) else st1), db')
      else (st, db)
  | SubmitAddPerson pn am =>
      match viewingPoolId st with
      | Some pid =>
          if isAddPersonModalOpen d then
            let '(t', ok, db') := submit (AddPersonForm pid pn am) e db in
            let st1 := set_toast (Some t') st in
            (rerender (if ok then detail_complete true st1 else st1), db')
          else (st, db)
      | None => (st, db)
      end
  | SubmitAddShares x =>
      match viewingPoolId st with
      | Some pid =>
          if isAddSharesModalOpen d then
            let '(t', ok, db') := submit (AddAdminSharesForm pid x) e db in
            let st1 := set_toast (Some t') st in
            (rerender (if ok then detail_complete false st1 else st1), db')
          else (st, db)
      | None => (st, db)
      end
  | FetchPools =>
      let '(res, db') := call_api ListPools e db in
      (rerender (set_pools_fetch (fetchData res (pools_fetch st)) st), db')
  | FetchSummary =>
      match viewingPoolId st with
      | Some pid =>
          let '(res, db') := call_api (PoolSummary pid) e db in
          (set_detail (mkDetail (isAddPersonModalOpen d) (isAddSharesModalOpen d)
                                (fetchData res (summary_fetch d))) st, db')
      | None => (st, db)
      end
  | Tick ms => (tick ms st, db)
  end.
End AppSteps.

(** ** Helper lemmas *)

#[local] Arguments get_field : simpl never.
#[local] Arguments truthy : simpl never.
#[local] Arguments is_number : simpl never.
#[local] Arguments isValidObjectId : simpl never.
#[local] Arguments summarize : simpl never.
#[local] Arguments sort_createdAt_desc : simpl never.
#[local] Arguments objectid_of_string : simpl never.

Lemma to_uint_not_nil n : N.to_uint n <> Decimal.Nil.
Proof.
  intros E. pose proof (DecimalN.Unsigned.of_to n) as F. rewrite E in F. simpl in F.
  subst n. discriminate E.
Qed.

(** [String(n)] is injective on the counters. *)
Lemma z_to_string_of_nat_inj m n : z_to_string (Z.of_nat m) = z_to_string (Z.of_nat n) -> m = n.
Proof.
  unfold z_to_string. rewrite <- !nat_N_Z, !N2Z.id. intros H.
  pose proof (NilZero.usu _ (to_uint_not_nil (N.of_nat m))) as Hm.
  rewrite H, NilZero.usu in Hm by apply to_uint_not_nil. injection Hm as Hm.
  apply Nat2N.inj. rewrite <- (DecimalN.Unsigned.of_to (N.of_nat m)), <- (DecimalN.Unsigned.of_to (N.of_nat n)), Hm.
  reflexivity.
Qed.

(** [handleDataUpdate] gives the listing a new URL, so [useFetch] fetches it
    again. *)
Lemma listing_url_changes st : listing_url (handleDataUpdate st) <> listing_url st.
Proof.
  unfold listing_url. simpl dataVersion. intros H. cbn in H.
  repeat match type of H with String _ _ = String _ _ => injection H as H end.
  apply z_to_string_of_nat_inj in H. lia.
Qed.



Lemma fetchData_ok r st :
  response_ok r = true -> body_success (body r) = true ->
  fetchData (HttpResponse r) st = mkFetch (Some (body r)) false None.
Proof. intros H1 H2. unfold fetchData, fetch_finish. rewrite H1, H2. reflexivity. Qed.

(** ** The dashboard and the server *)

Section EndToEnd.
Context {St : Type} {PS : PoolStore St}.

(** C31: The dashboard never misses a change of the store: every event
    that changes the store bumps [dataVersion], which gives the listing a
    new URL and fetches it again; a refused or failed submission changes
    nothing. *)
Theorem app_mutation_refetches ev e st (db : option St) st' db' :
  app_step ev e st db = (st', db') -> db' <> db ->
  dataVersion st' = S (dataVersion st) /\ listing_url st' <> listing_url st.
Proof.
  intros Hs Hne. cut (dataVersion st' = S (dataVersion st)).
  { intros Hv. split; [exact Hv|]. unfold listing_url. rewrite Hv. apply (listing_url_changes st). } destruct ev; unfold app_step in Hs; cbv zeta in Hs;
    repeat match type of Hs with
    | context [match ?x with _ => _ end] => destruct x eqn:?
    end; injection Hs as <- <-; try reflexivity; try congruence; exfalso; apply Hne;
    match goal with
    | E : submit _ _ _ = _ |- _ =>
        destruct (submit_completes_or_unchanged _ _ _ _ _ _ E) as [Hok|Hdb];
        [discriminate | exact Hdb]
    | E : call_api ?req _ _ = _ |- _ =>
        destruct (call_api_response _ _ _ _ _ E) as [r [_ Hr]];
        pose proof (handle_readonly req e db) as Hro; rewrite Hr in Hro; apply Hro; eauto
    end.
Qed.
End EndToEnd.


Section Views.
Context {St : Type} {PS : PoolStore St}.

(** Fetching the listing from a store whose read succeeds shows, in
    the dashboard's table, exactly the store's pools, newest first, and
    leaves the store as it was. *)
Theorem ui_listing_shows_store e st s st' db' :
  env_fail e 0 = false -> app_step FetchPools e st (Some s) = (st', db') ->
  db' = Some s /\ pools_table st' = Some (sort_createdAt_desc (pools_find_all s)).
Proof.
  intros Hf. unfold app_step, call_api, run, handle, list_pools, catch, bind, ret,
    find_pools_sorted, store_call. simpl. rewrite Hf. simpl.
  intros H; inversion H; subst. split; reflexivity.
Qed.

(** Opening an existing pool and fetching its summary shows the
    figures of [summarize] of that pool and of the people filed under it. *)
Theorem ui_detail_shows_summary e st s pid d st' db' :
  viewingPoolId st = Some pid -> isValidObjectId (JStr pid) = true ->
  env_fail e 0 = false -> env_fail e 1 = false ->
  pools_findOne (objectid_of_string pid) s = Some d ->
  app_step FetchSummary e st (Some s) = (st', db') ->
  db' = Some s /\
  PoolDetailView (summary_fetch (detail st'))
  = DDetails (figures (summarize (objectid_of_string pid) d
                         (people_findByPool (objectid_of_string pid) s))).
Proof.
  intros Hv V Hf0 Hf1 Hd. unfold app_step. rewrite Hv.
  unfold call_api, run, handle, pool_summary, catch, bind, ret, find_pool, find_people, store_call.
  rewrite V. simpl. rewrite Hf0, Hd. simpl. rewrite Hf1. simpl.
  intros H; inversion H; subst. split; reflexivity.
Qed.

(** For a well-formed id that names no pool the detail view shows
    ["HTTP error! status: 404"]: the dashboard's [useFetch] drops the
    handler's ["Pool not found."]. *)
Theorem ui_detail_not_found e st s pid st' db' :
  viewingPoolId st = Some pid -> isValidObjectId (JStr pid) = true -> env_fail e 0 = false ->
  pools_findOne (objectid_of_string pid) s = None ->
  app_step FetchSummary e st (Some s) = (st', db') ->
  db' = Some s /\ PoolDetailView (summary_fetch (detail st')) = DError "HTTP error! status: 404".
Proof.
  intros Hv V Hf0 Hd. unfold app_step. rewrite Hv.
  unfold call_api, run, handle, pool_summary, catch, bind, ret, find_pool, store_call.
  rewrite V. simpl. rewrite Hf0, Hd. simpl.
  intros H; inversion H; subst. split; reflexivity.
Qed.

(** C34: Every pool the dashboard lists can be opened: after the listing is
    fetched, the [Details] button of a listed pool ([setViewingPoolId(pool._id)],
    with the id printed in hex) passes the handler's id check, and fetching
    the summary shows the figures of that pool and of its people. *)
Theorem listed_pool_opens {PL : PoolStoreLaws St} e e' st s st1 db1 n d st2 db2 :
  env_fail e 0 = false -> env_fail e' 0 = false -> env_fail e' 1 = false -> (n < 2 ^ 96)%N ->
  app_step FetchPools e st (Some s) = (st1, db1) ->
  In (n, d) (match pools_table st1 with Some l => l | None => [] end) ->
  app_step FetchSummary e' (fst (app_step (ViewDetails (toHexString n)) e st1 db1)) db1 = (st2, db2) ->
  exists d', pools_findOne n s = Some d' /\
    PoolDetailView (summary_fetch (detail st2))
    = DDetails (figures (summarize n d' (people_findByPool n s))).
Proof.
  intros Hf He0 He1 Hn Hl Hin Hs.
  destruct (ui_listing_shows_store e st s st1 db1 Hf Hl) as [-> Ht]. rewrite Ht in Hin.
  apply (Permutation_in _ (Permutation_sym (sort_createdAt_desc_perm _))) in Hin.
  destruct (pools_findOne n s) as [d'|] eqn:Hd; [|exfalso; eapply pools_all_findOne; eassumption].
  exists d'. split; [reflexivity|].
  pose proof (objectid_of_toHexString n Hn) as Hid.
  rewrite <- Hid in Hd.
  destruct (ui_detail_shows_summary e' (fst (app_step (ViewDetails (toHexString n)) e st1 (Some s)))
              s (toHexString n) d' st2 db2 eq_refl
              (isValidObjectId_toHexString n Hn) He0 He1 Hd Hs) as [_ Hv].
  rewrite Hv, Hid. reflexivity.
Qed.
End Views.

(** A completed fetch is settled: [loading] is off, and either the
    response was a success whose body is now [data] with no error, or an
    error is set and [data] keeps its previous value. *)
Theorem fetchData_settles res st :
  f_loading (fetchData res st) = false /\
  ((exists r, res = HttpResponse r /\ response_ok r = true /\ body_success (body r) = true
              /\ f_data (fetchData res st) = Some (body r) /\ f_error (fetchData res st) = None)
   \/ (f_data (fetchData res st) = f_data st /\ f_error (fetchData res st) <> None)).
Proof.
  destruct res as [m|r]; simpl; [split; [reflexivity | right; split; congruence]|].
  destruct (response_ok r) eqn:Ok; simpl; [|split; [reflexivity | right; split; congruence]].
  destruct (body_success (body r)) eqn:Bs; simpl; split; try reflexivity;
    [left; eauto 6 | right; split; congruence].
Qed.

(** ** The figures of the detail view *)

Definition pie_total (f : Figures) : Q := fold_right (fun e acc => snd e + acc) 0 (pieChartData f).

Lemma Qmax_0_sub a b : b + Qmax 0 (a - b) == Qmax a b.
Proof.
  destruct (Q.max_spec 0 (a - b)) as [[H1 ->]|[H1 ->]];
  destruct (Q.max_spec a b) as [[H2 ->]|[H2 ->]]; lra.
Qed.

(** The pie of the detail view covers the larger of the goal and the
    total investment: its slices are the admin's share, the investors'
    total and the unfunded rest clamped at 0, and they add up to
    [max(totalAmount, totalInvestment)]; the investors' slice is what the
    people invested. *)
Theorem pie_covers_goal id pool people :
  let f := figures (summarize id pool people) in
  pie_total f == Qmax (pool_totalAmount pool) (totalInvestment (investmentStatus (summarize id pool people)))
  /\ nth 1 (map snd (pieChartData f)) 0 == totalInvestedByPeople people.
Proof.
  unfold summarize. cbn [figures pieChartData pie_total fold_right map snd nth investmentStatus
    totalInvestment remainingAmount adminContribution ac_amount poolDetails pd_totalAmount].
  split; [|lra].
  rewrite <- (Qmax_0_sub (pool_totalAmount pool)). lra.
Qed.

(** For a positive goal the progress bar reaches 100% exactly when the
    summary says the pool is funded. *)
Theorem funding_bar_full_iff id pool people :
  0 < pool_totalAmount pool ->
  (100 <= fundingPercentage (figures (summarize id pool people))
   <-> isFunded (investmentStatus (summarize id pool people)) = true).
Proof.
  intros Hg. unfold summarize.
  cbn [figures fundingPercentage investmentStatus totalInvestment isFunded poolDetails pd_totalAmount].
  assert (E : Qle_bool (pool_totalAmount pool) 0 = false) by (apply Qle_bool_false; exact Hg).
  rewrite E, Qle_bool_iff. simpl negb. cbv iota.
  set (ti := totalInvestedByPeople people + adminShare_of pool). set (g := pool_totalAmount pool) in *.
  assert (Hx : ti == ti / g * g) by (field; lra).
  set (x := ti / g) in *. clearbody x ti. rewrite Hx. nra.
Qed.


(** A sequence of events, each with the environment of the request it
    sends. *)
Section Runs.
Context {St : Type} {PS : PoolStore St}.

Fixpoint app_run (evs : list (AppEvent * Env)) (st : AppState) (db : option St) : AppState * option St :=
  match evs with
  | [] => (st, db)
  | (ev, e) :: evs' => let '(st', db') := app_step ev e st db in app_run evs' st' db'
  end.
End Runs.

Definition beta_events : list (AppEvent * Env) :=
  [(OpenCreate, no_fault 1 9%N);
   (SubmitCreate "Beta" "-500" "", no_fault 1 9%N);
   (FetchPools, no_fault 2 0%N);
   (ViewDetails (toHexString 9%N), no_fault 3 0%N);
   (FetchSummary, no_fault 3 0%N)]%string.

Definition summary_shown (st : AppState) : option Summary :=
  match f_data (summary_fetch (detail st)) with Some (BSummary sm) => Some sm | _ => None end.

(** Through the dashboard, a pool created with the goal ["-500"] is
    accepted with a success toast and listed, and its summary already says
    it is funded, with no investment at all; the progress bar shows 0. *)
Theorem ui_scenario_negative_goal :
  let '(st, db) := app_run beta_events app_init (Some s_empty) in
  toast st = Some (mkToast "Pool created successfully!" ToastSuccess)
  /\ option_map (map (fun e => pool_totalAmount (snd e))) (pools_table st) = Some [-500]
  /\ option_map (fun sm => (totalInvestment (investmentStatus sm), isFunded (investmentStatus sm)))
       (summary_shown st) = Some (0, true)
  /\ option_map (fun sm => fundingPercentage (figures sm)) (summary_shown st) = Some 0.
Proof. vm_compute. repeat split. Qed.

(** ** Witnesses *)

Definition w_app_open : AppState := set_create true app_init.
Definition w_created : AppState * option DB :=
  app_step (SubmitCreate "Alpha" "1000" "") (no_fault 1 alpha_id) w_app_open (Some s_empty).

Lemma app_mutation_refetches_witness :
  dataVersion (fst w_created) = S (dataVersion w_app_open)
  /\ listing_url (fst w_created) <> listing_url w_app_open.
Proof.
  apply (app_mutation_refetches (SubmitCreate "Alpha" "1000" "") (no_fault 1 alpha_id)
           w_app_open (Some s_empty) (fst w_created) (snd w_created));
    [vm_compute; reflexivity | vm_compute; congruence].
Defined.



Definition w_viewing (n : oid) : AppState := set_view (Some (toHexString n)) app_init.
Definition w_detail (n : oid) : AppState * option DB :=
  app_step FetchSummary (no_fault 3 0%N) (w_viewing n) (Some s_alpha).

Lemma ui_detail_not_found_witness :
  snd (w_detail 8%N) = Some s_alpha /\
  PoolDetailView (summary_fetch (detail (fst (w_detail 8%N)))) = DError "HTTP error! status: 404".
Proof.
  apply (ui_detail_not_found (no_fault 3 0%N) (w_viewing 8%N) s_alpha (toHexString 8%N)
           (fst (w_detail 8%N)) (snd (w_detail 8%N)));
    first [reflexivity | vm_compute; reflexivity].
Defined.

Lemma funding_bar_full_iff_witness :
  0 < pool_totalAmount alpha_doc /\
  (100 <= fundingPercentage (figures (summarize alpha_id alpha_doc []))
   <-> isFunded (investmentStatus (summarize alpha_id alpha_doc [])) = true).
Proof.
  assert (H : 0 < pool_totalAmount alpha_doc) by (vm_compute; reflexivity).
  split; [exact H | apply (funding_bar_full_iff alpha_id alpha_doc [] H)].
Defined.


(** ** The toast's timer *)

(** The states the dashboard reaches by its events, whatever the server
    answers. *)
Inductive app_reachable {St : Type} {PS : PoolStore St} : AppState -> Prop :=
| ar_init : app_reachable app_init
| ar_step ev e st (db : option St) :
    app_reachable st -> app_reachable (fst (app_step ev e st db)).

(** A shown toast has a running timer of at most 4 s. *)
Definition toast_timer_ok (st : AppState) : Prop :=
  toast st <> None -> (0 < toast_timer st <= 4000)%nat.

Lemma rerender_timer_ok st : toast_timer_ok (rerender st).
Proof. unfold toast_timer_ok, rerender; simpl. destruct (toast st); [lia | congruence]. Qed.

Lemma tick_timer_ok ms st : toast_timer_ok st -> toast_timer_ok (tick ms st).
Proof.
  unfold toast_timer_ok, tick. intros H. destruct (toast st) eqn:T; [|rewrite T; exact H].
  destruct (Nat.leb_spec (toast_timer st) ms); simpl; [congruence|].
  intros _. specialize (H ltac:(congruence)). lia.
Qed.

#[export] Hint Resolve rerender_timer_ok tick_timer_ok : pool.

(** C35: In every state the dashboard reaches, a shown toast has a timer
    between 1 ms and 4 s. *)
Theorem toast_timer_invariant {St : Type} {PS : PoolStore St} st :
  app_reachable (St := St) st -> toast_timer_ok st.
Proof.
  induction 1 as [|ev e st db _ IH]; [unfold toast_timer_ok; simpl; congruence|].
  destruct ev; unfold app_step; cbv zeta;
    repeat match goal with
    | |- context [match ?x with _ => _ end] => destruct x eqn:?
    end; simpl fst; eauto with pool.
Qed.

(** C36: Liveness of the toast: from every state the dashboard reaches, four
    quiet seconds, with no render of [App], dismiss any toast. *)
Theorem toast_dismissed_when_quiet {St : Type} {PS : PoolStore St} st e (db : option St) :
  app_reachable (St := St) st -> toast (fst (app_step (Tick 4000) e st db)) = None.
Proof.
  intros Hr. pose proof (toast_timer_invariant st Hr) as Ht. simpl. unfold tick.
  destruct (toast st) eqn:T; [|exact T].
  destruct (Nat.leb_spec (toast_timer st) 4000); [reflexivity|].
  exfalso. unfold toast_timer_ok in Ht. rewrite T in Ht. specialize (Ht ltac:(congruence)). lia.
Qed.

(** A user who, every 3999 ms, opens the create modal with its
    "Create New Pool" button or closes it again. *)
Fixpoint browse_rounds (n : nat) (e : Env) : list (AppEvent * Env) :=
  match n with
  | O => []
  | S n' => (Tick 3999, e) :: (OpenCreate, e) :: (Tick 3999, e) :: (CloseCreate, e) :: browse_rounds n' e
  end.

Lemma app_run_app {St : Type} {PS : PoolStore St} evs evs' st (db : option St) :
  app_run evs' (fst (app_run evs st db)) (snd (app_run evs st db)) = app_run (evs ++ evs') st db.
Proof.
  revert st db. induction evs as [|[ev e] evs IH]; intros st db; [reflexivity|].
  simpl. destruct (app_step ev e st db) as [st1 db1]. apply IH.
Qed.

Lemma browse_round {St : Type} {PS : PoolStore St} e st (db : option St) :
  toast st <> None -> toast_timer st = 4000%nat -> isCreateModalOpen st = false ->
  let st' := fst (app_run [(Tick 3999, e); (OpenCreate, e); (Tick 3999, e); (CloseCreate, e)] st db) in
  toast st' = toast st /\ toast_timer st' = 4000%nat /\ isCreateModalOpen st' = false
  /\ snd (app_run [(Tick 3999, e); (OpenCreate, e); (Tick 3999, e); (CloseCreate, e)] st db) = db.
Proof.
  intros Hs Ht Ho. unfold app_run, app_step, tick.
  destruct (toast st) as [t|] eqn:T; [|congruence]. rewrite Ht. simpl. repeat split.
Qed.

(** C37: A toast outlives its four seconds as long as [App] renders again
    within each four seconds: a user who opens and closes the create
    modal every 3999 ms keeps the toast of a submission on screen for as
    long as they go on, and the store is untouched. *)
Theorem toast_kept_by_renders {St : Type} {PS : PoolStore St} n e st (db : option St) :
  toast st <> None -> toast_timer st = 4000%nat -> isCreateModalOpen st = false ->
  toast (fst (app_run (browse_rounds n e) st db)) = toast st
  /\ toast_timer (fst (app_run (browse_rounds n e) st db)) = 4000%nat
  /\ snd (app_run (browse_rounds n e) st db) = db.
Proof.
  revert st db. induction n as [|n IH]; intros st db Hs Ht Ho; [repeat split; exact Ht|].
  change (browse_rounds (S n) e)
    with ([(Tick 3999, e); (OpenCreate, e); (Tick 3999, e); (CloseCreate, e)] ++ browse_rounds n e).
  rewrite <- app_run_app.
  pose proof (browse_round e st db Hs Ht Ho) as Hr. cbv zeta in Hr. destruct Hr as (H1 & H2 & H3 & H4).
  set (r := app_run [(Tick 3999, e); (OpenCreate, e); (Tick 3999, e); (CloseCreate, e)] st db) in *.
  destruct (IH (fst r) (snd r) ltac:(congruence) H2 H3) as (H5 & H6 & H7).
  repeat split; congruence.
Qed.

(** ** Witnesses of the timer and of the listing *)

Definition w_toast_state : AppState :=
  fst (app_step (SubmitCreate "Alpha" "1000" "") (no_fault 1 alpha_id)
         (fst (app_step OpenCreate (no_fault 0 0%N) app_init (Some s_empty))) (Some s_empty)).

Lemma w_toast_state_reachable : app_reachable (St := DB) w_toast_state.
Proof. apply ar_step, ar_step, ar_init. Qed.

Lemma toast_timer_invariant_witness :
  app_reachable (St := DB) w_toast_state /\ toast_timer_ok w_toast_state.
Proof.
  split; [exact w_toast_state_reachable|].
  apply (toast_timer_invariant (St := DB) w_toast_state w_toast_state_reachable).
Defined.

Lemma toast_dismissed_when_quiet_witness :
  app_reachable (St := DB) w_toast_state
  /\ toast (fst (app_step (Tick 4000) (no_fault 5 0%N) w_toast_state (Some s_empty))) = None.
Proof.
  split; [exact w_toast_state_reachable|].
  apply (toast_dismissed_when_quiet (St := DB) w_toast_state (no_fault 5 0%N) (Some s_empty)
           w_toast_state_reachable).
Defined.

Lemma toast_kept_by_renders_witness :
  toast (fst (app_run (browse_rounds 3 (no_fault 5 0%N)) w_toast_state (snd w_created)))
  = toast w_toast_state
  /\ toast_timer (fst (app_run (browse_rounds 3 (no_fault 5 0%N)) w_toast_state (snd w_created)))
     = 4000%nat
  /\ snd (app_run (browse_rounds 3 (no_fault 5 0%N)) w_toast_state (snd w_created)) = snd w_created.
Proof.
  apply (toast_kept_by_renders (St := DB) 3 (no_fault 5 0%N) w_toast_state (snd w_created));
    vm_compute; [discriminate | reflexivity | reflexivity].
Defined.

Definition w_list_step : AppState * option DB := app_step FetchPools (no_fault 2 0%N) app_init (Some s_alpha).
Definition w_open_step : AppState * option DB :=
  app_step FetchSummary (no_fault 3 0%N)
    (fst (app_step (ViewDetails (toHexString alpha_id)) (no_fault 2 0%N) (fst w_list_step) (snd w_list_step)))
    (snd w_list_step).

Lemma listed_pool_opens_witness :
  exists d', pools_findOne alpha_id s_alpha = Some d' /\
    PoolDetailView (summary_fetch (detail (fst w_open_step)))
    = DDetails (figures (summarize alpha_id d' (people_findByPool alpha_id s_alpha))).
Proof.
  apply (listed_pool_opens (no_fault 2 0%N) (no_fault 3 0%N) app_init s_alpha
           (fst w_list_step) (snd w_list_step) alpha_id alpha_doc
           (fst w_open_step) (snd w_open_step));
    first [reflexivity | vm_compute; reflexivity | vm_compute; left; reflexivity].
Defined.
