(* ===== verification/Legacy.v ===== *)
(** * The legacy views: views/PoolsList.jsx, views/PoolDetail.jsx and
    hooks/useFetch.jsx, beside the dashboard of App.jsx

    These files are not used by App.jsx, which carries its own copies, and
    they do not build as they stand: the two views import [API_BASE_URL]
    from [../services/api], which is not in the repository, and the hook
    calls [useCallback] and [useEffect] without importing them, so even
    with [../services/api] supplied, every call of the hook throws a
    ReferenceError ([legacy_useFetch]) and neither view renders
    ([mount_view], [legacy_views_throw]).  The code after the hook call is
    modelled as written, as it would run once the imports were fixed, to
    compare it with App.jsx: the callback [fetchData]
    ([legacy_fetch_finish]), the early returns and the table of
    [PoolsList] ([PoolsList]), and the early returns and figures of
    [PoolDetail] ([PoolDetail], [legacy_figures]). *)

From Stdlib Require Import QArith Qminmax Lqa ZArith NArith Lia String List.
From stdpp Require Import base decidable.
From S2P Require Import Prelude JsValue ObjectId Store Summary Api Forms Ui.

Import ListNotations.
Open Scope Q_scope.
Open Scope pool_scope.

(** ** hooks/useFetch.jsx *)

(** The end of its [fetchData] (lines 10-29): on a non-2xx answer the
    handler's [error] is shown when it is truthy, and the status otherwise;
    an unsuccessful body gives its [error] or a fixed message. *)
Definition legacy_fetch_finish (res : HttpResult) (st : FetchState) : FetchState :=
  match res with
  | NetworkError m => mkFetch (f_data st) false (Some m)
  | HttpResponse r =>
      let m := body_error_message (body r) in
      if negb (response_ok r) then
        mkFetch (f_data st) false
          (Some (if String.eqb m "" then ("HTTP error! status: " ++ z_to_string (status r))%string
                 else m))
      else if body_success (body r) then mkFetch (Some (body r)) false None
      else mkFetch (f_data st) false
             (Some (if String.eqb m "" then "The API returned an error."%string else m))
  end.

(** The callback [fetchData] would be (lines 8-28): [setLoading(true)],
    [setError(null)], then the request. *)
Definition legacy_fetchData (res : HttpResult) (st : FetchState) : FetchState :=
  legacy_fetch_finish res (fetch_start st).

(** The hook as written (lines 3-8): its three [useState]s, then
    [useCallback], which the file never imports (line 1 imports only
    [useState]).  Every call throws a ReferenceError there, before the
    callback is built or any request is sent. *)
Definition useCallback_undefined : string := "ReferenceError: useCallback is not defined".

Definition legacy_useFetch (url : string) : Exc string FetchState := Throw useCallback_undefined.

(** Both views call the hook first (PoolsList.jsx line 8, PoolDetail.jsx
    line 11), so rendering either throws before any of its own code. *)
Definition mount_view {V} (view : FetchState -> V) (url : string) : Exc string V :=
  match legacy_useFetch url with
  | Ok st => Ok (view st)
  | Throw m => Throw m
  end.

(** ** views/PoolsList.jsx and the main area of App.jsx *)

Inductive ListView :=
| LSpinner
| LError (message : string)
| LTable (pools : list (oid * PoolDoc)).

Definition error_text (o : option string) : string :=
  match o with Some m => m | None => "" end.

(** [PoolsList] (lines 7-47): the two early returns, then the table of
    [data?.pools || []]. *)
Definition PoolsList (st : FetchState) : ListView :=
  if f_loading st then LSpinner
  else if shown (f_error st) then LError (error_text (f_error st))
  else LTable (displayed_pools st).

(** The main area of App.jsx (lines 379-381): three independent
    conditionals, so a spinner and an error could both be shown. *)
Definition app_main (st : FetchState) : list ListView :=
  (if f_loading st then [LSpinner] else [])
  ++ (if shown (f_error st) then [LError (error_text (f_error st))] else [])
  ++ (if negb (f_loading st) && negb (shown (f_error st)) then [LTable (displayed_pools st)] else []).

(** ** views/PoolDetail.jsx *)

(** [views/PoolDetail.jsx] (lines 17-26): no guard on the goal and no
    unfunded slice; the participants come from [investorCount]. *)
Definition legacy_figures (sm : Summary) : Figures :=
  let ti := totalInvestment (investmentStatus sm) in
  let admin := ac_amount (adminContribution sm) in
  mkFigures (ti / pd_totalAmount (poolDetails sm) * 100)
            [("Admin", admin); ("Investors", ti - admin)]%string
            (investorCount sm + 1).

(** [PoolDetail] (lines 10-26): the early returns of [PoolDetailView],
    with the legacy figures. *)
Definition PoolDetail (st : FetchState) : DetailView :=
  if f_loading st then DSpinner
  else if shown (f_error st) then DError (error_text (f_error st))
  else match f_data st with
       | None => DNothing
       | Some (BSummary sm) => DDetails (legacy_figures sm)
       | Some _ => DCrash
       end.

(** ** The states of a fetch *)

(** The states [useFetch] goes through: its initial state, then starts and
    ends of [fetchData]. *)
Inductive fetch_reachable : FetchState -> Prop :=
| fr_init : fetch_reachable fetch_init
| fr_start st : fetch_reachable st -> fetch_reachable (fetch_start st)
| fr_finish res st : fetch_reachable st -> fetch_reachable (fetch_finish res st).

Definition fetch_ok (st : FetchState) : Prop := f_loading st = true -> f_error st = None.

Lemma fetch_reachable_ok st : fetch_reachable st -> fetch_ok st.
Proof.
  unfold fetch_ok. induction 1 as [| |res st _ IH]; simpl; try reflexivity.
  destruct res as [m|r]; simpl; [discriminate|].
  destruct (response_ok r), (body_success (body r)); simpl; discriminate.
Qed.

Lemma fetchData_reachable res st : fetch_reachable st -> fetch_reachable (fetchData res st).
Proof. intros H. exact (fr_finish res _ (fr_start st H)). Qed.

#[export] Hint Resolve fr_start fetchData_reachable : pool.

(** The listing's fetch state of every state the dashboard reaches is one
    the hook can be in. *)
Lemma app_pools_fetch_reachable {St : Type} {PS : PoolStore St} st :
  app_reachable (St := St) st -> fetch_reachable (pools_fetch st).
Proof.
  induction 1 as [|ev e st db _ IH]; [constructor|].
  destruct ev; unfold app_step, tick; cbv zeta;
    repeat match goal with
    | |- context [match ?x with _ => _ end] => destruct x eqn:?
    end; cbn [fst pools_fetch rerender handleDataUpdate detail_complete set_pools_fetch
                set_detail set_toast set_create set_view]; eauto with pool.
Qed.

(** ** Where the two versions agree *)

(** In every state the dashboard reaches, its main area selects
    exactly what the legacy [PoolsList] selects for the same fetch state:
    the spinner, the error, or the table of the pools, one at a time.
    (What App.jsx then renders for the error is the [ErrorMessage] it
    never imported, which throws: see [View].) *)
Theorem list_view_equiv {St : Type} {PS : PoolStore St} st :
  app_reachable (St := St) st -> app_main (pools_fetch st) = [PoolsList (pools_fetch st)].
Proof.
  intros Hr. pose proof (fetch_reachable_ok _ (app_pools_fetch_reachable st Hr)) as Hok.
  unfold app_main, PoolsList, fetch_ok in *.
  destruct (f_loading (pools_fetch st)); [rewrite Hok by reflexivity; reflexivity|].
  destruct (shown (f_error (pools_fetch st))); reflexivity.
Qed.

(** For a pool with a positive goal the legacy detail view and the
    dashboard agree: the same funding percentage and number of
    participants, and the dashboard's pie is the legacy pie with the
    unfunded slice added. *)
Theorem legacy_figures_agree id pool people :
  0 < pool_totalAmount pool ->
  let sm := summarize id pool people in
  fundingPercentage (legacy_figures sm) = fundingPercentage (figures sm)
  /\ participants (legacy_figures sm) = participants (figures sm)
  /\ pieChartData (figures sm)
     = pieChartData (legacy_figures sm)
       ++ [("Unfunded"%string, Qmax 0 (remainingAmount (investmentStatus sm)))].
Proof.
  intros Hg. unfold figures, legacy_figures. cbn [summarize poolDetails pd_totalAmount
    fundingPercentage participants pieChartData investors investorCount].
  assert (E : Qle_bool (pool_totalAmount pool) 0 = false) by (apply Qle_bool_false; exact Hg).
  rewrite E, length_map. repeat split.
Qed.

(** The legacy [views/PoolDetail.jsx] divides by the goal without the
    guard of the dashboard: for a negative goal, which [POST /create]
    accepts, and a positive total investment, the dashboard's bar shows 0
    while the legacy view's percentage is negative. *)
Theorem legacy_figures_negative_goal sm :
  pd_totalAmount (poolDetails sm) < 0 -> 0 < totalInvestment (investmentStatus sm) ->
  fundingPercentage (figures sm) = 0 /\ fundingPercentage (legacy_figures sm) < 0.
Proof.
  intros Hg Ht. unfold figures, legacy_figures. cbn [fundingPercentage].
  assert (E : Qle_bool (pd_totalAmount (poolDetails sm)) 0 = true) by (apply Qle_bool_iff; lra).
  rewrite E. split; [reflexivity|].
  set (g := pd_totalAmount (poolDetails sm)) in *. set (t := totalInvestment (investmentStatus sm)) in *.
  assert (Hx : t == t / g * g) by (field; lra).
  set (x := t / g) in *. clearbody x t g. nra.
Qed.


(** ** What the two hooks show for the handlers' answers *)

Section Hooks.
Context {St : Type} {PS : PoolStore St}.

(** For every answer of the handlers the legacy hook's callback, as it
    would run with its imports fixed (as written the hook throws first, see
    [legacy_useFetch]), and the dashboard's hook agree on the data and on
    [loading]; on a success neither shows an error, and on an error the
    dashboard shows the HTTP status where the legacy callback would show
    the handler's message. *)
Theorem legacy_fetch_equiv req e (db : option St) st :
  let res := fst (call_api req e db) in
  f_data (legacy_fetchData res st) = f_data (fetchData res st)
  /\ f_loading (legacy_fetchData res st) = f_loading (fetchData res st)
  /\ ((f_error (legacy_fetchData res st) = None /\ f_error (fetchData res st) = None)
      \/ exists r m, res = HttpResponse r /\ body r = BError m
          /\ f_error (fetchData res st) = Some ("HTTP error! status: " ++ z_to_string (status r))%string
          /\ f_error (legacy_fetchData res st) = Some m).
Proof.
  destruct (call_api req e db) as [res db'] eqn:E. simpl fst.
  destruct (call_api_response _ _ _ _ _ E) as [r [-> Hr]].
  unfold legacy_fetchData, fetchData, legacy_fetch_finish, fetch_finish.
  destruct (handle_body_shape _ _ _ _ _ Hr) as [[Hs Hb]|[Hs [m [Hb Hm]]]].
  - assert (Ok : response_ok r = true) by (unfold response_ok; destruct Hs as [-> | ->]; reflexivity).
    assert (Bs : body_success (body r) = true) by (destruct (body r); [edestruct Hb; reflexivity|..]; reflexivity).
    rewrite Ok, Bs. simpl. split; [reflexivity | split; [reflexivity | left; split; reflexivity]].
  - assert (Ok : response_ok r = false) by (unfold response_ok; apply andb_false_intro2, Z.leb_gt; lia).
    rewrite Ok, Hb. simpl. split; [reflexivity | split; [reflexivity|]].
    right. exists r, m. split; [reflexivity | split; [exact Hb | split; [reflexivity|]]].
    destruct (String.eqb_spec m ""); [contradiction | reflexivity].
Qed.
End Hooks.

(** As the files stand, mounting either legacy view throws the
    ReferenceError of the hook, whatever the URL. *)
Lemma legacy_views_throw url :
  mount_view PoolsList url = Throw useCallback_undefined
  /\ mount_view PoolDetail url = Throw useCallback_undefined.
Proof. split; reflexivity. Qed.

(** ** Witnesses *)

Definition w_negative_summary : Summary :=
  summarize 9%N (mkPool (JStr "Beta") (-500) 0 1) [(8%N, bob_doc)].

Lemma legacy_figures_negative_goal_witness :
  fundingPercentage (figures w_negative_summary) = 0
  /\ fundingPercentage (legacy_figures w_negative_summary) < 0.
Proof. apply legacy_figures_negative_goal; vm_compute; reflexivity. Defined.


Lemma legacy_figures_agree_witness :
  0 < pool_totalAmount alpha_doc /\
  let sm := summarize alpha_id alpha_doc [(8%N, bob_doc)] in
  fundingPercentage (legacy_figures sm) = fundingPercentage (figures sm)
  /\ participants (legacy_figures sm) = participants (figures sm)
  /\ pieChartData (figures sm)
     = pieChartData (legacy_figures sm)
       ++ [("Unfunded"%string, Qmax 0 (remainingAmount (investmentStatus sm)))].
Proof.
  assert (H : 0 < pool_totalAmount alpha_doc) by (vm_compute; reflexivity).
  split; [exact H | apply (legacy_figures_agree alpha_id alpha_doc _ H)].
Defined.

Lemma list_view_equiv_witness :
  app_reachable (St := DB) app_init /\ app_main (pools_fetch app_init) = [PoolsList (pools_fetch app_init)].
Proof.
  assert (H : app_reachable (St := DB) app_init) by constructor.
  split; [exact H | apply (list_view_equiv app_init H)].
Defined.
