(* ===== verification/Render.v ===== *)
(** * What the dashboard prints: [toFixed(2)], the funding bar and the
    toast

    [Number.prototype.toFixed(2)] as ECMA-262 specifies it (sign, the
    integer [n] with [n / 100 - x] closest to zero, the larger on a tie,
    written with two decimals), used by [calculatePercentage] in pool.js
    (line 138) and by [FundingProgressBar] in App.jsx (lines 73-83); the
    bar's label and width, and the colours of the toast (lines 15-17). *)

From Stdlib Require Import QArith Qround Qabs Lqa ZArith Lia String Ascii List
  Decimal DecimalString DecimalNat.
From stdpp Require Import base decidable.
From S2P Require Import Prelude JsValue ObjectId Store Summary Forms Ui.

Import ListNotations.
Open Scope Q_scope.

(** ** [x.toFixed(2)] *)

(** The character of a digit. *)
Definition digit_char (d : Z) : ascii := ascii_of_nat (48 + Z.to_nat d).

(** The decimal numeral of a natural number, ["0"] for 0. *)
Definition nat_digits (n : nat) : string := NilEmpty.string_of_uint (Nat.to_uint n).

(** [None] stands for the exponential notation [ToString(x)] gives from
    [1e21] on, which is not modelled. *)
Definition toFixed2 (x : Q) : option string :=
  if Qle_bool (inject_Z (10 ^ 21)) (Qabs x) then None
  else
    let a := if Qle_bool 0 x then x else - x in
    let n := Qfloor (a * 100 + (1 # 2)) in
    Some ((if Qle_bool 0 x then "" else "-")
          ++ nat_digits (Z.to_nat (n / 100))
          ++ String "." (String (digit_char ((n / 10) mod 10))
                                (String (digit_char (n mod 10)) EmptyString)))%string.

(** ** Helper lemmas: reading the numeral back *)

#[local] Arguments digit_char : simpl never.
#[local] Arguments nat_digits : simpl never.
#[local] Arguments Qfloor : simpl never.

Lemma digit_of_char d : (0 <= d < 10)%Z -> digit_of (digit_char d) = Some d.
Proof.
  intros H. unfold digit_of, digit_char. rewrite nat_ascii_embedding by lia.
  replace ((48 <=? 48 + Z.to_nat d)%nat && (48 + Z.to_nat d <=? 57)%nat) with true
    by (symmetry; apply andb_true_iff; split; apply Nat.leb_le; lia).
  f_equal. lia.
Qed.

Lemma take_digits_uint_app u r :
  (forall c r', r = String c r' -> digit_of c = None) ->
  take_digits (NilEmpty.string_of_uint u ++ r) = (uint_digits u, r).
Proof.
  intros Hr. induction u; simpl; try (rewrite IHu; reflexivity).
  destruct r as [|c r']; [reflexivity|]. simpl. rewrite (Hr c r' eq_refl). reflexivity.
Qed.

Lemma nat_to_uint_not_nil n : Nat.to_uint n <> Nil.
Proof.
  intros E. pose proof (Unsigned.of_to n) as F. rewrite E in F. simpl in F.
  subst n. discriminate E.
Qed.

Lemma take_sign_digits n r : take_sign (nat_digits n ++ r) = (1%Z, (nat_digits n ++ r)%string).
Proof.
  unfold nat_digits. pose proof (nat_to_uint_not_nil n) as H.
  destruct (Nat.to_uint n); [contradiction| ..]; reflexivity.
Qed.

Lemma nat_digits_nonempty n r : (nat_digits n ++ r)%string <> EmptyString.
Proof.
  unfold nat_digits. pose proof (nat_to_uint_not_nil n) as H.
  destruct (Nat.to_uint n); [contradiction| ..]; discriminate.
Qed.

Lemma digits_value_app l1 l2 :
  digits_value (l1 ++ l2) = fold_left (fun a d => a * 10 + d)%Z l2 (digits_value l1).
Proof. unfold digits_value. apply fold_left_app. Qed.

Lemma take_digits_two d1 d2 :
  (0 <= d1 < 10)%Z -> (0 <= d2 < 10)%Z ->
  take_digits (String (digit_char d1) (String (digit_char d2) EmptyString)) = ([d1; d2], EmptyString).
Proof.
  intros H1 H2.
  assert (E : forall c r, take_digits (String c r)
              = match digit_of c with
                | Some d => let '(ds, r') := take_digits r in (d :: ds, r')
                | None => ([], String c r)
                end) by reflexivity.
  rewrite !E, (digit_of_char d1 H1), (digit_of_char d2 H2). reflexivity.
Qed.

(** The numeral [w.d1d2] reads as [(100 w + 10 d1 + d2) / 100]. *)
Lemma parse_fixed2 w d1 d2 :
  (0 <= d1 < 10)%Z -> (0 <= d2 < 10)%Z ->
  parse_unsigned (nat_digits w ++ String "." (String (digit_char d1) (String (digit_char d2) EmptyString)))
  = Some (inject_Z (Z.of_nat w * 100 + d1 * 10 + d2) / 10 ^ 2).
Proof.
  intros H1 H2. unfold parse_unsigned, nat_digits.
  rewrite take_digits_uint_app by (intros c r' [= <- _]; reflexivity).
  cbv beta iota zeta. rewrite (take_digits_two d1 d2 H1 H2). cbv beta iota zeta.
  destruct (uint_digits (Nat.to_uint w) ++ [d1; d2]) eqn:E;
    [apply (f_equal (@length Z)) in E; rewrite length_app in E; simpl in E; lia|].
  rewrite <- E, digits_value_app. unfold digits_value at 1.
  change (Nat.of_uint (Nat.to_uint w)) with (Nat.of_uint_acc (Nat.to_uint w) 0) in *.
  pose proof (digits_value_uint (Nat.to_uint w) 0) as Hv. change (Z.of_nat 0) with 0%Z in Hv. rewrite Hv.
  change (Nat.of_uint_acc (Nat.to_uint w) 0) with (Nat.of_uint (Nat.to_uint w)).
  rewrite Unsigned.of_to. cbn [fold_left length Z.of_nat]. do 3 f_equal. lia.
Qed.

Lemma js_Number_nonempty s :
  s <> EmptyString ->
  js_Number s = let '(sg, r) := take_sign s in option_map (Qmult (inject_Z sg)) (parse_unsigned r).
Proof. destruct s; [contradiction | reflexivity]. Qed.

(** The digits of a natural number below 100 and above. *)
Lemma fixed2_digits n :
  (0 <= n)%Z ->
  (Z.of_nat (Z.to_nat (n / 100)) * 100 + (n / 10) mod 10 * 10 + n mod 10)%Z = n
  /\ (0 <= (n / 10) mod 10 < 10)%Z /\ (0 <= n mod 10 < 10)%Z.
Proof.
  intros Hn. rewrite Z2Nat.id by (apply Z.div_pos; lia).
  pose proof (Z.div_mod n 10 ltac:(lia)) as A. pose proof (Z.div_mod (n / 10) 10 ltac:(lia)) as B.
  rewrite Z.div_div in B by lia. change (10 * 10)%Z with 100%Z in B.
  pose proof (Z.mod_pos_bound n 10 ltac:(lia)). pose proof (Z.mod_pos_bound (n / 10) 10 ltac:(lia)).
  split; [lia | split; lia].
Qed.

Lemma Qfloor_nonneg q : 0 <= q -> (0 <= Qfloor q)%Z.
Proof. intros H. change 0%Z with (Qfloor 0). apply Qfloor_resp_le, H. Qed.

(** The models of the built-ins agree with the rounding the model of
    [calculatePercentage] uses: the string [x.toFixed(2)], read back as a
    number ([js_Number]; on these strings [parseFloat], which pool.js line
    138 calls, reads the same digits), is [round2 x]. *)
Theorem toFixed2_reads_round2 x s :
  toFixed2 x = Some s -> exists q, js_Number s = Some q /\ q == round2 x.
Proof.
  unfold toFixed2, round2. destruct (Qle_bool (inject_Z (10 ^ 21)) (Qabs x)); [discriminate|].
  destruct (Qle_bool 0 x) eqn:Hs; intros [= <-].
  - assert (Hx : 0 <= x) by (apply Qle_bool_iff, Hs).
    set (n := Qfloor (x * 100 + (1 # 2))).
    assert (Hn : (0 <= n)%Z) by (apply Qfloor_nonneg; lra).
    destruct (fixed2_digits n Hn) as [E [D1 D2]].
    cbn [append]. rewrite js_Number_nonempty by apply nat_digits_nonempty.
    rewrite take_sign_digits, parse_fixed2 by assumption. rewrite E.
    eexists. split; [reflexivity|]. unfold round2_mag. fold n. simpl. field.
  - assert (Hx : x < 0) by (apply Qnot_le_lt; intros H; apply Qle_bool_iff in H; congruence).
    set (n := Qfloor (- x * 100 + (1 # 2))).
    assert (Hn : (0 <= n)%Z) by (apply Qfloor_nonneg; lra).
    destruct (fixed2_digits n Hn) as [E [D1 D2]].
    cbn [append]. rewrite js_Number_nonempty by discriminate. cbn [take_sign].
    rewrite parse_fixed2 by assumption. rewrite E.
    eexists. split; [reflexivity|]. unfold round2_mag. fold n. simpl. field.
Qed.

(** ** [FundingProgressBar] (App.jsx lines 73-83) *)

Record ProgressBar := mkBar {
  bar_label : option string;   (** [`${percentage.toFixed(2)}%`] *)
  bar_width : Q                (** [width: `${percentage}%`] *)
}.

Definition FundingProgressBar (percentage : Q) : ProgressBar :=
  mkBar (option_map (fun s => (s ++ "%")%string) (toFixed2 percentage)) percentage.

(** The bar is not clamped: for an overfunded pool with a positive goal
    the inner bar is wider than its container (more than 100%). *)
Theorem funding_bar_overflows id pool people :
  0 < pool_totalAmount pool ->
  pool_totalAmount pool < totalInvestment (investmentStatus (summarize id pool people)) ->
  100 < bar_width (FundingProgressBar (fundingPercentage (figures (summarize id pool people)))).
Proof.
  intros Hg Ho. unfold FundingProgressBar, figures. cbn [bar_width fundingPercentage].
  cbn [summarize poolDetails pd_totalAmount investmentStatus totalInvestment] in *.
  assert (E : Qle_bool (pool_totalAmount pool) 0 = false) by (apply Qle_bool_false; exact Hg).
  rewrite E. simpl negb. cbv iota.
  set (ti := totalInvestedByPeople people + adminShare_of pool) in *.
  set (g := pool_totalAmount pool) in *.
  assert (Hx : ti == ti / g * g) by (field; lra).
  set (x := ti / g) in *. clearbody x ti g. nra.
Qed.

(** ** [Toast] (App.jsx lines 15-30) and [InvestmentPieChart] *)

(** The icon and the colour of a toast. *)
Definition toast_style (t : ToastType) : string * string :=
  match t with
  | ToastSuccess => ("CheckCircle", "bg-green-600")
  | ToastError => ("AlertTriangle", "bg-red-600")
  end%string.

(** [data.map((entry, index) => <Cell fill={COLORS[index % COLORS.length]} />)]:
    each slice with its colour. *)
Definition pie_cells (colors : list string) (data : list (string * Q)) : list (string * Q * string) :=
  map (fun '(i, d) => (d, nth (i mod length colors) colors ""%string))
      (combine (seq 0 (length data)) data).

(** The colours of App.jsx (line 86) and of components/InvestmentPieChart.jsx
    (line 2). *)
Definition app_colors : list string := ["#4338CA"; "#16A34A"; "#D1D5DB"]%string.
Definition legacy_colors : list string := ["#4F46E5"; "#10B981"]%string.

(** ** Witnesses *)

Lemma toFixed2_reads_round2_witness :
  exists q, js_Number "-0.33" = Some q /\ q == round2 (-1 # 3).
Proof. apply (toFixed2_reads_round2 (-1 # 3) "-0.33"). vm_compute. reflexivity. Defined.

Definition w_overfunded : PoolDoc := mkPool (JStr "Gamma") 1000 1250 0.

Lemma funding_bar_overflows_witness :
  100 < bar_width (FundingProgressBar (fundingPercentage (figures (summarize 9%N w_overfunded [])))).
Proof. apply funding_bar_overflows; vm_compute; reflexivity. Defined.
