(* ===== verification/Effects.v ===== *)
(** * The effects of the dashboard: when React runs them, and that the
    render-effect cycle settles

    After each render React commits the tree and runs every effect whose
    dependencies differ from the previous commit's.  The dashboard has
    three (src/frontend/vite-project/src/App.jsx):
    - the listing's [useFetch] (lines 125-142): [fetchData] is a
      [useCallback] on [[url]] and the effect depends on [[fetchData]],
      with [url] the listing URL of [dataVersion] (line 352);
    - the same hook in [PoolDetailView] (line 241), mounted while a pool
      is viewed, with the URL of that pool's summary;
    - [Toast]'s effect (lines 19-22) on [[onDismiss]], an arrow [App]
      writes anew at each render (line 362): it restarts the timer
      ([Ui.rerender]) and sets no state.
    A function is identified across renders by [FnId]: [useCallback]
    gives back the function of its dependencies, an arrow is new at each
    render.  [fetchData] begins with [setLoading(true); setError(null)]
    ([Ui.fetch_start]); React renders again only when that changes the
    state.  [commit] is one commit with its effects, [settle] repeats
    render and commit until no effect changes the state, with fuel. *)

From Stdlib Require Import QArith ZArith String List Lia.
From stdpp Require Import base decidable strings.
From S2P Require Import Prelude JsValue ObjectId Store Summary Api Forms Ui.

Import ListNotations.
Open Scope pool_scope.

(** ** Functions across renders *)

Inductive FnId :=
| Memo (deps : list string)   (** the function [useCallback] keeps for these dependencies *)
| Fresh (render : nat).       (** a function created by the render of that number *)

#[export] Instance FnId_eq_dec : EqDecision FnId.
Proof. solve_decision. Defined.

(** [useCallback(fn, deps)] at the render [r]. *)
Definition useCallback (deps : list string) (r : nat) : FnId := Memo deps.

(** An arrow written in the body of the render [r]. *)
Definition arrow (r : nat) : FnId := Fresh r.

(** An effect with the dependency [dep] runs after a commit unless the
    previous commit had the same one. *)
Definition effect_due (prev : option FnId) (dep : FnId) : bool :=
  negb (bool_decide (prev = Some dep)).

(** [`${API_BASE_URL}/${poolId}/summary`] (line 241). *)
Definition summary_url (pid : string) : string :=
  ("http://localhost:5000/api/pool/" ++ pid ++ "/summary")%string.

(** [setLoading(true); setError(null)] changes the state unless the
    hook is already loading without an error. *)
Definition fetch_start_changes (f : FetchState) : bool :=
  negb (f_loading f && match f_error f with None => true | Some _ => false end).

(** ** One commit *)

Record Effects := mkEffects {
  renders : nat;                  (** renders of [App] so far *)
  list_fetch_dep : option FnId;   (** the listing's [fetchData] at its effect's last run *)
  detail_fetch_dep : option FnId; (** the detail view's, [None] while it is unmounted *)
  toast_dep : option FnId         (** [onDismiss] at [Toast]'s effect's last run *)
}.

Definition effects_init : Effects := mkEffects 0 None None None.

(** The listing's effect. *)
Definition list_effect (r : nat) (prev : option FnId) (st : AppState) : AppState * bool :=
  if effect_due prev (useCallback [listing_url st] r)
  then (set_pools_fetch (fetch_start (pools_fetch st)) st, fetch_start_changes (pools_fetch st))
  else (st, false).

(** The detail view's effect, while [viewingPoolId] is truthy. *)
Definition detail_effect (r : nat) (prev : option FnId) (st : AppState) : option FnId * AppState * bool :=
  match viewingPoolId st with
  | Some pid =>
      if shown (Some pid) then
        let dep := useCallback [summary_url pid] r in
        let d := detail st in
        if effect_due prev dep
        then (Some dep,
              set_detail (mkDetail (isAddPersonModalOpen d) (isAddSharesModalOpen d) (fetch_start (summary_fetch d))) st,
              fetch_start_changes (summary_fetch d))
        else (Some dep, st, false)
      else (None, st, false)
  | None => (None, st, false)
  end.

(** [Toast]'s effect, while a toast is shown. *)
Definition toast_effect (r : nat) (prev : option FnId) (st : AppState) : option FnId * AppState :=
  match toast st with
  | Some _ => let dep := arrow r in (Some dep, if effect_due prev dep then rerender st else st)
  | None => (None, st)
  end.

(** A commit after the render [renders fx]: the effects in the order of
    the tree (the toast, then the detail view, then the listing's hook of
    [App] itself, whose effects run after its children's), and whether
    one of them changed the state. *)
Definition commit (fx : Effects) (st : AppState) : Effects * AppState * bool :=
  let r := renders fx in
  let '(tdep, st1) := toast_effect r (toast_dep fx) st in
  let '(ddep, st2, ch2) := detail_effect r (detail_fetch_dep fx) st1 in
  let '(st3, ch3) := list_effect r (list_fetch_dep fx) st2 in
  (mkEffects (S r) (Some (useCallback [listing_url st] r)) ddep tdep, st3, ch2 || ch3).

(** Render and commit until no effect changes the state; [None] when the
    fuel runs out first. *)
Fixpoint settle (fuel : nat) (fx : Effects) (st : AppState) : option (Effects * AppState) :=
  match fuel with
  | O => None
  | S n =>
      let '(fx', st', changed) := commit fx st in
      if changed then settle n fx' st' else Some (fx', st')
  end.

(** [setDataVersion(v => v + 1)] alone (line 355), before the effects. *)
Definition setDataVersion (st : AppState) : AppState :=
  mkApp (viewingPoolId st) (isCreateModalOpen st) (toast st) (S (dataVersion st))
        (pools_fetch st) (detail st) (toast_timer st).

(** ** Lemmas *)

#[local] Arguments shown : simpl never.

(** The dependency the detail view's effect has in a state. *)
Definition detail_dep (st : AppState) : option FnId :=
  match viewingPoolId st with
  | Some pid => if shown (Some pid) then Some (Memo [summary_url pid]) else None
  | None => None
  end.

(** The effects are up to date with the state: the next commit runs only
    [Toast]'s effect. *)
Definition synced (fx : Effects) (st : AppState) : Prop :=
  list_fetch_dep fx = Some (Memo [listing_url st]) /\ detail_fetch_dep fx = detail_dep st
  /\ toast_dep fx <> Some (arrow (renders fx)).

Lemma effect_due_same d : effect_due (Some d) d = false.
Proof. unfold effect_due. rewrite bool_decide_eq_true_2 by reflexivity. reflexivity. Qed.

Lemma rerender_idem st : rerender (rerender st) = rerender st.
Proof. destruct st as [v c [t|] n pf d tm]; reflexivity. Qed.

(** Every commit leaves the effects up to date with the state it makes. *)
Lemma commit_synced fx st :
  let '(fx', st', _) := commit fx st in synced fx' st' /\ renders fx' = S (renders fx).
Proof.
  destruct st as [v c t n pf [ap ash sf] tm]. unfold commit, toast_effect, detail_effect, list_effect, detail_dep, synced.
  destruct t as [t|]; destruct v as [pid|]; cbn [toast viewingPoolId]; cbv zeta;
    repeat (match goal with |- context [if ?b then _ else _] => destruct b eqn:? end; cbn);
    repeat split; try discriminate; try reflexivity; unfold arrow; intros E; injection E; lia.
Qed.

Lemma toast_effect_due r prev st :
  prev <> Some (arrow r) ->
  toast_effect r prev st = (match toast st with Some _ => Some (arrow r) | None => None end, rerender st).
Proof.
  intros H. destruct st as [v c [t|] n pf d tm]; unfold toast_effect; cbn [toast]; [|reflexivity].
  unfold effect_due. rewrite bool_decide_eq_false_2 by exact H. reflexivity.
Qed.

Lemma detail_effect_synced r st : detail_effect r (detail_dep st) st = (detail_dep st, st, false).
Proof.
  unfold detail_effect, detail_dep. destruct (viewingPoolId st) as [pid|]; [|reflexivity].
  destruct (shown (Some pid)); [|reflexivity]. unfold useCallback. rewrite effect_due_same. reflexivity.
Qed.

Lemma list_effect_same r st : list_effect r (Some (Memo [listing_url st])) st = (st, false).
Proof. unfold list_effect, useCallback. rewrite effect_due_same. reflexivity. Qed.

Lemma list_effect_new r prev st :
  prev <> Some (Memo [listing_url st]) ->
  list_effect r prev st = (set_pools_fetch (fetch_start (pools_fetch st)) st, fetch_start_changes (pools_fetch st)).
Proof. intros H. unfold list_effect, effect_due, useCallback. rewrite bool_decide_eq_false_2 by exact H. reflexivity. Qed.

(** A commit on up-to-date effects runs only [Toast]'s effect. *)
Lemma commit_of_synced fx st :
  synced fx st -> exists fx', commit fx st = (fx', rerender st, false).
Proof.
  intros (Hl & Hd & Ht). unfold commit. rewrite (toast_effect_due _ _ _ Ht), Hd.
  change (detail_dep st) with (detail_dep (rerender st)) at 1. rewrite detail_effect_synced, Hl.
  change (listing_url st) with (listing_url (rerender st)) at 1. rewrite list_effect_same.
  eexists. reflexivity.
Qed.

Lemma synced_rerender fx st : synced fx st -> synced fx (rerender st).
Proof. unfold synced, detail_dep. intros H. exact H. Qed.

Lemma synced_set_pools_fetch fx st f : synced fx st -> synced fx (set_pools_fetch f st).
Proof. unfold synced, detail_dep. intros H. exact H. Qed.

(** From up-to-date effects, one render settles, whatever the fuel. *)
Lemma settle_synced fx st n :
  synced fx st -> exists fx', settle (S n) fx st = Some (fx', rerender st) /\ synced fx' (rerender st).
Proof.
  intros H. destruct (commit_of_synced fx st H) as [fx' E].
  pose proof (commit_synced fx st) as Hs. rewrite E in Hs.
  exists fx'. simpl. rewrite E. split; [reflexivity | exact (proj1 Hs)].
Qed.

Lemma settle_two fx st :
  exists fx' st', settle 2 fx st = Some (fx', st') /\ synced fx' st'.
Proof.
  pose proof (commit_synced fx st) as Hs. simpl.
  destruct (commit fx st) as [[fx1 st1] []]; destruct Hs as [Hs _].
  - destruct (settle_synced fx1 st1 0 Hs) as [fx' [E Hs']].
    exists fx', (rerender st1). split; [exact E | exact Hs'].
  - exists fx1, st1. split; [reflexivity | exact Hs].
Qed.

(** After [setDataVersion] on up-to-date effects, the commit restarts
    the toast's timer and starts the listing's fetch. *)
Lemma commit_bump fx st :
  synced fx st ->
  exists fx1, commit fx (setDataVersion st)
              = (fx1, rerender (handleDataUpdate st), fetch_start_changes (pools_fetch st)).
Proof.
  intros (Hl & Hd & Ht).
  assert (Hu : Some (Memo [listing_url st]) <> Some (Memo [listing_url (rerender (setDataVersion st))])).
  { assert (U : listing_url (rerender (setDataVersion st)) = listing_url (handleDataUpdate st)) by reflexivity.
    intros E. apply (listing_url_changes st). congruence. }
  unfold commit. rewrite (toast_effect_due _ _ _ Ht), Hd.
  change (detail_dep st) with (detail_dep (rerender (setDataVersion st))) at 1.
  rewrite detail_effect_synced, Hl, (list_effect_new _ _ _ Hu).
  replace (set_pools_fetch _ _) with (rerender (handleDataUpdate st))
    by (destruct st as [v c [t|] n pf d tm]; reflexivity).
  eexists. reflexivity.
Qed.

(** ** The cycle settles *)

(** C23: The render-effect cycle of the dashboard terminates: from any
    state and any record of past effects it settles within two renders,
    and once settled, the end of a fetch (any new state of the listing's
    hook) is rendered once and starts no new fetch.  [fetchData] keeps its
    identity through [useCallback] while the URL is the same, so its
    effect does not run again. *)
Theorem effects_settle fx st :
  exists fx' st', settle 2 fx st = Some (fx', st')
    /\ forall f, exists fx'', settle 1 fx' (set_pools_fetch f st')
                              = Some (fx'', rerender (set_pools_fetch f st')).
Proof.
  destruct (settle_two fx st) as (fx' & st' & E & Hs). exists fx', st'. split; [exact E|].
  intros f. destruct (settle_synced fx' (set_pools_fetch f st') 0 (synced_set_pools_fetch _ _ f Hs))
    as [fx'' [E' _]]. eauto.
Qed.

(** C24: [handleDataUpdate] as [app_step] takes it, the new version with the
    listing's fetch started and the toast's timer restarted, is what React
    makes of [setDataVersion(v => v + 1)]: from settled effects, the new
    URL runs the listing's effect, whose [fetchData] starts the fetch,
    and the cycle settles there. *)
Theorem handleDataUpdate_by_effects fx st :
  synced fx st ->
  exists fx', settle 2 fx (setDataVersion st) = Some (fx', rerender (handleDataUpdate st)).
Proof.
  intros Hs. destruct (commit_bump fx st Hs) as [fx1 E]. pose proof (commit_synced fx (setDataVersion st)) as Hc.
  rewrite E in Hc. cbn [settle]. rewrite E.
  destruct (fetch_start_changes (pools_fetch st)); [|eauto].
  destruct (commit_of_synced _ _ (proj1 Hc)) as [fx' E']. cbn [settle]. rewrite E', rerender_idem. eauto.
Qed.

(** ** Witnesses *)

(** The dashboard just mounted: its first render and effects. *)
Definition w_mounted : Effects * AppState :=
  match settle 2 effects_init app_init with Some p => p | None => (effects_init, app_init) end.

Lemma handleDataUpdate_by_effects_witness :
  synced (fst w_mounted) (snd w_mounted)
  /\ exists fx', settle 2 (fst w_mounted) (setDataVersion (snd w_mounted))
                 = Some (fx', rerender (handleDataUpdate (snd w_mounted))).
Proof.
  assert (H : synced (fst w_mounted) (snd w_mounted))
    by (vm_compute; split; [reflexivity | split; [reflexivity | discriminate]]).
  split; [exact H | exact (handleDataUpdate_by_effects _ _ H)].
Defined.
