(* ===== verification/View.v ===== *)
(** * The markup: the element trees App.jsx and the components render

    JSX is modelled as the tree React builds from it ([Html]): elements
    with their tag, the attributes that carry data or behaviour, and their
    children; text; and the lucide-react icons.  A static [className] is
    left out (styling); a [className] computed from data is kept.  An
    event prop is a [Handler]: an arrow that calls the setters of [App] or
    of [PoolDetailView] is the [Ui.AppEvent] it performs, so a click on the
    rendered tree ([click]) yields the events [Ui.app_step] then runs.

    A render may throw ([Exc string]): React then unmounts the whole tree
    and the page is blank.  Two such throws are in the code: a JS object
    as a child ([child_of], "Objects are not valid as a React child"), and
    the [ErrorMessage] that App.jsx uses (lines 246 and 380) but neither
    imports nor defines, so evaluating its element throws a
    [ReferenceError].

    Three display built-ins are parameters of the section [Markup]:
    [Intl.NumberFormat] currency formatting, [toLocaleDateString] and
    [Number.prototype.toString]. *)

From Stdlib Require Import QArith Qround ZArith Lia String List.
From stdpp Require Import base decidable list.
From S2P Require Import Prelude JsValue ObjectId Store Summary Api Forms Ui Legacy Render.

Import ListNotations.
Open Scope pool_scope.
#[local] Set Warnings "-register-all".

(** ** Elements *)

Inductive FormKind := FCreate | FAddPerson | FAddShares.

(** What an event prop runs. *)
Inductive Handler :=
| On (ev : AppEvent)          (** an arrow calling setters of [App] or [PoolDetailView] *)
| OnSubmit (form : FormKind)  (** a form's [handleSubmit] *)
| StopPropagation             (** [e => e.stopPropagation()] *)
| Callback (name : string).   (** a prop of a legacy view, whose parent is not in the repository *)

(** The event a form's [handleSubmit] performs with the values
    [new FormData(e.target)] reads from its inputs (App.jsx lines 166, 191
    and 215). *)
Definition form_event (k : FormKind) (a b c : string) : AppEvent :=
  match k with
  | FCreate => SubmitCreate a b c
  | FAddPerson => SubmitAddPerson a b
  | FAddShares => SubmitAddShares a
  end.

Inductive Attr :=
| AStr (name value : string)
| ANum (name : string) (value : Q)
| ABool (name : string) (value : bool)
| AData (name : string) (value : list (string * Q))
| AOn (name : string) (h : Handler).

Inductive Html :=
| Text (s : string)
| Icon (name : string)
| Elem (tag : string) (attrs : list Attr) (kids : list Html).

(** Every handler of a tree, in document order. *)
Fixpoint attr_handlers (a : list Attr) : list Handler :=
  match a with
  | [] => []
  | AOn _ h :: a' => h :: attr_handlers a'
  | _ :: a' => attr_handlers a'
  end.

Fixpoint handlers (h : Html) : list Handler :=
  match h with
  | Elem _ a ks =>
      attr_handlers a ++ (fix go ks := match ks with [] => [] | k :: ks' => handlers k ++ go ks' end) ks
  | _ => []
  end.

(** The [onClick] of an element. *)
Fixpoint on_click (a : list Attr) : list Handler :=
  match a with
  | [] => []
  | AOn n h :: a' => if String.eqb n "onClick" then h :: on_click a' else on_click a'
  | _ :: a' => on_click a'
  end.

(** The [onClick] handlers from the root down to the element at path [p]
    (the indices of the children taken), if there is one. *)
Fixpoint path_clicks (p : list nat) (h : Html) {struct p} : option (list Handler) :=
  match p, h with
  | [], Elem _ a _ => Some (on_click a)
  | [], _ => Some []
  | i :: p', Elem _ a ks =>
      match nth_error ks i with
      | Some k => (fun l => on_click a ++ l) <$> path_clicks p' k
      | None => None
      end
  | _ :: _, _ => None
  end.

(** React calls the handlers from the target up to the root, and
    [stopPropagation] ends the bubbling. *)
Fixpoint bubble (hs : list Handler) : list Handler :=
  match hs with
  | [] => []
  | StopPropagation :: _ => []
  | h :: hs' => h :: bubble hs'
  end.

(** The handlers a click on the element at [p] runs, innermost first. *)
Definition click (p : list nat) (h : Html) : option (list Handler) :=
  (fun l => bubble (rev l)) <$> path_clicks p h.

(** ** Renders that throw *)

#[export] Instance exc_ret {X} : MRet (Exc X) := fun A a => Ok a.
#[export] Instance exc_bind {X} : MBind (Exc X) :=
  fun A B k m => match m with Ok a => k a | Throw e => Throw e end.

Definition object_child_error : string :=
  "Objects are not valid as a React child".
Definition ErrorMessage_undefined : string :=
  "ReferenceError: ErrorMessage is not defined".
Definition summary_undefined : string :=
  "TypeError: Cannot destructure property 'poolDetails' of 'summary' as it is undefined.".

Section Markup.
Context (formatCurrency : Q -> string)      (** [new Intl.NumberFormat('en-US', {style: 'currency', currency: 'USD'}).format] *)
        (toLocaleDateString : Z -> string)  (** [new Date(createdAt).toLocaleDateString()] *)
        (numberText : Q -> string).         (** [Number.prototype.toString] *)

(** [{v}] in JSX: a string or a number is text; [null], [undefined] and
    booleans render nothing; an array renders its items; an object
    throws. *)
Fixpoint child_of (v : jsval) : Exc string (list Html) :=
  match v with
  | JStr s => Ok [Text s]
  | JNum q => Ok [Text (numberText q)]
  | JUndefined | JNull | JBool _ => Ok []
  | JArr xs => fold_right (fun x acc => l1 ← child_of x; l2 ← acc; mret (l1 ++ l2)) (Ok []) xs
  | JObj _ => Throw object_child_error
  end.

(** [{title}] of a string prop that may be [undefined]. *)
Definition opt_text (o : option string) : list Html :=
  match o with Some s => [Text s] | None => [] end.

(** [x.toFixed(2)]: from 1e21 on, [ToString(x)]. *)
Definition toFixed_text (x : Q) : string :=
  match toFixed2 x with Some s => s | None => numberText x end.

(** ** The components of App.jsx (lines 13-100 and 149-160) *)

Definition Spinner : Html := Icon "Loader2".

Definition Toast_view (t : Toast) : Html :=
  let '(icon, colors) := toast_style (toast_type t) in
  Elem "div" [AStr "className" ("fixed bottom-5 right-5 text-white p-4 rounded-lg shadow-2xl flex items-center z-[100] animate-fade-in-up " ++ colors)%string]
    [Icon icon; Elem "span" [] [Text (toast_message t)]].

(** [sizeClasses[size]]: [undefined] for another key. *)
Definition sizeClasses (size : string) : string :=
  if String.eqb size "lg" then "max-w-lg"
  else if String.eqb size "xl" then "max-w-xl"
  else if String.eqb size "2xl" then "max-w-2xl"
  else if String.eqb size "4xl" then "max-w-4xl"
  else if String.eqb size "6xl" then "max-w-6xl"
  else "undefined".

(** [Modal]: nothing when closed; the backdrop closes it, the panel stops
    the click from reaching the backdrop. *)
Definition Modal (isOpen : bool) (onClose : Handler) (title : option string) (size : string)
    (children : list Html) : list Html :=
  if negb isOpen then [] else
  [Elem "div" [AOn "onClick" onClose]
     [Elem "div" [AStr "className" ("bg-white rounded-xl shadow-2xl w-full " ++ sizeClasses size ++ " max-h-[90vh] flex flex-col")%string;
                  AOn "onClick" StopPropagation]
        [Elem "header" [] [Elem "h3" [] (opt_text title); Elem "button" [AOn "onClick" onClose] [Icon "X"]];
         Elem "div" [] children]]].

Definition StatCard (icon title : string) (value : list Html) (subValue : option string) (color : string) : Html :=
  Elem "div" []
    [Elem "div" [AStr "className" ("p-3 rounded-full bg-" ++ color ++ "-100 text-" ++ color ++ "-600")%string] [Icon icon];
     Elem "div" [] ([Elem "p" [] [Text title]; Elem "p" [] value]
                    ++ (if shown subValue then [Elem "p" [] (opt_text subValue)] else []))].

Definition FundingProgressBar_view (percentage : Q) : Html :=
  Elem "div" []
    [Elem "div" [] [Elem "span" [] [Text "Funding Progress"];
                    Elem "span" [] [Text (toFixed_text percentage); Text "%"]];
     Elem "div" [] [Elem "div" [AStr "style.width" (numberText percentage ++ "%")%string] []]].

Definition pie_cell (colors : list string) (index : nat) : Html :=
  let c := nth (index mod length colors) colors ""%string in
  Elem "Cell" [AStr "key" ("cell-" ++ nat_digits index)%string; AStr "fill" c; AStr "stroke" c] [].

Definition InvestmentPieChart (data : list (string * Q)) : Html :=
  Elem "div" []
    [Elem "ResponsiveContainer" []
       [Elem "PieChart" []
          [Elem "Pie" [AData "data" data; AStr "cx" "50%"; AStr "cy" "50%"; ANum "innerRadius" 60;
                       ANum "outerRadius" 85; AStr "fill" "#8884d8"; ANum "paddingAngle" 5;
                       AStr "dataKey" "value"; AStr "nameKey" "name"]
             (imap (fun i _ => pie_cell app_colors i) data);
           Elem "Tooltip" [] [];
           Elem "Legend" [AStr "iconType" "circle"] []]]].

Definition FormInput (label name : string) (props : list Attr) : Html :=
  Elem "div" []
    [Elem "label" [AStr "htmlFor" name] [Text label];
     Elem "input" ([AStr "name" name; AStr "id" name] ++ props) []].

Definition FormButton (isLoading : bool) (children : list Html) : Html :=
  Elem "button" [AStr "type" "submit"; ABool "disabled" isLoading]
    (if isLoading then [Spinner] else children).

(** The markup of the three forms (lines 177-184, 202-208, 229-233). *)
Definition CreatePoolForm_view (loading : bool) : Html :=
  Elem "form" [AOn "onSubmit" (OnSubmit FCreate)]
    [FormInput "Pool Name" "name" [AStr "type" "text"; ABool "required" true];
     FormInput "Total Funding Goal ($)" "totalAmount" [AStr "type" "number"; ABool "required" true];
     FormInput "Admin's Initial Share ($) (Optional)" "adminShare" [AStr "type" "number"];
     FormButton loading [Text "Create Pool"]].

Definition AddPersonForm_view (loading : bool) : Html :=
  Elem "form" [AOn "onSubmit" (OnSubmit FAddPerson)]
    [FormInput "Investor Name" "personName" [AStr "type" "text"; ABool "required" true];
     FormInput "Amount to Invest ($)" "amount" [AStr "type" "number"; ABool "required" true];
     FormButton loading [Text "Add Investor"]].

Definition AddAdminSharesForm_view (loading : bool) : Html :=
  Elem "form" [AOn "onSubmit" (OnSubmit FAddShares)]
    [FormInput "Amount to Add to Admin Share ($)" "extraAmount" [AStr "type" "number"; ABool "required" true];
     FormButton loading [Text "Add Shares"]].

(** ** [PoolDetailView] (lines 240-339) *)

(** An investor's row (lines 306-310). *)
Definition investor_row (i : InvestorView) : Exc string Html :=
  name ← child_of (person_personName (iv_person i));
  mret (Elem "tr" [AStr "key" (toHexString (iv_id i))]
          [Elem "td" [] name;
           Elem "td" [] [Text (formatCurrency (person_amount (iv_person i)))];
           Elem "td" [] [Text (numberText (iv_sharePercentage i)); Text "%"]]).

(** [investors.length > 0 ? investors.map(...) : <tr>...</tr>]. *)
Definition investor_rows (investors : list InvestorView) : Exc string (list Html) :=
  if (0 <? length investors)%nat then mapM investor_row investors
  else mret [Elem "tr" [] [Elem "td" [ANum "colSpan" 3]
                             [Elem "div" [] [Icon "UserPlus"; Elem "span" [] [Text "No other investors yet."]]]]].

(** The markup of a loaded summary (lines 259-339). *)
Definition detail_view (d : DetailState) (sm : Summary) : Exc string Html :=
  let f := figures sm in
  let pd := poolDetails sm in
  let ac := adminContribution sm in
  name ← child_of (pd_name pd);
  rows ← investor_rows (investors sm);
  mret (Elem "div" []
    (Modal (isAddPersonModalOpen d) (On CloseAddPerson) (Some "Add New Investor"%string) "lg" [AddPersonForm_view false]
     ++ Modal (isAddSharesModalOpen d) (On CloseAddShares) (Some "Add Admin Shares"%string) "lg" [AddAdminSharesForm_view false]
     ++ [Elem "header" []
           [Elem "div" [] [Elem "h1" [] name;
                           Elem "p" [] [Text "Created on: "; Text (toLocaleDateString (pd_createdAt pd))]];
            Elem "div" [] [Elem "button" [AOn "onClick" (On OpenAddShares)] [Icon "Briefcase"; Text " Add Admin Shares"];
                           Elem "button" [AOn "onClick" (On OpenAddPerson)] [Icon "Plus"; Text " Add Investor"]]];
         Elem "div" []
           [Elem "div" []
              [Elem "div" [] [Elem "h3" [] [Text "Funding Overview"]; FundingProgressBar_view (fundingPercentage f)];
               Elem "div" []
                 [Elem "h3" [] [Text "All Participants ("; Text (nat_digits (participants f)); Text ")"];
                  Elem "div" []
                    [Elem "table" []
                       [Elem "thead" [] [Elem "tr" [] [Elem "th" [] [Text "Name"]; Elem "th" [] [Text "Amount"];
                                                       Elem "th" [] [Text "Share %"]]];
                        Elem "tbody" []
                          (Elem "tr" [] [Elem "td" [] [Icon "Briefcase"; Text " Admin"];
                                         Elem "td" [] [Text (formatCurrency (ac_amount ac))];
                                         Elem "td" [] [Text (numberText (ac_sharePercentage ac)); Text "%"]]
                           :: rows)]]]];
            Elem "div" []
              [Elem "div" [] [Elem "h3" [] [Text "Investment Distribution"]; InvestmentPieChart (pieChartData f)];
               Elem "div" []
                 [StatCard "Target" "Funding Goal" [Text (formatCurrency (pd_totalAmount pd))] None "blue";
                  StatCard "TrendingUp" "Admin Contribution" [Text (formatCurrency (ac_amount ac))]
                           (Some (numberText (ac_sharePercentage ac) ++ "% of total")%string) "purple";
                  StatCard "Users" "Total Investors" [Text (nat_digits (length (investors sm)))] None "green"]]]])).

(** [PoolDetailView] with its early returns (lines 245-247). *)
Definition PoolDetailView_view (d : DetailState) : Exc string (list Html) :=
  let st := summary_fetch d in
  if f_loading st then mret [Elem "div" [] [Spinner]]
  else if shown (f_error st) then Throw ErrorMessage_undefined
  else match f_data st with
       | None => mret []
       | Some (BSummary sm) => h ← detail_view d sm; mret [h]
       | Some _ => Throw summary_undefined
       end.

(** ** [App] (lines 360-403) *)

(** A row of the listing (lines 387-392). *)
Definition pool_row (p : oid * PoolDoc) : Exc string Html :=
  name ← child_of (pool_name (snd p));
  mret (Elem "tr" [AStr "key" (toHexString (fst p))]
          [Elem "td" [] name;
           Elem "td" [] [Text (formatCurrency (pool_totalAmount (snd p)))];
           Elem "td" [] [Text (toLocaleDateString (pool_createdAt (snd p)))];
           Elem "td" [] [Elem "button" [AOn "onClick" (On (ViewDetails (toHexString (fst p))))] [Text "Details"]]]).

Definition pool_rows (pools : list (oid * PoolDoc)) : Exc string (list Html) :=
  if (0 <? length pools)%nat then mapM pool_row pools
  else mret [Elem "tr" [] [Elem "td" [AStr "colSpan" "4"]
                             [Text "No pools found. Click 'Create New Pool' to get started."]]].

(** The table of the main area (lines 382-398). *)
Definition pools_table_view (rows : list Html) : Html :=
  Elem "div" []
    [Elem "table" []
       [Elem "thead" [] [Elem "tr" [] [Elem "th" [] [Text "Pool Name"]; Elem "th" [] [Text "Funding Goal"];
                                       Elem "th" [] [Text "Date Created"];
                                       Elem "th" [] [Elem "span" [] [Text "Details"]]]];
        Elem "tbody" [] rows]].

(** The main area (lines 378-400) when no error is shown: the spinner
    or the table. *)
Definition main_view (pf : FetchState) : Exc string Html :=
  if f_loading pf then mret (Elem "main" [] [Elem "div" [] [Spinner]])
  else rows ← pool_rows (displayed_pools pf); mret (Elem "main" [] [pools_table_view rows]).

(** The whole page: the toast, the two modals, the header and the main
    area.  [App]'s own JSX is evaluated first, and with an error shown its
    [ErrorMessage] element (line 380) throws; then React renders the tree
    in document order, the detail view before the rows of the table. *)
Definition App_view (st : AppState) : Exc string Html :=
  if shown (f_error (pools_fetch st)) then Throw ErrorMessage_undefined else
  details ← (if shown (viewingPoolId st) then PoolDetailView_view (detail st) else mret []);
  main ← main_view (pools_fetch st);
  mret (Elem "div" []
    ((match toast st with Some t => [Toast_view t] | None => [] end)
     ++ Modal (isCreateModalOpen st) (On CloseCreate) (Some "Create New Investment Pool"%string) "lg" [CreatePoolForm_view false]
     ++ Modal (shown (viewingPoolId st)) (On CloseDetails) None "6xl" details
     ++ [Elem "div" []
           [Elem "header" [] [Elem "h1" [] [Text "Investment Dashboard"];
                              Elem "button" [AOn "onClick" (On OpenCreate)] [Icon "Plus"; Text " Create New Pool"]];
            main]])).
End Markup.

(** ** Lemmas on trees, clicks and renders *)

Lemma handlers_Elem t a ks : handlers (Elem t a ks) = attr_handlers a ++ concat (map handlers ks).
Proof. simpl. f_equal. induction ks as [|k ks IH]; simpl; congruence. Qed.

Lemma bubble_stop xs ys : bubble (xs ++ StopPropagation :: ys) = bubble xs.
Proof. induction xs as [|[] xs IH]; simpl; congruence. Qed.

Lemma Forall2_nth_error {A B} (P : A -> B -> Prop) l k i x :
  Forall2 P l k -> nth_error l i = Some x -> exists y, nth_error k i = Some y /\ P x y.
Proof.
  intros H. revert i. induction H as [|x' y' l k Hxy _ IH]; intros [|i]; simpl;
    try discriminate; [intros [= <-]; eauto | apply IH].
Qed.

Lemma nth_error_last {A} (a b c : list A) x : nth_error (a ++ b ++ c ++ [x]) (length (a ++ b ++ c)) = Some x.
Proof. rewrite !app_assoc, nth_error_app2, Nat.sub_diag by lia. reflexivity. Qed.

(** A click below an element without [onClick]. *)
Lemma path_clicks_plain i p t ks :
  path_clicks (i :: p) (Elem t [] ks)
  = match nth_error ks i with Some k => path_clicks p k | None => None end.
Proof. simpl. destruct (nth_error ks i) as [k|]; [destruct (path_clicks p k)|]; reflexivity. Qed.

Lemma path_clicks_child i p t a ks k :
  nth_error ks i = Some k ->
  path_clicks (i :: p) (Elem t a ks) = (fun l => on_click a ++ l) <$> path_clicks p k.
Proof. intros E. simpl. rewrite E. reflexivity. Qed.

Definition is_ok {X A} (m : Exc X A) : bool := match m with Ok _ => true | Throw _ => false end.

(** A JS value holds an object somewhere, where React refuses it. *)
Fixpoint has_object (v : jsval) : bool :=
  match v with
  | JObj _ => true
  | JArr xs => existsb has_object xs
  | _ => false
  end.

Lemma mapM_exc_Forall2 {X A B} (f : A -> Exc X B) l k :
  mapM f l = Ok k -> Forall2 (fun x y => f x = Ok y) l k.
Proof.
  revert k. induction l as [|x l IH]; intros k; simpl.
  - intros [= <-]. constructor.
  - destruct (f x) as [y|e] eqn:Ex; [|discriminate]. simpl.
    destruct (mapM f l) as [k'|e] eqn:El; [|discriminate]. intros [= <-].
    constructor; [exact Ex | apply IH; reflexivity].
Qed.

Lemma mapM_exc_is_ok {X A B} (f : A -> Exc X B) l :
  is_ok (mapM f l) = forallb (fun x => is_ok (f x)) l.
Proof.
  induction l as [|x l IH]; simpl; [reflexivity|].
  destruct (f x); simpl; [|reflexivity]. rewrite <- IH. destruct (mapM f l); reflexivity.
Qed.

Lemma mapM_exc_throw {X A B} (f : A -> Exc X B) l e :
  mapM f l = Throw e -> exists x, In x l /\ f x = Throw e.
Proof.
  induction l as [|x l IH]; simpl; [discriminate|].
  destruct (f x) as [y|e'] eqn:Ex; simpl.
  - destruct (mapM f l) eqn:El; [discriminate|]. intros [= ->].
    destruct (IH eq_refl) as [z [Hz Ez]]. exists z. split; [right|]; assumption.
  - intros [= ->]. exists x. split; [left; reflexivity | exact Ex].
Qed.

(** Induction on JS values, with the items of an array. *)
Lemma jsval_ind' (P : jsval -> Prop) :
  P JUndefined -> P JNull -> (forall b, P (JBool b)) -> (forall q, P (JNum q)) ->
  (forall s, P (JStr s)) -> (forall xs, Forall P xs -> P (JArr xs)) ->
  (forall fs, P (JObj fs)) -> forall v, P v.
Proof.
  intros H1 H2 H3 H4 H5 H6 H7. fix F 1.
  intros [| | | | |xs|fs]; [exact H1|exact H2|apply H3|apply H4|apply H5| |apply H7].
  apply H6. revert xs. fix G 1. intros [|x xs]; constructor; [apply F | apply G].
Qed.

Lemma handlers_Text s : handlers (Text s) = [].
Proof. reflexivity. Qed.

Lemma handlers_Icon s : handlers (Icon s) = [].
Proof. reflexivity. Qed.

Lemma opt_text_inert o : concat (map handlers (opt_text o)) = [].
Proof. destruct o; reflexivity. Qed.

Create Rewrite HintDb html.
#[export] Hint Rewrite handlers_Elem handlers_Text handlers_Icon opt_text_inert app_nil_r
  map_app concat_app : html.

(** [hsimpl] computes the handlers of a tree down to its unknown parts. *)
Ltac hsimpl :=
  repeat (cbn [map concat app attr_handlers negb]; autorewrite with html).

Section Lemmas.
Context (formatCurrency : Q -> string) (toLocaleDateString : Z -> string) (numberText : Q -> string).

Lemma child_of_is_ok v : is_ok (child_of numberText v) = negb (has_object v).
Proof.
  induction v as [| | | | |xs IH|fs] using jsval_ind'; try reflexivity.
  cbn [has_object child_of]. induction IH as [|x xs Hx _ IHxs]; [reflexivity|].
  cbn [fold_right existsb]. rewrite negb_orb, <- Hx, <- IHxs.
  destruct (child_of numberText x); [|reflexivity]. simpl.
  destruct (fold_right _ _ xs); reflexivity.
Qed.

Lemma child_of_inert v l : child_of numberText v = Ok l -> concat (map handlers l) = [].
Proof.
  revert l. induction v as [| | | | |xs IH|fs] using jsval_ind'; intros l;
    cbn [child_of]; try (intros [= <-]; reflexivity).
  revert l. induction IH as [|x xs Hx _ IHxs]; intros l; [intros [= <-]; reflexivity|].
  cbn [fold_right]. destruct (child_of numberText x) as [l1|e] eqn:E1; [|discriminate]. simpl.
  destruct (fold_right _ _ xs) as [l2|e]; [|discriminate]. intros [= <-].
  rewrite map_app, concat_app, (Hx l1 eq_refl), (IHxs l2 eq_refl). reflexivity.
Qed.

Lemma child_of_throw v e : child_of numberText v = Throw e -> e = object_child_error.
Proof.
  revert e. induction v as [| | | | |xs IH|fs] using jsval_ind'; intros e; cbn [child_of];
    try discriminate; [|intros [= <-]; reflexivity].
  revert e. induction IH as [|x xs Hx _ IHxs]; intros e; [discriminate|].
  cbn [fold_right]. destruct (child_of numberText x) as [l1|e1] eqn:E1; [|intros [= <-]; exact (Hx e1 eq_refl)].
  simpl. destruct (fold_right _ _ xs) as [l2|e2]; [discriminate|]. intros [= <-]. exact (IHxs e2 eq_refl).
Qed.

Lemma Modal_handlers b c t s kids :
  concat (map handlers (Modal b c t s kids))
  = if b then [c; StopPropagation; c] ++ concat (map handlers kids) else [].
Proof. unfold Modal. destruct b; hsimpl; reflexivity. Qed.

Lemma imap_inert {A} (f : nat -> A -> Html) (d : list A) :
  (forall i x, handlers (f i x) = []) -> concat (map handlers (imap f d)) = [].
Proof.
  revert f. induction d as [|x d IH]; intros f Hf; [reflexivity|].
  simpl. rewrite Hf, IH; [reflexivity|]. intros i y. apply Hf.
Qed.

Lemma StatCard_handlers i t v sv c : handlers (StatCard i t v sv c) = concat (map handlers v).
Proof. unfold StatCard. destruct (shown sv); hsimpl; reflexivity. Qed.

Lemma form_handlers loading :
  handlers (CreatePoolForm_view loading) = [OnSubmit FCreate]
  /\ handlers (AddPersonForm_view loading) = [OnSubmit FAddPerson]
  /\ handlers (AddAdminSharesForm_view loading) = [OnSubmit FAddShares].
Proof. destruct loading; repeat split. Qed.

Lemma pool_row_handlers p r :
  pool_row formatCurrency toLocaleDateString numberText p = Ok r ->
  handlers r = [On (ViewDetails (toHexString (fst p)))].
Proof.
  unfold pool_row. destruct (child_of numberText (pool_name (snd p))) as [l|e] eqn:E;
    [|discriminate]. intros [= <-]. hsimpl. rewrite (child_of_inert _ _ E). reflexivity.
Qed.

Lemma pool_rows_handlers ps rows :
  pool_rows formatCurrency toLocaleDateString numberText ps = Ok rows ->
  concat (map handlers rows) = map (fun p => On (ViewDetails (toHexString (fst p)))) ps.
Proof.
  unfold pool_rows. destruct (0 <? length ps)%nat eqn:L.
  - intros H. apply mapM_exc_Forall2 in H. clear L.
    induction H as [|p r ps rows Hp _ IH]; [reflexivity|].
    simpl. rewrite (pool_row_handlers _ _ Hp), IH. reflexivity.
  - intros [= <-]. destruct ps; [reflexivity | discriminate].
Qed.

(** The rows of the listing render unless a name holds an object, and
    then they throw React's error. *)
Lemma pool_rows_is_ok ps :
  is_ok (pool_rows formatCurrency toLocaleDateString numberText ps)
  = negb (existsb (fun p => has_object (pool_name (snd p))) ps).
Proof.
  unfold pool_rows. destruct (0 <? length ps)%nat eqn:L.
  - rewrite mapM_exc_is_ok. clear L. induction ps as [|p ps IH]; [reflexivity|].
    cbn [forallb existsb]. rewrite negb_orb, IH, <- child_of_is_ok. unfold pool_row.
    destruct (child_of numberText (pool_name (snd p))); reflexivity.
  - destruct ps; [reflexivity | discriminate].
Qed.

Lemma pool_rows_throw ps e :
  pool_rows formatCurrency toLocaleDateString numberText ps = Throw e -> e = object_child_error.
Proof.
  unfold pool_rows. destruct (0 <? length ps)%nat; [|discriminate].
  intros H. destruct (mapM_exc_throw _ _ _ H) as [p [_ Hp]]. revert Hp. unfold pool_row.
  destruct (child_of numberText (pool_name (snd p))) eqn:E; [discriminate|].
  intros [= <-]. exact (child_of_throw _ _ E).
Qed.

Lemma pool_row_click p r :
  pool_row formatCurrency toLocaleDateString numberText p = Ok r ->
  path_clicks [3; 0]%nat r = Some [On (ViewDetails (toHexString (fst p)))].
Proof.
  unfold pool_row. destruct (child_of numberText (pool_name (snd p))); [|discriminate].
  intros [= <-]. reflexivity.
Qed.

Lemma investor_rows_inert l rows :
  investor_rows formatCurrency numberText l = Ok rows -> concat (map handlers rows) = [].
Proof.
  unfold investor_rows. destruct (0 <? length l)%nat.
  - intros H. apply mapM_exc_Forall2 in H.
    induction H as [|i r l rows Hi _ IH]; [reflexivity|].
    revert Hi. unfold investor_row.
    destruct (child_of numberText (person_personName (iv_person i))) as [n|e] eqn:E; [|discriminate].
    intros [= <-]. hsimpl. rewrite (child_of_inert _ _ E), IH. reflexivity.
  - intros [= <-]. reflexivity.
Qed.

(** The handlers of a loaded detail view: its two modals when open, and
    its two buttons. *)
Lemma detail_view_handlers d sm h :
  detail_view formatCurrency toLocaleDateString numberText d sm = Ok h ->
  handlers h =
    (if isAddPersonModalOpen d then [On CloseAddPerson; StopPropagation; On CloseAddPerson; OnSubmit FAddPerson] else [])
    ++ (if isAddSharesModalOpen d then [On CloseAddShares; StopPropagation; On CloseAddShares; OnSubmit FAddShares] else [])
    ++ [On OpenAddShares; On OpenAddPerson].
Proof.
  unfold detail_view.
  destruct (child_of numberText (pd_name (poolDetails sm))) as [n|e] eqn:E; [|discriminate]. simpl.
  destruct (investor_rows _ _ _) as [rows|e] eqn:R; [|discriminate]. intros [= <-].
  hsimpl. rewrite !Modal_handlers, !StatCard_handlers, (child_of_inert _ _ E), (investor_rows_inert _ _ R).
  destruct (isAddPersonModalOpen d), (isAddSharesModalOpen d); hsimpl; reflexivity.
Qed.
Lemma Toast_inert t : handlers (Toast_view t) = [].
Proof. unfold Toast_view. destruct (toast_style (toast_type t)). reflexivity. Qed.

Lemma PoolDetailView_submits d l k :
  PoolDetailView_view formatCurrency toLocaleDateString numberText d = Ok l ->
  In (OnSubmit k) (concat (map handlers l)) ->
  (k = FAddPerson /\ isAddPersonModalOpen d = true) \/ (k = FAddShares /\ isAddSharesModalOpen d = true).
Proof.
  unfold PoolDetailView_view.
  destruct (f_loading _); [intros [= <-]; simpl; tauto|].
  destruct (shown _); [discriminate|].
  destruct (f_data _) as [[]|]; try discriminate; [|intros [= <-]; simpl; tauto].
  destruct (detail_view _ _ _ _ _) as [h|e] eqn:D; [|discriminate]. intros [= <-].
  cbn [map concat]. rewrite app_nil_r, (detail_view_handlers _ _ _ D).
  destruct (isAddPersonModalOpen d), (isAddSharesModalOpen d); simpl; intuition congruence.
Qed.

Lemma main_view_rows pf m :
  main_view formatCurrency toLocaleDateString numberText pf = Ok m ->
  Forall (fun x => exists id, x = On (ViewDetails id)) (handlers m).
Proof.
  unfold main_view. destruct (f_loading pf); [intros [= <-]; constructor|].
  destruct (pool_rows _ _ _ _) as [rows|e] eqn:R; [|discriminate]. intros [= <-].
  unfold pools_table_view. hsimpl. rewrite (pool_rows_handlers _ _ R). apply List.Forall_forall.
  intros x Hx. apply in_map_iff in Hx. destruct Hx as [p [<- _]]. eauto.
Qed.

(** The handlers of the page: the create modal when open, the details
    modal and the detail view when a pool is viewed, the create button,
    and the buttons of the rows. *)
Lemma App_view_handlers st h :
  App_view formatCurrency toLocaleDateString numberText st = Ok h ->
  exists dh rh,
    handlers h =
      (if isCreateModalOpen st then [On CloseCreate; StopPropagation; On CloseCreate; OnSubmit FCreate] else [])
      ++ (if shown (viewingPoolId st) then [On CloseDetails; StopPropagation; On CloseDetails] ++ dh else [])
      ++ On OpenCreate :: rh
    /\ (shown (viewingPoolId st) = true ->
        exists l, PoolDetailView_view formatCurrency toLocaleDateString numberText (detail st) = Ok l
                  /\ dh = concat (map handlers l))
    /\ Forall (fun x => exists id, x = On (ViewDetails id)) rh.
Proof.
  unfold App_view. destruct (shown (f_error (pools_fetch st))); [discriminate|].
  destruct (shown (viewingPoolId st)) eqn:V.
  - destruct (PoolDetailView_view _ _ _ (detail st)) as [l|e] eqn:D; [|discriminate].
    cbn [mbind exc_bind]. destruct (main_view _ _ _ _) as [m|e] eqn:Mv; [|discriminate].
    intros [= <-]. exists (concat (map handlers l)), (handlers m).
    split; [|split; [eauto | exact (main_view_rows _ _ Mv)]].
    hsimpl. rewrite !Modal_handlers. destruct (toast st); hsimpl; rewrite ?Toast_inert;
      destruct (isCreateModalOpen st); hsimpl; reflexivity.
  - cbn [mbind exc_bind mret exc_ret]. destruct (main_view _ _ _ _) as [m|e] eqn:Mv; [|discriminate].
    intros [= <-]. exists [], (handlers m).
    split; [|split; [discriminate | exact (main_view_rows _ _ Mv)]].
    hsimpl. rewrite !Modal_handlers. destruct (toast st); hsimpl; rewrite ?Toast_inert;
      destruct (isCreateModalOpen st); hsimpl; reflexivity.
Qed.
End Lemmas.

(** ** What the page offers and what it does *)

Section Views.
Context (formatCurrency : Q -> string) (toLocaleDateString : Z -> string) (numberText : Q -> string).
Context {St : Type} {PS : PoolStore St}.

Local Abbreviation App_view := (App_view formatCurrency toLocaleDateString numberText).

(** C25: Every form the page shows answers its submission: whatever the
    inputs, submitting a form that is on screen runs the request (or the
    client-side refusal) and shows a toast.  The guards of [app_step],
    which act on a submission only while its modal is open, never drop a
    submission the user can make. *)
Theorem rendered_forms_respond st h k a b c e (db : option St) :
  App_view st = Ok h -> In (OnSubmit k) (handlers h) ->
  toast (fst (app_step (form_event k a b c) e st db)) <> None.
Proof.
  intros Hv Hin. destruct (App_view_handlers _ _ _ _ _ Hv) as (dh & rh & Eh & Hd & Hr).
  rewrite Eh in Hin. apply in_app_iff in Hin as [Hin|Hin].
  - destruct (isCreateModalOpen st) eqn:C; [|contradiction].
    simpl in Hin. destruct Hin as [E|[E|[E|[E|[]]]]]; try discriminate. injection E as <-.
    unfold app_step, form_event. rewrite C.
    destruct (submit _ e db) as [[t ok] db']. destruct ok; discriminate.
  - apply in_app_iff in Hin as [Hin|Hin].
    + destruct (shown (viewingPoolId st)) eqn:V; [|contradiction].
      destruct (Hd eq_refl) as (l & D & ->).
      simpl in Hin. destruct Hin as [E|[E|[E|Hin]]]; try discriminate.
      destruct (viewingPoolId st) as [pid|] eqn:Vp; [|discriminate].
      destruct (PoolDetailView_submits _ _ _ _ _ _ D Hin) as [[-> O]|[-> O]];
        unfold app_step, form_event; rewrite Vp, O;
        destruct (submit _ e db) as [[t ok] db']; destruct ok; discriminate.
    + destruct Hin as [E|Hin]; [discriminate|].
      apply List.Forall_forall with (x := OnSubmit k) in Hr; [|exact Hin].
      destruct Hr as [id E]. discriminate.
Qed.

(** C21: A failed read of the listing blanks the page: when the store call
    fails or there is no connection, the handler answers 500, [useFetch]
    keeps the message, and [App]'s render throws a [ReferenceError] on the
    [ErrorMessage] it never imported, instead of the error panel with its
    Retry button. *)
Theorem listing_failure_blanks_page e st (db : option St) :
  env_fail e 0 = true \/ db = None ->
  App_view (fst (app_step FetchPools e st db)) = Throw ErrorMessage_undefined.
Proof.
  intros H. unfold app_step, call_api, run, handle, list_pools, catch, bind, ret,
    find_pools_sorted, store_call, server_error.
  destruct H as [H | ->]; [destruct db as [s|]; cbn; [rewrite H|]|]; reflexivity.
Qed.

(** C22: With the listing loaded and no pool open, the page renders exactly
    when no listed pool's name holds a JS object: one such name, which
    [POST /create] accepts since it only tests [!name], makes React throw
    and blanks the page. *)
Theorem object_name_blanks_page st :
  shown (f_error (pools_fetch st)) = false -> f_loading (pools_fetch st) = false ->
  shown (viewingPoolId st) = false ->
  (App_view st = Throw object_child_error
   <-> Exists (fun p => has_object (pool_name (snd p)) = true) (displayed_pools (pools_fetch st))).
Proof.
  intros He Hl Hv. unfold App_view, main_view. rewrite He, Hv, Hl. cbn [mbind exc_bind mret exc_ret].
  pose proof (pool_rows_is_ok formatCurrency toLocaleDateString numberText (displayed_pools (pools_fetch st))) as Ok.
  rewrite List.Exists_exists, <- existsb_exists.
  destruct (pool_rows _ _ _ _) as [rows|e] eqn:R; simpl in Ok.
  - rewrite <- (negb_involutive (existsb _ _)), <- Ok. split; discriminate.
  - rewrite (pool_rows_throw _ _ _ _ _ R) in *. rewrite <- (negb_involutive (existsb _ _)), <- Ok.
    split; reflexivity.
Qed.

(** C26: Each pool of the listing has its Details button: a click on it runs
    exactly the [ViewDetails] of that pool, which opens it. *)
Theorem details_click_opens st h ps i n p :
  App_view st = Ok h -> pools_table st = Some ps -> nth_error ps i = Some (n, p) ->
  exists path, click path h = Some [On (ViewDetails (toHexString n))].
Proof.
  unfold App_view, pools_table. intros Hv Ht Hi.
  destruct (f_loading (pools_fetch st) || shown (f_error (pools_fetch st))) eqn:B; [discriminate|].
  injection Ht as <-. apply orb_false_iff in B as [Hl He]. rewrite He in Hv.
  destruct (if shown (viewingPoolId st) then _ else _) as [l|e]; [|discriminate]. cbn [mbind exc_bind] in Hv.
  unfold main_view in Hv. rewrite Hl in Hv.
  destruct (pool_rows _ _ _ _) as [rows|e] eqn:R; [|discriminate]. cbn [mbind exc_bind mret exc_ret] in Hv.
  injection Hv as <-.
  assert (Hr : exists r, nth_error rows i = Some r
                         /\ pool_row formatCurrency toLocaleDateString numberText (n, p) = Ok r).
  { revert R. unfold pool_rows. destruct (0 <? length (displayed_pools (pools_fetch st)))%nat eqn:L.
    - intros R. exact (Forall2_nth_error _ _ _ _ _ (mapM_exc_Forall2 _ _ _ R) Hi).
    - destruct (displayed_pools (pools_fetch st)); [destruct i; discriminate | discriminate]. }
  destruct Hr as [r [Er Hr]].
  match goal with
  | |- exists _, click _ (Elem _ _ (?a ++ ?b ++ ?c ++ [?x])) = _ =>
      exists (length (a ++ b ++ c) :: [1; 0; 0; 1; i; 3; 0])%nat; unfold click;
      rewrite path_clicks_plain, nth_error_last; cbv iota
  end.
  unfold pools_table_view. do 5 (rewrite path_clicks_plain; cbn [nth_error]).
  rewrite Er, (pool_row_click _ _ _ _ _ Hr). reflexivity.
Qed.

(** C27: A modal closes on its backdrop and on its X button, but a click
    inside its body runs exactly what that click runs in the body alone:
    the panel's [stopPropagation] keeps it from reaching the backdrop. *)
Theorem modal_click ev title size kids :
  exists m, Modal true (On ev) title size kids = [m]
    /\ click [] m = Some [On ev] /\ click [0; 0; 1]%nat m = Some [On ev]
    /\ forall p, click (0 :: 1 :: p)%nat m = click p (Elem "div" [] kids).
Proof.
  eexists. split; [reflexivity|]. split; [reflexivity|]. split; [reflexivity|].
  intros p. unfold click. cbn [path_clicks nth_error on_click String.eqb].
  destruct (path_clicks p _) as [l|]; [|reflexivity]. cbn [fmap option_fmap option_map].
  f_equal. rewrite rev_app_distr, (rev_app_distr [StopPropagation]). simpl.
  rewrite <- app_assoc. apply bubble_stop.
Qed.
End Views.

(** ** Witnesses *)

Definition w_currency (q : Q) : string := "$" ++ nat_digits (Z.to_nat (Qfloor q)).
Definition w_date (t : Z) : string := "1/1/2025".
Definition w_number (q : Q) : string := nat_digits (Z.to_nat (Qfloor q)).

Local Abbreviation w_view := (App_view w_currency w_date w_number).

Lemma rendered_forms_respond_witness :
  exists h, w_view w_app_open = Ok h /\ In (OnSubmit FCreate) (handlers h)
    /\ toast (fst (app_step (form_event FCreate "Alpha" "1000" "") (no_fault 1 alpha_id) w_app_open (Some s_empty)))
       <> None.
Proof.
  eexists. split; [reflexivity|]. split; [simpl; tauto|].
  eapply (rendered_forms_respond w_currency w_date w_number w_app_open _ FCreate);
    [reflexivity | simpl; tauto].
Defined.

Lemma listing_failure_blanks_page_witness :
  w_view (fst (app_step FetchPools (no_fault 1 0%N) app_init (None : option DB)))
  = Throw ErrorMessage_undefined.
Proof. apply listing_failure_blanks_page. right. reflexivity. Defined.

(** A pool named by a JS object, which [POST /create] stores, then the
    listing fetched from that store. *)
Definition req_object_name : jsval :=
  JObj [("name"%string, JObj []); ("totalAmount"%string, JNum 100)].
Definition w_object_created : Exc StoreError Response * option DB :=
  run (handle (CreatePool req_object_name)) (no_fault 1 alpha_id) (Some s_empty).
Definition w_object_store : option DB := snd w_object_created.
Definition w_object_state : AppState :=
  fst (app_step FetchPools (no_fault 2 0%N) app_init w_object_store).

Lemma object_name_blanks_page_witness :
  (exists r, fst w_object_created = Ok r /\ status r = 201%Z)
  /\ w_view w_object_state = Throw object_child_error.
Proof.
  split; [eexists; split; reflexivity|].
  apply (object_name_blanks_page w_currency w_date w_number w_object_state);
    [reflexivity | reflexivity | reflexivity | vm_compute; constructor; reflexivity].
Defined.

Lemma details_click_opens_witness :
  exists h, w_view (fst w_list_step) = Ok h
    /\ exists path, click path h = Some [On (ViewDetails (toHexString alpha_id))].
Proof.
  eexists. split; [reflexivity|].
  apply (details_click_opens w_currency w_date w_number (fst w_list_step) _ [(alpha_id, alpha_doc)] 0
           alpha_id alpha_doc); reflexivity.
Defined.
