(* ===== verification/LegacyView.v ===== *)
(** * The markup of the legacy components and of views/PoolDetail.jsx

    components/Spinner.jsx, components/ErrorMessage.jsx,
    components/InfoCard.jsx and components/InvestmentPieChart.jsx, and the
    body of views/PoolDetail.jsx (lines 10-71), as element trees of
    [View].  The callbacks these views receive from a parent that is not
    in the repository ([onBack], and [retry] of the legacy hook) are
    [Callback]s.  Unlike App.jsx, PoolDetail.jsx imports [ErrorMessage],
    so a failed read shows the error panel with its Retry button; the
    theorems compare the two detail views. *)

From Stdlib Require Import QArith ZArith String List.
From stdpp Require Import base decidable list.
From S2P Require Import Prelude JsValue ObjectId Store Summary Api Forms Ui Legacy Render View.

Import ListNotations.
Open Scope pool_scope.

(** ** The components *)

(** components/Spinner.jsx. *)
Definition SpinnerComponent : Html :=
  Elem "div" [] [Elem "div" [AStr "role" "status"] [Elem "span" [] [Text "Loading..."]]].

(** components/ErrorMessage.jsx: the message, and a Retry button when
    [onRetry] is given. *)
Definition ErrorMessage (message : string) (onRetry : option Handler) : Html :=
  Elem "div" [AStr "role" "alert"]
    ([Elem "p" [] [Text "An Error Occurred"]; Elem "p" [] [Text message]]
     ++ match onRetry with
        | Some h => [Elem "button" [AOn "onClick" h] [Text "Retry"]]
        | None => []
        end).

(** components/InfoCard.jsx, with [className = ''] by default. *)
Definition InfoCard (title : string) (value : list Html) (subValue : option string) (className : string) : Html :=
  Elem "div" [AStr "className" ("bg-white p-5 rounded-lg border border-gray-200 " ++ className)%string]
    ([Elem "h3" [] [Text title]; Elem "p" [] value]
     ++ (if shown subValue then [Elem "p" [] (opt_text subValue)] else [])).

(** components/InvestmentPieChart.jsx. *)
Definition legacy_pie_cell (index : nat) : Html :=
  Elem "Cell" [AStr "key" ("cell-" ++ nat_digits index)%string;
               AStr "fill" (nth (index mod length legacy_colors) legacy_colors ""%string)] [].

Definition LegacyInvestmentPieChart (data : list (string * Q)) : Html :=
  Elem "div" [AStr "style.width" "100%"; ANum "style.height" 300]
    [Elem "ResponsiveContainer" []
       [Elem "PieChart" []
          [Elem "Pie" [AData "data" data; AStr "cx" "50%"; AStr "cy" "50%"; ABool "labelLine" false;
                       ANum "outerRadius" 80; AStr "fill" "#8884d8"; AStr "dataKey" "value"; AStr "nameKey" "name"]
             (imap (fun i _ => legacy_pie_cell i) data);
           Elem "Tooltip" [] [];
           Elem "Legend" [] []]]].

(** ** views/PoolDetail.jsx *)

Section LegacyMarkup.
Context (formatCurrency : Q -> string) (toLocaleDateString : Z -> string) (numberText : Q -> string).

(** An investor's row (line 62). *)
Definition legacy_investor_row (i : InvestorView) : Exc string Html :=
  name ← child_of numberText (person_personName (iv_person i));
  mret (Elem "tr" [AStr "key" (toHexString (iv_id i))]
          [Elem "td" [] name;
           Elem "td" [] [Text (formatCurrency (person_amount (iv_person i)))];
           Elem "td" [] [Text (numberText (iv_sharePercentage i)); Text "%"]]).

(** The body of a loaded summary (lines 28-71). *)
Definition legacy_detail_view (sm : Summary) : Exc string Html :=
  let f := legacy_figures sm in
  let pd := poolDetails sm in
  let ist := investmentStatus sm in
  let ac := adminContribution sm in
  name ← child_of numberText (pd_name pd);
  rows ← mapM legacy_investor_row (investors sm);
  mret (Elem "div" []
    [Elem "button" [AOn "onClick" (Callback "onBack")] [Text "← Back to All Pools"];
     Elem "div" []
       [Elem "h1" [] name;
        Elem "p" [] [Text "Created on: "; Text (toLocaleDateString (pd_createdAt pd))];
        Elem "div" []
          [Elem "h2" [] [Text "Funding Status"];
           Elem "div" [] [Elem "div" [AStr "style.width" (numberText (fundingPercentage f) ++ "%")%string] []];
           Elem "div" []
             [InfoCard "Total Raised" [Text (formatCurrency (totalInvestment ist))]
                       (Some (toFixed_text numberText (fundingPercentage f) ++ "% Funded")%string) "";
              InfoCard "Funding Goal" [Text (formatCurrency (pd_totalAmount pd))] None "";
              InfoCard "Amount Remaining" [Text (formatCurrency (remainingAmount ist))] None
                       (if isFunded ist then "bg-green-50" else "bg-orange-50")]];
        Elem "div" []
          [Elem "div" [] [Elem "h2" [] [Text "Investment Distribution"];
                          LegacyInvestmentPieChart (pieChartData f)];
           Elem "div" []
             [Elem "h2" [] [Text "Participants ("; Text (nat_digits (participants f)); Text ")"];
              Elem "div" []
                [Elem "table" []
                   [Elem "thead" [] [Elem "tr" [] [Elem "th" [] [Text "Name"]; Elem "th" [] [Text "Amount Invested"];
                                                   Elem "th" [] [Text "Share %"]]];
                    Elem "tbody" []
                      (Elem "tr" [] [Elem "td" [] [Text "Admin"];
                                     Elem "td" [] [Text (formatCurrency (ac_amount ac))];
                                     Elem "td" [] [Text (numberText (ac_sharePercentage ac)); Text "%"]]
                       :: rows)]]]]]]).

(** [PoolDetail] with its early returns (lines 13-15). *)
Definition PoolDetail_view (st : FetchState) : Exc string (list Html) :=
  if f_loading st then mret [SpinnerComponent]
  else if shown (f_error st) then mret [ErrorMessage (error_text (f_error st)) (Some (Callback "retry"))]
  else match f_data st with
       | None => mret []
       | Some (BSummary sm) => h ← legacy_detail_view sm; mret [h]
       | Some _ => Throw summary_undefined
       end.
End LegacyMarkup.

(** ** The two detail views *)

Lemma is_ok_bind_ret {X A B} (m : Exc X A) (g : A -> B) : is_ok (x ← m; mret (g x)) = is_ok m.
Proof. destruct m; reflexivity. Qed.

Lemma forallb_eq {A} (f g : A -> bool) l : (forall x, f x = g x) -> forallb f l = forallb g l.
Proof. intros H. induction l as [|x l IH]; simpl; congruence. Qed.

Section Compare.
Context (formatCurrency : Q -> string) (toLocaleDateString : Z -> string) (numberText : Q -> string).

(** A read error: the legacy view shows the error panel, whose Retry
    button calls the hook's [retry], where App.jsx's detail view throws on
    the [ErrorMessage] it never imported. *)
Lemma legacy_detail_error_retry st :
  f_loading st = false -> shown (f_error st) = true ->
  exists h, PoolDetail_view formatCurrency toLocaleDateString numberText st = Ok [h]
    /\ click [2%nat] h = Some [Callback "retry"]
    /\ forall a b, PoolDetailView_view formatCurrency toLocaleDateString numberText (mkDetail a b st)
                   = Throw ErrorMessage_undefined.
Proof.
  intros Hl He. unfold PoolDetail_view, PoolDetailView_view. cbn [summary_fetch]. rewrite Hl, He.
  eexists. split; [reflexivity|]. split; [reflexivity|]. reflexivity.
Qed.

Lemma investor_rows_is_ok l :
  is_ok (investor_rows formatCurrency numberText l)
  = forallb (fun i => negb (has_object (person_personName (iv_person i)))) l
  /\ is_ok (mapM (legacy_investor_row formatCurrency numberText) l)
     = forallb (fun i => negb (has_object (person_personName (iv_person i)))) l.
Proof.
  unfold investor_rows.
  assert (E : forall i, is_ok (investor_row formatCurrency numberText i)
                        = negb (has_object (person_personName (iv_person i)))
                        /\ is_ok (legacy_investor_row formatCurrency numberText i)
                        = negb (has_object (person_personName (iv_person i)))).
  { intros i. unfold investor_row, legacy_investor_row. rewrite !is_ok_bind_ret, child_of_is_ok. split; reflexivity. }
  split.
  - destruct (0 <? length l)%nat eqn:L; [|destruct l; [reflexivity | discriminate]].
    rewrite mapM_exc_is_ok. apply forallb_eq. intros i. exact (proj1 (E i)).
  - rewrite mapM_exc_is_ok. apply forallb_eq. intros i. exact (proj2 (E i)).
Qed.

(** Both detail views render a loaded summary exactly when neither the
    pool's name nor an investor's name holds a JS object. *)
Lemma detail_views_render_alike d sm :
  is_ok (legacy_detail_view formatCurrency toLocaleDateString numberText sm)
  = is_ok (detail_view formatCurrency toLocaleDateString numberText d sm).
Proof.
  unfold legacy_detail_view, detail_view. cbv zeta.
  destruct (investor_rows_is_ok (investors sm)) as [E1 E2].
  destruct (child_of numberText (pd_name (poolDetails sm))); [|reflexivity]. cbn [mbind exc_bind].
  destruct (mapM _ (investors sm)), (investor_rows _ _ (investors sm)); cbn in *; congruence.
Qed.
End Compare.
