(* ===== verification/Submissions.v ===== *)
(** * Requests in flight: [useApi]'s [loading] and the create modal

    [useApi] (App.jsx lines 107-123) keeps a [loading] flag for each
    mounted form: [post] sets it, awaits the answer, and clears it in its
    [finally].  [FormButton] (lines 156-160) disables the submit button
    while it is set, which also blocks the implicit submission of the
    form (HTML does not submit a form whose default button is disabled).

    A request is asynchronous.  While it is in flight the user may close
    the create modal, which unmounts [CreatePoolForm] and its [useApi], and
    open it again, which mounts a new form whose [loading] starts [false].
    [Flow] is the create modal of [App] (lines 363-365) with the requests
    in flight, [flow_step] its events: the answer of a request
    ([FResolve]) runs [showToast], then [onComplete] ([setCreateModalOpen(false)]
    and [handleDataUpdate]) when it succeeded, then the [finally] of its
    own form.  [Ui.app_step] takes a submission as one step; the
    refinement theorem below says it is the case where the answer comes
    before any other event. *)

From Stdlib Require Import QArith ZArith String List Lia.
From stdpp Require Import base decidable.
From S2P Require Import Prelude JsValue ObjectId Store Summary Api Forms Ui.

Import ListNotations.
Open Scope pool_scope.

(** ** The create modal with its requests *)

(** A [post] awaiting its answer: the form that sent it, the request, and
    the messages of its toasts. *)
Record Pending := mkPending {
  p_instance : nat;
  p_request : Request;
  p_success : string;
  p_default_error : string
}.

Record Flow (St : Type) := mkFlow {
  fl_open : bool;             (** [isCreateModalOpen] *)
  fl_instance : nat;          (** mounts of [CreatePoolForm]: the last one is the mounted form *)
  fl_loading : bool;          (** [loading] of the last form's [useApi] *)
  fl_pending : list Pending;  (** the posts awaiting their answer, oldest first *)
  fl_toast : option Toast;
  fl_version : nat;           (** [dataVersion] *)
  fl_db : option St           (** the store behind the server *)
}.
Arguments mkFlow {St}.
Arguments fl_open {St}.
Arguments fl_instance {St}.
Arguments fl_loading {St}.
Arguments fl_pending {St}.
Arguments fl_toast {St}.
Arguments fl_version {St}.
Arguments fl_db {St}.

Inductive FlowEvent :=
| FOpen                                       (** the Create New Pool button *)
| FClose                                      (** the backdrop or the X of the modal *)
| FSubmit (name totalAmount adminShare : string)
| FResolve (i : nat) (e : Env).               (** the answer to the [i]-th request in flight *)

Fixpoint remove_nth {A} (i : nat) (l : list A) : list A :=
  match l, i with
  | [], _ => []
  | _ :: l', O => l'
  | x :: l', S i' => x :: remove_nth i' l'
  end.

Section Flows.
Context {St : Type} {PS : PoolStore St}.

Definition flow_init (db : option St) : Flow St := mkFlow false 0 false [] None 0 db.

Definition flow_step (ev : FlowEvent) (fl : Flow St) : Flow St :=
  match ev with
  | FOpen =>
      if fl_open fl then fl
      else mkFlow true (S (fl_instance fl)) false (fl_pending fl) (fl_toast fl) (fl_version fl) (fl_db fl)
  | FClose =>
      mkFlow false (fl_instance fl) (fl_loading fl) (fl_pending fl) (fl_toast fl) (fl_version fl) (fl_db fl)
  | FSubmit n t a =>
      if fl_open fl && negb (fl_loading fl) then
        match CreatePoolForm n t a with
        | Refuse tst =>
            mkFlow (fl_open fl) (fl_instance fl) (fl_loading fl) (fl_pending fl) (Some tst) (fl_version fl) (fl_db fl)
        | Post req okm errm =>
            mkFlow (fl_open fl) (fl_instance fl) true
                   (fl_pending fl ++ [mkPending (fl_instance fl) req okm errm])
                   (fl_toast fl) (fl_version fl) (fl_db fl)
        end
      else fl
  | FResolve i e =>
      match nth_error (fl_pending fl) i with
      | None => fl
      | Some p =>
          let '(res, db') := call_api (p_request p) e (fl_db fl) in
          let '(tst, ok) := finish_submission (p_success p) (p_default_error p) res in
          mkFlow (if ok then false else fl_open fl) (fl_instance fl)
                 (if Nat.eqb (p_instance p) (fl_instance fl) then false else fl_loading fl)
                 (remove_nth i (fl_pending fl)) (Some tst)
                 (if ok then S (fl_version fl) else fl_version fl) db'
      end
  end.

Fixpoint flow_run (evs : list FlowEvent) (fl : Flow St) : Flow St :=
  match evs with
  | [] => fl
  | ev :: evs' => flow_run evs' (flow_step ev fl)
  end.

Inductive flow_reachable (db0 : option St) : Flow St -> Prop :=
| fl_reach_init : flow_reachable db0 (flow_init db0)
| fl_reach_step ev fl : flow_reachable db0 fl -> flow_reachable db0 (flow_step ev fl).
End Flows.

(** ** Lemmas *)

(** The requests in flight of the last mounted form. *)
Definition inflight {St} (fl : Flow St) : list Pending :=
  List.filter (fun p => Nat.eqb (p_instance p) (fl_instance fl)) (fl_pending fl).

(** No request is older than its form, and the last form is loading
    exactly when it has a request in flight, then only one. *)
Definition flow_ok {St} (fl : Flow St) : Prop :=
  Forall (fun p => p_instance p <= fl_instance fl)%nat (fl_pending fl)
  /\ length (inflight fl) = (if fl_loading fl then 1 else 0)%nat.

Lemma remove_nth_length_filter {A} (f : A -> bool) i l x :
  nth_error l i = Some x ->
  (length (List.filter f (remove_nth i l)) + (if f x then 1 else 0) = length (List.filter f l))%nat.
Proof.
  revert i. induction l as [|y l IH]; intros [|i]; simpl; try discriminate.
  - intros [= <-]. destruct (f y); simpl; lia.
  - intros E. specialize (IH i E). destruct (f y); simpl; lia.
Qed.

Lemma Forall_remove_nth {A} (P : A -> Prop) i l : Forall P l -> Forall P (remove_nth i l).
Proof.
  intros H. revert i. induction H as [|y l Hy Hl IH]; intros [|j]; simpl;
    [constructor | constructor | exact Hl | constructor; [exact Hy | apply IH]].
Qed.

Lemma filter_none {A} (f : A -> bool) l : Forall (fun x => f x = false) l -> List.filter f l = [].
Proof. induction 1 as [|x l Hx _ IH]; simpl; [reflexivity | rewrite Hx; exact IH]. Qed.

Lemma remove_nth_middle {A} (l r : list A) x : remove_nth (length l) (l ++ x :: r) = l ++ r.
Proof. induction l as [|y l IH]; simpl; [reflexivity | rewrite IH; reflexivity]. Qed.

Section FlowLemmas.
Context {St : Type} {PS : PoolStore St}.

Lemma flow_ok_init (db : option St) : flow_ok (flow_init db).
Proof. split; [constructor | reflexivity]. Qed.

Lemma flow_ok_step ev (fl : Flow St) : flow_ok fl -> flow_ok (flow_step ev fl).
Proof.
  destruct fl as [o k ld pend tst v db]. unfold flow_ok, inflight. cbn.
  intros [Hf Hl]. destruct ev as [| |n t a|i e]; cbn.
  - destruct o; cbn; [split; assumption|]. split.
    + eapply Forall_impl; [|exact Hf]. intros p Hp. cbn in *. lia.
    + rewrite filter_none; [reflexivity|]. eapply Forall_impl; [|exact Hf].
      intros p Hp. cbn in *. apply Nat.eqb_neq. lia.
  - split; assumption.
  - destruct (o && negb ld) eqn:G; [|split; assumption].
    apply andb_prop in G as [_ G]. apply negb_true_iff in G. subst ld.
    unfold CreatePoolForm. cbn. split.
    + apply Forall_app. split; [exact Hf|]. constructor; [simpl; lia | constructor].
    + rewrite List.filter_app, length_app, Hl. cbn. rewrite Nat.eqb_refl. reflexivity.
  - destruct (nth_error pend i) as [p|] eqn:E; [|split; assumption].
    destruct (call_api (p_request p) e db) as [res db'].
    destruct (finish_submission _ _ res) as [tst' ok]. cbn. split.
    + apply Forall_remove_nth, Hf.
    + pose proof (remove_nth_length_filter (fun q => Nat.eqb (p_instance q) k) i pend p E) as L.
      destruct (Nat.eqb (p_instance p) k); [|lia].
      destruct ld; lia.
Qed.
End FlowLemmas.

(** ** The create modal as [Ui.app_step] sees it *)

(** The events of [app_step] that the create modal handles, as events of
    the modal: a submission is its [post] answered at once. *)
Definition create_events (ev : AppEvent) (e : Env) : list FlowEvent :=
  match ev with
  | OpenCreate => [FOpen]
  | CloseCreate => [FClose]
  | SubmitCreate n t a => [FSubmit n t a; FResolve 0 e]
  | _ => []
  end.

Definition is_create_event (ev : AppEvent) : bool :=
  match ev with OpenCreate | CloseCreate | SubmitCreate _ _ _ => true | _ => false end.

(** No request in flight. *)
Definition quiescent {St} (fl : Flow St) : Prop := fl_pending fl = [] /\ fl_loading fl = false.

(** The part of [App]'s state the modal shares with [AppState]. *)
Definition flow_abs {St} (st : AppState) (fl : Flow St) (db : option St) : Prop :=
  fl_open fl = isCreateModalOpen st /\ fl_toast fl = toast st
  /\ fl_version fl = dataVersion st /\ fl_db fl = db.

Section FlowRuns.
Context {St : Type} {PS : PoolStore St}.

Lemma flow_run_app evs1 evs2 (fl : Flow St) :
  flow_run (evs1 ++ evs2) fl = flow_run evs2 (flow_run evs1 fl).
Proof. revert fl. induction evs1 as [|ev evs IH]; intros fl; [reflexivity | apply IH]. Qed.

Lemma flow_reachable_run db0 evs (fl : Flow St) :
  flow_reachable db0 fl -> flow_reachable db0 (flow_run evs fl).
Proof.
  revert fl. induction evs as [|ev evs IH]; intros fl H; [exact H|].
  apply IH. constructor. exact H.
Qed.
End FlowRuns.

(** ** Theorems *)

Section FlowTheorems.
Context {St : Type} {PS : PoolStore St}.

(** C28: In every state the create modal can reach, no request is older than
    the form that is mounted, and that form's [loading] is set exactly
    when one of its own requests is in flight, and then only one: the
    disabled [FormButton] lets a mounted form send one request at a time. *)
Theorem flow_reachable_ok (db0 : option St) fl : flow_reachable db0 fl -> flow_ok fl.
Proof. induction 1; [apply flow_ok_init | apply flow_ok_step; assumption]. Qed.

(** C29: Refinement: for the events of the create modal, [Ui.app_step] is
    the modal's [flow_step] run with the request answered before any other
    event ([FSubmit] then [FResolve 0]): from a state with no request in
    flight that agrees with the [AppState] on the open flag, the toast,
    [dataVersion] and the store, the two agree afterwards, and no request
    is left in flight. *)
Theorem create_flow_refines_app_step ev e st (fl : Flow St) db :
  is_create_event ev = true -> flow_abs st fl db -> quiescent fl ->
  flow_abs (fst (app_step ev e st db)) (flow_run (create_events ev e) fl) (snd (app_step ev e st db))
  /\ quiescent (flow_run (create_events ev e) fl).
Proof.
  destruct fl as [o k ld pend tst v d]. unfold flow_abs, quiescent. cbn.
  intros Hev (Ho & Ht & Hv & Hd) [-> ->]. subst tst v d.
  destruct ev as [| | | | | | | |n t a| | | | |]; try discriminate; cbn -[CreatePoolForm].
  - destruct o; cbn; repeat split; assumption.
  - repeat split; reflexivity.
  - rewrite <- Ho. destruct o; [|repeat split; assumption]. cbn -[CreatePoolForm].
    destruct (CreatePoolForm n t a) as [tst'|req okm errm]; cbn; [repeat split; assumption|].
    destruct (call_api req e db) as [res db']. cbn.
    destruct (finish_submission okm errm res) as [tst' ok]. rewrite Nat.eqb_refl.
    destruct ok; cbn; repeat split; assumption.
Qed.

(** C30: The disabled button guards one mount of the form only.  From an
    open modal whose form is not loading, a second submission in the same
    mount is ignored; but submitting, closing the modal and opening it
    again lets the new form, whose [loading] starts [false], post the
    same request once more, so two posts of it are in flight.  When the
    first of them then succeeds, its [onComplete] closes the modal the user
    reopened and bumps [dataVersion], while the new form's post is still
    in flight. *)
Theorem remount_resubmits (fl : Flow St) n t a req okm errm e :
  fl_open fl = true -> fl_loading fl = false -> CreatePoolForm n t a = Post req okm errm ->
  let pend := fl_pending fl in
  let k := fl_instance fl in
  let fl2 := flow_run [FSubmit n t a; FClose; FOpen; FSubmit n t a] fl in
  fl_pending (flow_run [FSubmit n t a; FSubmit n t a] fl) = pend ++ [mkPending k req okm errm]
  /\ fl_pending fl2 = pend ++ [mkPending k req okm errm; mkPending (S k) req okm errm]
  /\ fl_open fl2 = true /\ fl_loading fl2 = true
  /\ (snd (finish_submission okm errm (fst (call_api req e (fl_db fl)))) = true ->
      let fl3 := flow_step (FResolve (length pend) e) fl2 in
      fl_open fl3 = false /\ fl_loading fl3 = true /\ fl_version fl3 = S (fl_version fl)
      /\ fl_pending fl3 = pend ++ [mkPending (S k) req okm errm]).
Proof.
  destruct fl as [o k ld pend tst v d]. cbn. intros -> -> HC.
  unfold CreatePoolForm in HC. injection HC as <- <- <-.
  cbn -[call_api finish_submission]. rewrite <- app_assoc. cbn [app]. split; [reflexivity|]. split; [reflexivity|].
  split; [reflexivity|]. split; [reflexivity|]. intros Hok.
  rewrite nth_error_app2, Nat.sub_diag by lia. cbn -[call_api finish_submission].
  destruct (call_api _ e d) as [res db']. cbn -[finish_submission] in Hok |- *.
  destruct (finish_submission _ _ res) as [tst' ok]. cbn in Hok. subst ok.
  rewrite (proj2 (Nat.eqb_neq k (S k))) by lia.
  rewrite remove_nth_middle. repeat split.
Qed.
End FlowTheorems.

(** ** A form closed and opened again while its request is in flight *)

(** Submit "Alpha", close the modal before the answer, open it again and
    submit "Alpha" once more; the answers come afterwards. *)
Definition double_submit_events : list FlowEvent :=
  [FOpen; FSubmit "Alpha" "1000" ""; FClose; FOpen; FSubmit "Alpha" "1000" "";
   FResolve 0 (no_fault 1 7%N); FResolve 0 (no_fault 2 8%N)]%string.

Definition double_submit : Flow DB := flow_run double_submit_events (flow_init (Some s_empty)).

(** The disabled button guards one mount of the form only: a second
    submission in the same mount is ignored, but after closing and
    reopening the modal the new form's [loading] starts [false], both
    posts are in flight together, and both create a pool, so the store
    holds two pools named "Alpha" and [dataVersion] moves twice. *)
Example double_submit_creates_two_pools :
  length (fl_pending (flow_run [FOpen; FSubmit "Alpha" "1000" ""; FSubmit "Alpha" "1000" ""]%string
                        (flow_init (Some s_empty)))) = 1%nat
  /\ length (fl_pending (flow_run (firstn 5 double_submit_events) (flow_init (Some s_empty)))) = 2%nat
  /\ option_map (fun s => map (fun p => (fst p, pool_name (snd p))) (db_pools s)) (fl_db double_submit)
     = Some [(7%N, JStr "Alpha"); (8%N, JStr "Alpha")]%string
  /\ fl_version double_submit = 2%nat
  /\ fl_open double_submit = false.
Proof. vm_compute. repeat split. Qed.

(** ** Witnesses *)

Definition w_flow_open : Flow DB := mkFlow true 1 false [] None 0 (Some s_empty).

Lemma flow_reachable_ok_witness :
  flow_reachable (Some s_empty) double_submit /\ flow_ok double_submit.
Proof.
  assert (R : flow_reachable (Some s_empty) double_submit)
    by (apply flow_reachable_run; constructor).
  split; [exact R | exact (flow_reachable_ok (Some s_empty) double_submit R)].
Defined.

Lemma create_flow_refines_app_step_witness :
  flow_abs (fst (app_step (SubmitCreate "Alpha" "1000" "") (no_fault 1 alpha_id) w_app_open (Some s_empty)))
           (flow_run (create_events (SubmitCreate "Alpha" "1000" "") (no_fault 1 alpha_id)) w_flow_open)
           (snd (app_step (SubmitCreate "Alpha" "1000" "") (no_fault 1 alpha_id) w_app_open (Some s_empty)))
  /\ quiescent (flow_run (create_events (SubmitCreate "Alpha" "1000" "") (no_fault 1 alpha_id)) w_flow_open).
Proof.
  apply create_flow_refines_app_step; [reflexivity | repeat split | repeat split].
Defined.

Lemma remount_resubmits_witness :
  fl_open w_flow_open = true /\ fl_loading w_flow_open = false
  /\ snd (finish_submission "Pool created successfully!" "Failed to create pool."
           (fst (call_api (CreatePool (create_body "Alpha" "1000" "")) (no_fault 1 alpha_id) (fl_db w_flow_open))))
     = true
  /\ fl_open (flow_step (FResolve 0 (no_fault 1 alpha_id))
                (flow_run [FSubmit "Alpha" "1000" ""; FClose; FOpen; FSubmit "Alpha" "1000" ""]%string w_flow_open))
     = false.
Proof.
  assert (Hok : snd (finish_submission "Pool created successfully!" "Failed to create pool."
           (fst (call_api (CreatePool (create_body "Alpha" "1000" "")) (no_fault 1 alpha_id) (fl_db w_flow_open))))
     = true) by (vm_compute; reflexivity).
  split; [reflexivity|]. split; [reflexivity|]. split; [exact Hok|].
  exact (proj1 (proj2 (proj2 (proj2 (proj2
           (remount_resubmits w_flow_open "Alpha" "1000" "" _ _ _ (no_fault 1 alpha_id) eq_refl eq_refl eq_refl)))) Hok)).
Defined.
